(** * finding-africa: the attachment processor ([processor.py])

    A shallow embedding of the mail-attachment pipeline of [processor.py]
    and the properties of its specification.

    Conventions of the embedding.
    - Python [str] values are [string]s of ASCII characters; on such text
      the regular expression class [\W] is the complement of
      [[A-Za-z0-9_]].
    - An exception is a value of [exn]; a computation that may raise
      returns [res A].  Code that raises after it changed files, mail or
      the log runs in the monad [M] (state plus exception), which keeps the
      state reached when the exception was raised.
    - A [DataFrame] is the value [pd.read_excel] returned; the parsing of
      the spreadsheet format itself is the spreadsheet library's work.
    - The four directories are four finite maps from a file's base name to
      its content.  File operations fail only for a missing file and mail
      is always accepted by the SMTP server; other failures of the
      environment (permissions, full disk, network) are outside the
      embedding. *)

From Stdlib Require Import ZArith String Ascii List DecimalString DecimalPos DecimalZ.
From stdpp Require Import gmap strings list fin_maps.

Local Open Scope string_scope.
Local Open Scope Z_scope.

(** ** Exceptions and fallible computations *)

Inductive exn : Type :=
  | KeyError | IndexError | TypeError | ValueError | AttributeError
  | NoSectionError | NoOptionError
  | DuplicateSectionError | DuplicateOptionError | MissingSectionHeaderError
  | FileNotFoundError | BadZipFile.

Inductive res (A : Type) : Type :=
  | Ok (a : A)
  | Raise (e : exn).
Arguments Ok {A} a.
Arguments Raise {A} e.

#[global] Instance res_ret : MRet res := fun A a => Ok a.
#[global] Instance res_bind : MBind res := fun A B f m =>
  match m with
  | Ok a => f a
  | Raise e => Raise e
  end.

Definition is_ok {A} (r : res A) : bool :=
  match r with Ok _ => true | Raise _ => false end.

(** ** Text: the [str] methods the program calls *)

Module Text.

Definition code (c : ascii) : nat := nat_of_ascii c.

Definition between (lo hi : nat) (c : ascii) : bool :=
  Nat.leb lo (code c) && Nat.leb (code c) hi.

(** [str.isspace] on ASCII: TAB..CR, FS..US and the space. *)
Definition is_space (c : ascii) : bool :=
  between 9 13 c || between 28 32 c.

Definition is_upper (c : ascii) : bool := between 65 90 c.
Definition is_lower (c : ascii) : bool := between 97 122 c.
Definition is_digit (c : ascii) : bool := between 48 57 c.
Definition is_alpha (c : ascii) : bool := is_upper c || is_lower c.

(** The class [\w]. *)
Definition is_word (c : ascii) : bool :=
  is_alpha c || is_digit c || Ascii.eqb c "_".

Fixpoint lstrip (s : string) : string :=
  match s with
  | EmptyString => EmptyString
  | String c s' => if is_space c then lstrip s' else s
  end.

Fixpoint rstrip (s : string) : string :=
  match s with
  | EmptyString => EmptyString
  | String c s' =>
      match rstrip s' with
      | EmptyString => if is_space c then EmptyString else String c EmptyString
      | r => String c r
      end
  end.

(** [s.strip()] *)
Definition strip (s : string) : string := rstrip (lstrip s).

(** [s.split(sep)] for a one-character separator. *)
Fixpoint split (sep : ascii) (s : string) : list string :=
  match s with
  | EmptyString => [EmptyString]
  | String c s' =>
      if Ascii.eqb c sep then EmptyString :: split sep s'
      else match split sep s' with
           | [] => [String c EmptyString]
           | h :: t => String c h :: t
           end
  end.

(** [s.split(sep)[0]] *)
Definition before (sep : ascii) (s : string) : string :=
  match split sep s with
  | [] => EmptyString
  | h :: _ => h
  end.

Fixpoint map_chars (f : ascii -> ascii) (s : string) : string :=
  match s with
  | EmptyString => EmptyString
  | String c s' => String (f c) (map_chars f s')
  end.

Fixpoint filter_chars (p : ascii -> bool) (s : string) : string :=
  match s with
  | EmptyString => EmptyString
  | String c s' => if p c then String c (filter_chars p s') else filter_chars p s'
  end.

Fixpoint existsb_chars (p : ascii -> bool) (s : string) : bool :=
  match s with
  | EmptyString => false
  | String c s' => p c || existsb_chars p s'
  end.

Fixpoint forallb_chars (p : ascii -> bool) (s : string) : bool :=
  match s with
  | EmptyString => true
  | String c s' => p c && forallb_chars p s'
  end.

Definition lower_char (c : ascii) : ascii :=
  if is_upper c then ascii_of_nat (code c + 32) else c.

(** [s.lower()] *)
Definition lower (s : string) : string := map_chars lower_char s.

(** [s.replace(a, b)] for one-character [a] and [b]. *)
Definition replace (a b : ascii) (s : string) : string :=
  map_chars (fun c => if Ascii.eqb c a then b else c) s.

(** [s.replace(a, '')] *)
Definition remove (a : ascii) (s : string) : string :=
  filter_chars (fun c => negb (Ascii.eqb c a)) s.

(** [a in s] for a one-character [a]. *)
Definition contains (a : ascii) (s : string) : bool :=
  existsb_chars (Ascii.eqb a) s.

(** [sub in s] for a text [sub] *)
Fixpoint occurs (sub s : string) : bool :=
  String.prefix sub s ||
  match s with
  | EmptyString => false
  | String _ s' => occurs sub s'
  end.

(** [re.sub(r'\W', '', s)] *)
Definition sub_nonword (s : string) : string := filter_chars is_word s.

(** [re.sub('<|>', '', s)] *)
Definition sub_angle (s : string) : string := remove ">" (remove "<" s).

(** [str(n)] for an [int]. *)
Definition str_of_int (n : Z) : string := NilZero.string_of_int (Z.to_int n).

(** [int(s)]: surrounding white space, an optional sign, decimal digits.
    (Python also accepts underscores between digits; [str] never writes
    them and the embedding raises [ValueError] there.) *)
Definition int_of_str (s : string) : res Z :=
  match strip s with
  | String "+" s' =>
      match NilZero.uint_of_string s' with
      | Some d => Ok (Z.of_uint d)
      | None => Raise ValueError
      end
  | s' =>
      match NilZero.int_of_string s' with
      | Some d => Ok (Z.of_int d)
      | None => Raise ValueError
      end
  end.

(** [os.path.join(a, b)] *)
Definition ends_with_slash (a : string) : bool :=
  match String.get (String.length a - 1) a with
  | Some c => Ascii.eqb c "/"
  | None => false
  end.

Definition join (a b : string) : string :=
  match b with
  | String "/" _ => b
  | _ => if String.eqb a "" || ends_with_slash a then a ++ b
         else a ++ "/" ++ b
  end.

(** [os.path.splitext(name)] for a base name: the extension starts at the
    last dot, unless only dots precede it. *)
Fixpoint splitext_aux (stem : string) (s : string) (seen : bool)
  : option (string * string) :=
  match s with
  | EmptyString => None
  | String c s' =>
      let here := Ascii.eqb c "." in
      match splitext_aux (stem ++ String c EmptyString) s' (seen || negb here) with
      | Some r => Some r
      | None => if here && seen then Some (stem, s) else None
      end
  end.

Definition splitext (name : string) : string * string :=
  match splitext_aux EmptyString name false with
  | Some r => r
  | None => (name, EmptyString)
  end.

End Text.

(** ** The configuration: a [ConfigParser] and its file *)

Module Config.

(** A section is a [dict] from option to value; an assignment to a new key
    appends it, to a known key replaces the value in place. *)
Definition options : Type := list (string * string).

Fixpoint assoc {A} (k : string) (l : list (string * A)) : option A :=
  match l with
  | [] => None
  | (k', v) :: l' => if String.eqb k k' then Some v else assoc k l'
  end.

Fixpoint assoc_set {A} (k : string) (v : A) (l : list (string * A))
  : list (string * A) :=
  match l with
  | [] => [(k, v)]
  | (k', v') :: l' =>
      if String.eqb k k' then (k, v) :: l' else (k', v') :: assoc_set k v l'
  end.

Record t : Type := mk {
  defaults : options;                      (* the DEFAULT section *)
  sections : list (string * options)
}.

Definition empty : t := mk [] [].

Definition default_section : string := "DEFAULT".

Definition has_section (cfg : t) (s : string) : bool :=
  match assoc s (sections cfg) with Some _ => true | None => false end.

Definition mem (k : string) (o : options) : bool :=
  match assoc k o with Some _ => true | None => false end.

Definition has_option (cfg : t) (s k : string) : bool :=
  if String.eqb s "" || String.eqb s default_section then mem k (defaults cfg)
  else match assoc s (sections cfg) with
       | None => false
       | Some o => mem k o || mem k (defaults cfg)
       end.

(** [config.get(s, k)]: the section's own value, else the default. *)
Definition get (cfg : t) (s k : string) : res string :=
  let from_defaults :=
    match assoc k (defaults cfg) with
    | Some v => Ok v
    | None => Raise NoOptionError
    end in
  if String.eqb s default_section then from_defaults
  else match assoc s (sections cfg) with
       | None => Raise NoSectionError
       | Some o =>
           match assoc k o with
           | Some v => Ok v
           | None => from_defaults
           end
       end.

Definition getint (cfg : t) (s k : string) : res Z :=
  v ← get cfg s k; Text.int_of_str v.

(** [config.set(s, k, v)] *)
Definition set (cfg : t) (s k v : string) : res t :=
  if String.eqb s "" || String.eqb s default_section
  then Ok (mk (assoc_set k v (defaults cfg)) (sections cfg))
  else match assoc s (sections cfg) with
       | None => Raise NoSectionError
       | Some o => Ok (mk (defaults cfg) (assoc_set s (assoc_set k v o) (sections cfg)))
       end.

(** The file, line by line: [[section]], [key = value], or blank. *)
Inductive line : Type :=
  | Header (s : string)
  | Option_ (k v : string)
  | Blank.

Definition write_section (s : string) (o : options) : list line :=
  Header s :: map (fun kv => Option_ (fst kv) (snd kv)) o ++ [Blank].

(** [config.write(f)]: the lines written, in the order they are written. *)
Definition write (cfg : t) : list line :=
  (match defaults cfg with
   | [] => []
   | o => write_section default_section o
   end)
  ++ flat_map (fun so => write_section (fst so) (snd so)) (sections cfg).

(** [config.read(f)] (strict): [cur] is the section being read. *)
Fixpoint read_from (cur : option string) (cfg : t) (ls : list line) : res t :=
  match ls with
  | [] => Ok cfg
  | Blank :: ls' => read_from cur cfg ls'
  | Header s :: ls' =>
      if String.eqb s "" then Raise MissingSectionHeaderError
      else if String.eqb s default_section then read_from (Some s) cfg ls'
      else if has_section cfg s then Raise DuplicateSectionError
      else read_from (Some s) (mk (defaults cfg) (sections cfg ++ [(s, [])])) ls'
  | Option_ k v :: ls' =>
      match cur with
      | None => Raise MissingSectionHeaderError
      | Some s =>
          let own :=
            if String.eqb s default_section then Some (defaults cfg)
            else assoc s (sections cfg) in
          match own with
          | None => Raise NoSectionError
          | Some o =>
              if mem k o then Raise DuplicateOptionError
              else cfg' ← set cfg s k v; read_from cur cfg' ls'
          end
      end
  end.

Definition read (ls : list line) : res t := read_from None empty ls.

End Config.

(** ** Spreadsheets: the [pandas] operations the program calls *)

Record datetime : Type := Timestamp {
  year : Z; month : Z; day : Z; hour : Z; minute : Z; second : Z
}.

(** A cell of a sheet, and also a row or column label.  [NaN] stands for
    every value [pd.isna] accepts (empty cell, [None], [NaT]); [Int] and
    [Bool] are the scalars that are neither text nor dates. *)
Inductive cell : Type :=
  | NaN
  | Str (s : string)
  | Datetime (d : datetime)
  | Int (n : Z)
  | Bool (b : bool).

#[global] Instance datetime_eq_dec : EqDecision datetime.
Proof. solve_decision. Defined.
#[global] Instance cell_eq_dec : EqDecision cell.
Proof. solve_decision. Defined.

Record DataFrame : Type := Frame {
  index : list cell;            (* row labels *)
  columns : list cell;          (* column labels *)
  data : list (list cell)       (* the rows *)
}.

(** A sheet as stored: the texts of its first row and the rows below. *)
Record sheet : Type := Sheet {
  header : list string;
  body : list (list cell)
}.

Definition workbook : Type := list (string * sheet).

Module Pandas.

Definition isna (c : cell) : bool :=
  match c with NaN => true | _ => false end.

Definition range (n : nat) : list cell := map (fun i => Int (Z.of_nat i)) (seq 0 n).

(** [pd.read_excel] of one sheet: the first row labels the columns, the
    rows are numbered from 0. *)
Definition of_sheet (sh : sheet) : DataFrame :=
  Frame (range (length (body sh))) (map Str (header sh)) (body sh).

(** [pd.read_excel(wb, sheet_name=name)] *)
Definition read_excel (wb : workbook) (name : string) : res DataFrame :=
  match Config.assoc name wb with
  | Some sh => Ok (of_sheet sh)
  | None => Raise ValueError
  end.

Definition mem (c : cell) (l : list cell) : bool := bool_decide (c ∈ l).

(** Keep the entries of [l] at the positions where [keep] holds. *)
Fixpoint select {A} (keep : list bool) (l : list A) : list A :=
  match keep, l with
  | k :: keep', x :: l' => if k then x :: select keep' l' else select keep' l'
  | _, _ => []
  end.

Definition mask (labels : list cell) (axis : list cell) : list bool :=
  map (fun c => negb (mem c labels)) axis.

(** [df.drop(labels, axis=1)]: every label must exist. *)
Definition drop_columns (labels : list cell) (df : DataFrame) : res DataFrame :=
  if forallb (fun l => mem l (columns df)) labels
  then let keep := mask labels (columns df) in
       Ok (Frame (index df) (select keep (columns df)) (map (select keep) (data df)))
  else Raise KeyError.

(** [df.drop(labels)] (rows) *)
Definition drop_rows (labels : list cell) (df : DataFrame) : res DataFrame :=
  if forallb (fun l => mem l (index df)) labels
  then let keep := mask labels (index df) in
       Ok (Frame (select keep (index df)) (columns df) (select keep (data df)))
  else Raise KeyError.

Definition column (j : nat) (rows : list (list cell)) : list cell :=
  map (fun r => nth j r NaN) rows.

(** [df.transpose()] *)
Definition transpose (df : DataFrame) : DataFrame :=
  Frame (columns df) (index df)
        (map (fun j => column j (data df)) (seq 0 (length (columns df)))).

(** [df.iloc[0]] *)
Definition iloc0 (df : DataFrame) : res (list cell) :=
  match data df with
  | r :: _ => Ok r
  | [] => Raise IndexError
  end.

(** [series.str.strip()]: text is stripped, any other entry becomes NaN;
    the accessor refuses a series with entries but no text. *)
Definition strip_cell (c : cell) : cell :=
  match c with
  | Str s => Str (Text.strip s)
  | _ => NaN
  end.

Definition is_str (c : cell) : bool :=
  match c with Str _ => true | _ => false end.

Definition str_strip (row : list cell) : res (list cell) :=
  if existsb is_str row || forallb isna row then Ok (map strip_cell row)
  else Raise AttributeError.

(** [df[1:]] *)
Definition from1 (df : DataFrame) : DataFrame :=
  Frame (tail (index df)) (columns df) (tail (data df)).

(** [df.columns = labels] *)
Definition set_columns (labels : list cell) (df : DataFrame) : res DataFrame :=
  if Nat.eqb (length labels) (length (columns df))
  then Ok (Frame (index df) labels (data df))
  else Raise ValueError.

Fixpoint positions (c : cell) (l : list cell) (i : nat) : list nat :=
  match l with
  | [] => []
  | x :: l' => if decide (x = c) then i :: positions c l' (S i) else positions c l' (S i)
  end.

(** [df[c][i]] where the row labels are texts, so that the integer [i] is a
    position: [df[c]] is a series only when the label [c] is unique. *)
Definition getitem (df : DataFrame) (c : cell) (i : nat) : res cell :=
  match positions c (columns df) 0 with
  | [j] =>
      match nth_error (column j (data df)) i with
      | Some v => Ok v
      | None => Raise IndexError
      end
  | _ => Raise KeyError
  end.

End Pandas.

(** ** The record extractor and the validator *)

Definition title_column : cell := Str "ARCHIVES AFRICA: COLLECTION DATA".
Definition required_marker : cell := Str "* Required".

(** [clean_collection], from the sheet [collection] on.  The frame that
    line 215 computes is not bound to a name: of that line only its
    [KeyError]s remain. *)
Definition clean_collection_frame (collection : DataFrame) : res DataFrame :=
  _ ← (d ← Pandas.drop_columns [title_column] collection;
       Pandas.drop_rows [Int 0] d);
  let collection := Pandas.transpose collection in
  new_header ← (r ← Pandas.iloc0 collection; Pandas.str_strip r);
  let collection := Pandas.from1 collection in
  collection ← Pandas.set_columns new_header collection;
  Pandas.drop_columns [required_marker] collection.

Definition clean_collection (wb : workbook) : res DataFrame :=
  collection ← Pandas.read_excel wb "collection";
  clean_collection_frame collection.

(** ['*' in c] *)
Definition star_in (c : cell) : res bool :=
  match c with
  | Str s => Ok (Text.contains "*" s)
  | _ => Raise TypeError
  end.

Fixpoint get_missing_fields_loop (collection : DataFrame) (cs : list cell)
    (missing_fields : list cell) : res (list cell) :=
  match cs with
  | [] => Ok missing_fields
  | c :: cs' =>
      required ← star_in c;
      if required : bool then
        data ← Pandas.getitem collection c 1;
        if Pandas.isna data
        then get_missing_fields_loop collection cs' (missing_fields ++ [c])
        else get_missing_fields_loop collection cs' missing_fields
      else get_missing_fields_loop collection cs' missing_fields
  end.

Definition get_missing_fields (collection : DataFrame) : res (list cell) :=
  get_missing_fields_loop collection (columns collection) [].

(** ** Documents: the [lxml.etree] operations the program calls *)

Inductive text : Type :=
  | NoText
  | Plain (s : string)
  | CDATA (s : string).

#[warnings="-register-all"]
Inductive element : Type :=
  | Node (tag : string) (txt : text) (children : list element).

Module Etree.

Definition tag (e : element) : string := let (t, _, _) := e in t.
Definition txt (e : element) : text := let (_, t, _) := e in t.
Definition children (e : element) : list element := let (_, _, c) := e in c.

Definition name_start (c : ascii) : bool := Text.is_alpha c || Ascii.eqb c "_".
Definition name_char (c : ascii) : bool :=
  Text.is_word c || Ascii.eqb c "-" || Ascii.eqb c ".".

(** The check of a tag name, for ASCII names without a namespace. *)
Definition valid_tag (name : string) : bool :=
  match name with
  | EmptyString => false
  | String c s => name_start c && Text.forallb_chars name_char s
  end.

(** Text handed to the library must hold no control character other than
    TAB, LF and CR. *)
Definition xml_char (c : ascii) : bool :=
  Nat.leb 32 (Text.code c) || Text.between 9 10 c || Text.between 13 13 c.

Definition xml_compatible (s : string) : bool := Text.forallb_chars xml_char s.

(** [etree.Element(name)]: a new element without text or children. *)
Definition Element (name : string) : res element :=
  if valid_tag name then Ok (Node name NoText []) else Raise ValueError.

(** [parent.append(child)], the effect of [etree.SubElement] on its parent
    once the child is complete. *)
Definition append (parent child : element) : element :=
  Node (tag parent) (txt parent) (children parent ++ [child]).

Definition with_text (e : element) (t : text) : element :=
  Node (tag e) t (children e).

(** The text node of a string [s], as in [el.text = s]. *)
Definition plain (s : string) : res text :=
  if xml_compatible s then Ok (Plain s) else Raise ValueError.

(** [etree.CDATA(s)]: besides the check of the characters, the text must
    not hold the mark that ends a CDATA region. *)
Definition cdata (s : string) : res text :=
  if xml_compatible s && negb (Text.occurs "]]>" s) then Ok (CDATA s)
  else Raise ValueError.

(** [el.text = v] for a cell [v]: only text is accepted. *)
Definition set_text (e : element) (v : cell) : res element :=
  match v with
  | Str s => t ← plain s; Ok (with_text e t)
  | _ => Raise TypeError
  end.

End Etree.

(** ** The document builder *)

Definition zfill (width : nat) (s : string) : string :=
  string_of_list_ascii (repeat "0"%char (width - String.length s)) ++ s.

(** [data.date().isoformat()] *)
Definition isoformat (d : datetime) : string :=
  zfill 4 (Text.str_of_int (year d)) ++ "-" ++
  zfill 2 (Text.str_of_int (month d)) ++ "-" ++
  zfill 2 (Text.str_of_int (day d)).

(** [for para in paras] of [collection_to_xml], on the element [el]. *)
Fixpoint paragraphs (paras : list string) (el : element) : res element :=
  match paras with
  | [] => Ok el
  | para :: paras' =>
      let para := Text.strip para in
      if negb (String.eqb para "") then
        p ← Etree.Element "p";
        t ← (if Text.contains "<" para || Text.contains ">" para
             then Etree.cdata para else Etree.plain para);
        paragraphs paras' (Etree.append el (Etree.with_text p t))
      else paragraphs paras' el
  end.

(** [re.sub(r'\W', '', name)] for a cell [name] *)
Definition sanitize (name : cell) : res string :=
  match name with
  | Str s => Ok (Text.sub_nonword s)
  | _ => Raise TypeError
  end.

(** Lines 292 to 307: the content of the element [el] made for [data]. *)
Definition fill (el : element) (data : cell) : res element :=
  match data with
  | Str s => paragraphs (Text.split "010" s) el
  | Datetime d => Etree.set_text el (Str (isoformat d))
  | _ => Etree.set_text el data
  end.

Fixpoint collection_to_xml_loop (collection : DataFrame) (cs : list cell)
    (xml : element) : res element :=
  match cs with
  | [] => Ok xml
  | c :: cs' =>
      data ← Pandas.getitem collection c 1;
      if negb (Pandas.isna data) then
        name ← Pandas.getitem collection c 0;
        name ← sanitize name;
        el ← Etree.Element name;
        el ← fill el data;
        collection_to_xml_loop collection cs' (Etree.append xml el)
      else collection_to_xml_loop collection cs' xml
  end.

Definition collection_to_xml (collection : DataFrame) : res element :=
  xml ← Etree.Element "collection";
  collection_to_xml_loop collection (columns collection) xml.

(** Lines 342 to 345: the name of a term element, from its column label. *)
Definition normalize_label (s : string) : string :=
  let name := Text.before ":" s in
  let name := Text.remove ">" (Text.lower name) in
  let name := Text.replace " " "_" (Text.strip name) in
  Text.sub_nonword name.

Definition term_name (label : cell) : res string :=
  match label with
  | Str s => Ok (normalize_label s)
  | _ => Raise AttributeError
  end.

(** [terms.iloc[0][pos]] *)
Definition label_at (terms : DataFrame) (pos : nat) : res cell :=
  r ← Pandas.iloc0 terms;
  match nth_error r pos with
  | Some l => Ok l
  | None => Raise IndexError
  end.

(** [for pos, term in enumerate(row)], on the group element [p]. *)
Fixpoint terms_row_loop (terms : DataFrame) (row : list cell) (pos : nat)
    (p : element) : res element :=
  match row with
  | [] => Ok p
  | term :: row' =>
      if negb (Pandas.isna term) then
        label ← label_at terms pos;
        name ← term_name label;
        el ← Etree.Element name;
        el ← Etree.set_text el term;
        terms_row_loop terms row' (S pos) (Etree.append p el)
      else terms_row_loop terms row' (S pos) p
  end.

(** [idx > 0] for a row label *)
Definition positive_label (idx : cell) : res bool :=
  match idx with
  | Int i => Ok (0 <? i)
  | Bool b => Ok b
  | NaN => Ok false
  | _ => Raise TypeError
  end.

(** [for idx, row in terms.iterrows()], on the root element [xml]. *)
Fixpoint terms_loop (terms : DataFrame) (rows : list (cell * list cell))
    (xml : element) : res element :=
  match rows with
  | [] => Ok xml
  | (idx, row) :: rows' =>
      later ← positive_label idx;
      if later : bool then
        p ← Etree.Element "p";
        p ← terms_row_loop terms row 0 p;
        terms_loop terms rows' (Etree.append xml p)
      else terms_loop terms rows' xml
  end.

Definition iterrows (df : DataFrame) : list (cell * list cell) :=
  zip (index df) (data df).

Definition terms_to_xml (terms : DataFrame) (root : string) : res element :=
  xml ← Etree.Element root;
  terms_loop terms (iterrows terms) xml.

(** Lines 323 and 324: the element name of a sheet of terms. *)
Definition normalize_root (s : string) : string :=
  let el_name := Text.before ":" s in
  Text.replace " " "_" (Text.lower (Text.strip el_name)).

Definition el_name_of (df : DataFrame) : res string :=
  match columns df with
  | [] => Raise IndexError
  | Str s :: _ => Ok (normalize_root s)
  | _ :: _ => Raise AttributeError
  end.

(** ** The world the program runs in *)

(** What a file of the staging, success or error directory holds. *)
Inductive file : Type :=
  | Bytes (raw : string)           (* not a spreadsheet *)
  | Excel (wb : workbook).

Record part : Type := Part {
  multipart : bool;                        (* get_content_maintype() == 'multipart' *)
  content_disposition : option string;     (* part.get('Content-Disposition') *)
  payload : option file                    (* part.get_payload(decode=True) *)
}.

(** A message: its Return-Path header and the parts [msg.walk()] yields. *)
Record message : Type := Message {
  return_path : string;
  parts : list part
}.

Inductive level : Type := DEBUG | INFO | WARNING | ERROR.

Inductive event : Type :=
  | InvalidMailbox
  | MessageFrom (sender : string)
  | UnknownSender (sender : string)
  | NoPayload (sender : string)
  | Downloaded (sender : string) (seq : Z) (filename : string)
  | DownloadedCount (counter : Z)
  | NoAttachments
  | ProcessingAttachments
  | Processing (filepath : string)
  | Skipping (filepath : string)
  | MissingFields (filepath : string) (missing_fields : list cell)
  | SendingFailureReport (email : string)
  | FailedToProcess (filepath : string)
  | ErrorArgs (e : exn)
  | Processed (filepath : string)
  | SaveXml (name : string)
  | MissingReportAddress.

#[global] Instance exn_eq_dec : EqDecision exn.
Proof. solve_decision. Defined.
#[global] Instance level_eq_dec : EqDecision level.
Proof. solve_decision. Defined.
#[global] Instance event_eq_dec : EqDecision event.
Proof. solve_decision. Defined.

Inductive mail_text : Type :=
  | Template (message : string)
  | TemplateAnd (message : string) (missing_fields : list cell)
  | NewFile (email filepath : string).

Record mail : Type := Mail {
  mail_to : string;
  mail_subject : string;
  mail_body : mail_text
}.

Record world : Type := World {
  sandbox_dir : gmap string file;      (* staging area, by base name *)
  success_dir : gmap string file;
  error_dir : gmap string file;
  output_dir : gmap string element;    (* the documents written, by path *)
  templates : gmap string string;      (* the report templates, by path *)
  outbox : list mail;                  (* the mail sent *)
  log : list (level * event);
  config : Config.t;                   (* the ConfigParser object *)
  config_ini : list Config.line        (* the file config.ini *)
}.

(** ** State and exceptions *)

Inductive outcome (A : Type) : Type :=
  | Return (a : A)
  | Throw (e : exn).
Arguments Return {A} a.
Arguments Throw {A} e.

Definition M (A : Type) : Type := world -> outcome A * world.

Definition ret {A} (a : A) : M A := fun w => (Return a, w).

Definition bind {A B} (m : M A) (k : A -> M B) : M B :=
  fun w => match m w with
           | (Return a, w') => k a w'
           | (Throw e, w') => (Throw e, w')
           end.

Notation "x <- m ;; k" := (bind m (fun x => k))
  (at level 100, m at next level, right associativity).
Notation "m ;; k" := (bind m (fun _ => k))
  (at level 100, right associativity).

Definition throw {A} (e : exn) : M A := fun w => (Throw e, w).

Definition lift {A} (r : res A) : M A :=
  match r with
  | Ok a => ret a
  | Raise e => throw e
  end.

Definition gets {A} (f : world -> A) : M A := fun w => (Return (f w), w).

Definition modify (f : world -> world) : M unit := fun w => (Return tt, f w).

(** [try: body except Exception as e: handler(e)] *)
Definition try_except {A} (body : M A) (handler : exn -> M A) : M A :=
  fun w => match body w with
           | (Return a, w') => (Return a, w')
           | (Throw e, w') => handler e w'
           end.

Definition set_sandbox f w := World f (success_dir w) (error_dir w) (output_dir w)
  (templates w) (outbox w) (log w) (config w) (config_ini w).
Definition set_success f w := World (sandbox_dir w) f (error_dir w) (output_dir w)
  (templates w) (outbox w) (log w) (config w) (config_ini w).
Definition set_error f w := World (sandbox_dir w) (success_dir w) f (output_dir w)
  (templates w) (outbox w) (log w) (config w) (config_ini w).
Definition set_output f w := World (sandbox_dir w) (success_dir w) (error_dir w) f
  (templates w) (outbox w) (log w) (config w) (config_ini w).
Definition set_outbox f w := World (sandbox_dir w) (success_dir w) (error_dir w)
  (output_dir w) (templates w) f (log w) (config w) (config_ini w).
Definition set_log f w := World (sandbox_dir w) (success_dir w) (error_dir w)
  (output_dir w) (templates w) (outbox w) f (config w) (config_ini w).
Definition set_config f w := World (sandbox_dir w) (success_dir w) (error_dir w)
  (output_dir w) (templates w) (outbox w) (log w) f (config_ini w).
Definition set_config_ini f w := World (sandbox_dir w) (success_dir w) (error_dir w)
  (output_dir w) (templates w) (outbox w) (log w) (config w) f.

Definition logger (l : level) (e : event) : M unit :=
  modify (fun w => set_log (log w ++ [(l, e)]) w).

(** [config.get(section, option)] on the program's configuration. *)
Definition config_get (section option : string) : M string :=
  cfg <- gets config ;; lift (Config.get cfg section option).

(** ** The sequence store and the attachment intake *)

Definition is_email_address_known (cfg : Config.t) (address : string) : bool :=
  Config.has_section cfg address.

(** The base name of a staged attachment. *)
Definition attachment_name (code : string) (seq : Z) : string :=
  code ++ "_" ++ Text.str_of_int seq ++ ".xlsx".

Definition save_attachment (address : string) (attachment : file) : M (Z * string) :=
  sandbox <- config_get "DEFAULT" "sandbox" ;;
  code <- config_get address "code" ;;
  cfg <- gets config ;;
  seq <- (if Config.has_option cfg address "sequence"
          then n <- lift (Config.getint cfg address "sequence") ;; ret (n + 1)
          else ret 1) ;;
  let filename := Text.join sandbox (attachment_name code seq) in
  modify (fun w => set_sandbox (<[attachment_name code seq := attachment]> (sandbox_dir w)) w) ;;
  ret (seq, filename).

(** [update_sequence(config, 'config.ini', address, seq)]: the object is
    updated, then the file is opened for writing, which empties it, and
    written anew. *)
Definition update_sequence (address : string) (seq : Z) : M unit :=
  cfg <- gets config ;;
  cfg' <- lift (Config.set cfg address "sequence" (Text.str_of_int seq)) ;;
  modify (set_config cfg') ;;
  modify (set_config_ini []) ;;
  modify (set_config_ini (Config.write cfg')).

(** What config.ini can hold when the run stops inside [update_sequence]
    after the file was opened: the first [k] lines of the new text. *)
Definition interrupted_update (address : string) (seq : Z) (k : nat) : M unit :=
  cfg <- gets config ;;
  cfg' <- lift (Config.set cfg address "sequence" (Text.str_of_int seq)) ;;
  modify (set_config cfg') ;;
  modify (set_config_ini []) ;;
  modify (set_config_ini (firstn k (Config.write cfg'))).

(** [for part in msg.walk()]; the state of the loop is the dictionary
    [attachments] and the [counter]. *)
Fixpoint walk_parts (sender : string) (ps : list part)
    (attachments : gmap string string) (counter : Z)
  : M (gmap string string * Z) :=
  match ps with
  | [] => ret (attachments, counter)
  | part :: ps' =>
      if multipart part then walk_parts sender ps' attachments counter
      else match content_disposition part with
      | None => walk_parts sender ps' attachments counter
      | Some _ =>
          match payload part with
          | None | Some (Bytes EmptyString) =>           (* not data *)
              logger DEBUG (NoPayload sender) ;;
              walk_parts sender ps' attachments counter
          | Some data =>
              sf <- save_attachment sender data ;;
              let '(seq, filename) := sf in
              logger INFO (Downloaded sender seq filename) ;;
              update_sequence sender seq ;;
              walk_parts sender ps' (<[filename := sender]> attachments) (counter + 1)
          end
      end
  end.

(** [for num in data[0].split()], over the unread messages.  (The flag
    that marks a message as read is not part of the embedding.) *)
Fixpoint fetch_loop (msgs : list message)
    (attachments : gmap string string) (counter : Z)
  : M (gmap string string) :=
  match msgs with
  | [] => ret attachments
  | msg :: msgs' =>
      let sender := Text.sub_angle (return_path msg) in
      logger DEBUG (MessageFrom sender) ;;
      cfg <- gets config ;;
      if negb (is_email_address_known cfg sender)
      then logger INFO (UnknownSender sender) ;;
           fetch_loop msgs' attachments counter
      else
        ac <- walk_parts sender (parts msg) attachments counter ;;
        let '(attachments, counter) := ac in
        logger INFO (DownloadedCount counter) ;;
        fetch_loop msgs' attachments counter
  end.

Definition blank (s : string) : bool := String.eqb s "".

(** [get_data_from_mailbox(config)], given the unread messages of the
    mailbox; [None] when the mailbox is not configured. *)
Definition get_data_from_mailbox (unseen : list message)
  : M (option (gmap string string)) :=
  address <- config_get "mailbox" "address" ;;
  username <- config_get "mailbox" "username" ;;
  password <- config_get "mailbox" "password" ;;
  if blank address || blank username || blank password
  then logger ERROR InvalidMailbox ;; ret None
  else attachments <- fetch_loop unseen ∅ 0 ;; ret (Some attachments).

(** ** Reports *)

Definition send_email (to subject : string) (message : mail_text) : M unit :=
  address <- config_get "mailbox" "address" ;;
  username <- config_get "mailbox" "username" ;;
  password <- config_get "mailbox" "password" ;;
  if blank address || blank username || blank password
  then logger ERROR InvalidMailbox
  else modify (fun w => set_outbox (outbox w ++ [Mail to subject message]) w).

(** [open(path).read()] for a report template *)
Definition read_template (path : string) : M string :=
  t <- gets (fun w => templates w !! path) ;;
  match t with
  | Some message => ret message
  | None => throw FileNotFoundError
  end.

Definition language_of (email : string) : M string :=
  lang <- config_get email "language" ;;
  ret (if blank lang then "en" else lang).

Definition send_failure_report (email : string) (missing_fields : list cell) : M unit :=
  lang <- language_of email ;;
  path <- config_get "reports" ("failure_" ++ lang) ;;
  message <- read_template path ;;
  send_email email "Missing fields" (TemplateAnd message missing_fields).

Definition send_success_report (email filepath : string) : M unit :=
  lang <- language_of email ;;
  path <- config_get "reports" ("success_" ++ lang) ;;
  message <- read_template path ;;
  send_email email "Thank you for your email" (Template message) ;;
  to <- config_get "reports" "email" ;;
  (if blank to then logger ERROR MissingReportAddress else ret tt) ;;
  send_email to "New files added" (NewFile email filepath).

(** ** The pipeline *)

(** A path [os.path.join(in_path, name)] denotes the file [name] of the
    staging area: the functions below take [name] where they open or move
    the file and the path where the program prints or looks it up. *)

Definition open_excel (name : string) : M workbook :=
  f <- gets (fun w => sandbox_dir w !! name) ;;
  match f with
  | Some (Excel wb) => ret wb
  | Some (Bytes _) => throw BadZipFile
  | None => throw FileNotFoundError
  end.

Inductive area : Type := Success | Error.

(** [shutil.move(filepath, os.path.join(area_path, name))] *)
Definition move (name : string) (dst : area) : M unit :=
  f <- gets (fun w => sandbox_dir w !! name) ;;
  match f with
  | None => throw FileNotFoundError
  | Some f =>
      modify (fun w =>
        let w := set_sandbox (delete name (sandbox_dir w)) w in
        match dst with
        | Success => set_success (<[name := f]> (success_dir w)) w
        | Error => set_error (<[name := f]> (error_dir w)) w
        end)
  end.

Definition save_xml (xml : element) (name : string) : M unit :=
  logger DEBUG (SaveXml name) ;;
  modify (fun w => set_output (<[name := xml]> (output_dir w)) w).

Definition process_collection (collection : DataFrame) (filename : string) : M unit :=
  xml <- lift (collection_to_xml collection) ;;
  save_xml xml filename.

(** [for sn in excel.sheet_names[1:]] *)
Fixpoint process_terms_loop (sheets : list (string * sheet)) (name path : string)
  : M unit :=
  match sheets with
  | [] => ret tt
  | (sn, sh) :: sheets' =>
      let df := Pandas.of_sheet sh in
      el_name <- lift (el_name_of df) ;;
      xml <- lift (terms_to_xml df el_name) ;;
      let filename := Text.before "." name in
      save_xml xml (Text.join path (filename ++ "_" ++ el_name ++ ".xml")) ;;
      process_terms_loop sheets' name path
  end.

Definition process_terms (name path : string) : M unit :=
  excel <- open_excel name ;;
  process_terms_loop (tail excel) name path.

Record paths : Type := Paths {
  error_path : string; in_path : string; out_path : string; success_path : string
}.

(** The body of the [try] statement; [false] stands for [continue]. *)
Definition attempt (attachments : gmap string string) (d : paths) (name : string)
  : M bool :=
  let filepath := Text.join (in_path d) name in
  logger INFO (Processing filepath) ;;
  match attachments !! filepath with
  | None => logger WARNING (Skipping filepath) ;; ret false
  | Some email =>
      collection <- (wb <- open_excel name ;; lift (clean_collection wb)) ;;
      missing_fields <- lift (get_missing_fields collection) ;;
      match missing_fields with
      | _ :: _ =>
          logger WARNING (MissingFields filepath missing_fields) ;;
          move name Error ;;
          logger INFO (SendingFailureReport email) ;;
          send_failure_report email missing_fields ;;
          ret false
      | [] =>
          let filename := fst (Text.splitext name) in
          let collection_filename := Text.join (out_path d) (filename ++ ".xml") in
          process_collection collection collection_filename ;;
          process_terms name (out_path d) ;;
          move name Success ;;
          send_success_report email collection_filename ;;
          ret true
      end
  end.

(** One iteration of [for name in files]. *)
Definition process_file (attachments : gmap string string) (d : paths) (name : string)
  : M unit :=
  if String.eqb (snd (Text.splitext name)) ".xlsx" then
    let filepath := Text.join (in_path d) name in
    completed <- try_except (attempt attachments d name)
      (fun e =>
         logger ERROR (FailedToProcess filepath) ;;
         logger ERROR (ErrorArgs e) ;;
         move name Error ;;
         ret true) ;;
    if completed : bool then logger INFO (Processed filepath) else ret tt
  else ret tt.

Fixpoint process_files (attachments : gmap string string) (d : paths)
    (files : list string) : M unit :=
  match files with
  | [] => ret tt
  | name :: files' =>
      process_file attachments d name ;; process_files attachments d files'
  end.

(** [os.walk(in_path)]: the files of the staging area when the walk starts. *)
Definition listdir (w : world) : list string := (map_to_list (sandbox_dir w)).*1.

Definition process_attachments (attachments : option (gmap string string)) : M unit :=
  match attachments with
  | None => logger INFO NoAttachments
  | Some attachments =>
      if decide (attachments = ∅) then logger INFO NoAttachments
      else
        logger DEBUG ProcessingAttachments ;;
        error_path <- config_get "DEFAULT" "error" ;;
        in_path <- config_get "DEFAULT" "sandbox" ;;
        out_path <- config_get "DEFAULT" "output" ;;
        success_path <- config_get "DEFAULT" "success" ;;
        files <- gets listdir ;;
        process_files attachments (Paths error_path in_path out_path success_path) files
  end.

(** The main program after the directories exist: read config.ini and
    fetch the attachments of the unread messages, then process the staging
    area. *)
Definition intake (unseen : list message) : M (option (gmap string string)) :=
  ini <- gets config_ini ;;
  cfg <- lift (Config.read ini) ;;
  modify (set_config cfg) ;;
  get_data_from_mailbox unseen.

Definition main (unseen : list message) : M unit :=
  attachments <- intake unseen ;;
  process_attachments attachments.

(** ** The directories *)

(** The file system as [prepare] sees it: the set of the paths that exist.
    [os.path.exists] is false for the empty path. *)
Definition path_exists (fs : gset string) (p : string) : bool :=
  negb (String.eqb p "") && bool_decide (p ∈ fs).

(** [os.makedirs(p)] for a path that does not exist: it makes [p] and the
    directories above it that are missing, [above p] here, and refuses the
    empty path. *)
Definition makedirs (above : string -> gset string) (p : string) (fs : gset string)
  : res (gset string) :=
  if String.eqb p "" then Raise FileNotFoundError
  else Ok ({[p]} ∪ above p ∪ fs).

(** One [if] statement of [prepare], with its two calls of [config.get]. *)
Definition prepare_dir (above : string -> gset string) (cfg : Config.t)
    (option : string) (fs : gset string) : outcome unit * gset string :=
  match Config.get cfg "DEFAULT" option with
  | Raise e => (Throw e, fs)
  | Ok p =>
      if negb (path_exists fs p) then
        match Config.get cfg "DEFAULT" option with
        | Raise e => (Throw e, fs)
        | Ok p' =>
            match makedirs above p' fs with
            | Ok fs' => (Return tt, fs')
            | Raise e => (Throw e, fs)
            end
        end
      else (Return tt, fs)
  end.

Definition and_then (r : outcome unit * gset string)
    (k : gset string -> outcome unit * gset string) : outcome unit * gset string :=
  match r with
  | (Return _, fs) => k fs
  | (Throw e, fs) => (Throw e, fs)
  end.

(** [prepare(config)] *)
Definition prepare (above : string -> gset string) (cfg : Config.t) (fs : gset string)
  : outcome unit * gset string :=
  and_then (prepare_dir above cfg "error" fs) (fun fs =>
  and_then (prepare_dir above cfg "output" fs) (fun fs =>
  and_then (prepare_dir above cfg "sandbox" fs) (fun fs =>
  prepare_dir above cfg "success" fs))).

(** ** The program *)

(** The program (lines 372 to 391): the configuration is read, the
    directories are made, the attachments are fetched and the staging area
    is processed.  [fs] is the set of the paths that exist. *)
Definition processor (above : string -> gset string) (unseen : list message)
    (fs : gset string) (w : world) : outcome unit * (gset string * world) :=
  match Config.read (config_ini w) with
  | Raise e => (Throw e, (fs, w))
  | Ok cfg =>
      let w := set_config cfg w in
      match prepare above cfg fs with
      | (Throw e, fs) => (Throw e, (fs, w))
      | (Return _, fs) =>
          let (r, w) := (attachments <- get_data_from_mailbox unseen ;;
                         process_attachments attachments) w in
          (r, (fs, w))
      end
  end.

(** ** Vocabulary of the specification *)

(** A label is marked as required when it holds an asterisk. *)
Definition required (c : cell) : bool :=
  match c with
  | Str s => Text.contains "*" s
  | _ => false
  end.

(** A Normalized Record: the labels are distinct texts; under them lie the
    row of element names and the row of values. *)
Inductive normalized : DataFrame -> list cell -> list cell -> Prop :=
  | Normalized idx labels names values rest :
      Forall (fun c => is_true (Pandas.is_str c)) labels ->
      NoDup labels ->
      length names = length labels ->
      length values = length labels ->
      normalized (Frame idx labels (names :: values :: rest)) names values.

(** The entry of the row [row] under the label [c]. *)
Definition under (labels row : list cell) (c v : cell) : Prop :=
  exists j, labels !! j = Some c /\ row !! j = Some v.

(** The labels marked as required whose value is absent, in the order of
    the record. *)
Definition absent_required (labels values : list cell) : list cell :=
  (filter (fun cv => required cv.1 && Pandas.isna cv.2) (zip labels values)).*1.

(** The rows of the primary sheet that become fields: all but those whose
    stripped first cell is the marker ["* Required"]. *)
Definition label_of (row : list cell) : cell := Pandas.strip_cell (nth 0 row NaN).

Definition is_field (row : list cell) : bool :=
  negb (bool_decide (label_of row = required_marker)).

Definition field_rows (sh : sheet) : list (list cell) := filter (fun row => is_true (is_field row)) (body sh).

(** The extractor as the specification words it: the title column and the
    row 0 are discarded before the sheet is turned on its side. *)
Definition clean_collection_as_specified (wb : workbook) : res DataFrame :=
  collection ← Pandas.read_excel wb "collection";
  collection ← (d ← Pandas.drop_columns [title_column] collection;
                Pandas.drop_rows [Int 0] d);
  let collection := Pandas.transpose collection in
  new_header ← (r ← Pandas.iloc0 collection; Pandas.str_strip r);
  let collection := Pandas.from1 collection in
  collection ← Pandas.set_columns new_header collection;
  Pandas.drop_columns [required_marker] collection.

(** The lines of a text value that yield a paragraph: each line is
    stripped, and those that are then empty are left out. *)
Definition lines_of (s : string) : list string :=
  filter (fun l => l <> ""%string) (map Text.strip (Text.split "010" s)).

Definition has_angle (l : string) : bool :=
  Text.contains "<" l || Text.contains ">" l.

Definition paragraph_of (l : string) : element :=
  Node "p" (if has_angle l then CDATA l else Plain l) [].

(** A line the document can hold, as plain text or in a CDATA region: its
    characters are compatible and it does not hold the mark that ends a
    CDATA region. *)
Definition line_ok (l : string) : bool :=
  Etree.xml_compatible l && negb (Text.occurs "]]>" l).

(** A value the builder can render. *)
Definition renderable (v : cell) : Prop :=
  match v with
  | Str s => Forall (fun l => is_true (line_ok l)) (lines_of s)
  | Datetime _ => True
  | _ => False
  end.

(** The element the builder makes for a renderable value. *)
Definition element_of (name : string) (v : cell) : element :=
  match v with
  | Str s => Node name NoText (map paragraph_of (lines_of s))
  | Datetime d => Node name (Plain (isoformat d)) []
  | _ => Node name NoText []
  end.

(** A scalar that is neither text nor a date nor absent. *)
Definition other (v : cell) : bool :=
  match v with
  | Int _ | Bool _ => true
  | _ => false
  end.

(** The rendering as the specification words it: paragraphs for a text of
    several lines, one per non-empty line; the ISO date for a date; plain
    text for every other value. *)
Definition text_as_specified (l : string) : text :=
  if has_angle l then CDATA l else Plain l.

Definition render_as_specified (name : string) (v : cell) : element :=
  match v with
  | Str s =>
      if Text.contains "010" s
      then Node name NoText
             (map (fun l => Node "p" (text_as_specified l) [])
                  (filter (fun l => l <> ""%string) (Text.split "010" s)))
      else Node name (Plain s) []
  | Datetime d => Node name (Plain (isoformat d)) []
  | Int n => Node name (Plain (Text.str_of_int n)) []
  | Bool b => Node name (Plain (if b then "True" else "False")) []
  | NaN => Node name NoText []
  end.

(** The fields of a record whose value is present: label, element name
    and value, in the order of the record. *)
Definition present (labels names values : list cell) : list (cell * cell * cell) :=
  filter (fun f => Pandas.isna f.2 = false) (zip (zip labels names) values).

Definition text_of (c : cell) : string :=
  match c with Str s => s | _ => EmptyString end.

(** The element name of a field: its name cell without non-word characters. *)
Definition name_of (f : cell * cell * cell) : string := Text.sub_nonword (text_of f.1.2).

(** The sanitized label of a field. *)
Definition sanitized_label (f : cell * cell * cell) : string :=
  Text.sub_nonword (text_of f.1.1).

(** A field the builder can turn into an element. *)
Definition buildable (f : cell * cell * cell) : Prop :=
  is_true (Pandas.is_str f.1.2) /\ is_true (Etree.valid_tag (name_of f)) /\ renderable f.2.

Definition numeral_char (c : ascii) : bool := Text.is_digit c || Ascii.eqb c "-".

(** The children of the group element of a row of terms: one per cell that
    is not absent, named after the label of its column. *)
Fixpoint group_children (labels : list cell) (pos : nat) (row : list cell)
  : list element :=
  match row with
  | [] => []
  | term :: row' =>
      (if Pandas.isna term then []
       else [Node (normalize_label (text_of (nth pos labels NaN)))
                  (Plain (text_of term)) []])
      ++ group_children labels (S pos) row'
  end.

Definition group_of (labels row : list cell) : element :=
  Node "p" NoText (group_children labels 0 row).

(** A cell of a row of terms that the builder can turn into an element. *)
Definition term_ok (labels : list cell) (pos : nat) (term : cell) : Prop :=
  Pandas.isna term = true \/
  exists t l, term = Str t /\ is_true (Etree.xml_compatible t) /\
              labels !! pos = Some (Str l) /\
              is_true (Etree.valid_tag (normalize_label l)).

Definition row_ok (labels : list cell) (start : nat) (row : list cell) : Prop :=
  forall i term, row !! i = Some term -> term_ok labels (start + i) term.

(** The names as the specification words them: the text before the
    separator, in lower case, with underscores for spaces; for a column
    label the brackets at its end are stripped as well. *)
Definition root_as_specified (s : string) : string :=
  Text.replace " " "_" (Text.lower (Text.before ":" s)).

Definition is_bracket (c : ascii) : bool :=
  Text.contains c "<>()[]{}".

Fixpoint rstrip_brackets (s : string) : string :=
  match s with
  | EmptyString => EmptyString
  | String c s' =>
      match rstrip_brackets s' with
      | EmptyString => if is_bracket c then EmptyString else String c EmptyString
      | r => String c r
      end
  end.

Definition label_as_specified (s : string) : string :=
  rstrip_brackets (root_as_specified s).

(** A configuration as [config.read] builds it: distinct section names,
    none of them empty or [DEFAULT], and distinct options in each section. *)
Record wf_config (cfg : Config.t) : Prop := WfConfig {
  wf_names : NoDup (Config.sections cfg).*1;
  wf_no_default : Config.default_section ∉ (Config.sections cfg).*1;
  wf_no_empty : ""%string ∉ (Config.sections cfg).*1;
  wf_defaults : NoDup (Config.defaults cfg).*1;
  wf_options : Forall (fun so => NoDup so.2.*1) (Config.sections cfg)
}.

(** The sequence operation of the specification: lines 101 and 106, the
    number is computed and the file staged, then the number is stored. *)
Definition next_sequence (address : string) (attachment : file) : M Z :=
  sf <- save_attachment address attachment ;;
  update_sequence address (fst sf) ;;
  ret (fst sf).

(** The same, the run stopping inside [update_sequence] after [k] lines. *)
Definition interrupted_sequence (address : string) (attachment : file) (k : nat) : M Z :=
  sf <- save_attachment address attachment ;;
  interrupted_update address (fst sf) k ;;
  ret (fst sf).

(** The number [save_attachment] computes for a sender. *)
Definition next_of (cfg : Config.t) (address : string) : res Z :=
  if Config.has_option cfg address "sequence"
  then n ← Config.getint cfg address "sequence"; Ok (n + 1)
  else Ok 1.

(** The number [n] is stored for the sender in config.ini. *)
Definition stored (w : world) (address : string) (n : Z) : Prop :=
  exists cfg, Config.read (config_ini w) = Ok cfg /\
              Config.getint cfg address "sequence" = Ok n.

(** The sequence numbers handed out, as the log records them. *)
Definition issued_of (l : list (level * event)) : list (string * Z) :=
  omap (fun le => match le.2 with
                  | Downloaded sender seq _ => Some (sender, seq)
                  | _ => None
                  end) l.




(** An event that hands out no sequence number. *)
Definition quiet (e : event) : Prop :=
  match e with Downloaded _ _ _ => False | _ => True end.

(** [w'] is reached from [w] without handing out a number and without
    touching the configuration, its file or the templates. *)
Definition ext (w w' : world) : Prop :=
  config w' = config w /\ config_ini w' = config_ini w /\
  templates w' = templates w /\
  exists l, log w' = (log w ++ l)%list /\ Forall (fun le => quiet le.2) l.

(** As [ext], and no file of the three directories has moved. *)
Definition passive (w w' : world) : Prop :=
  ext w w' /\ sandbox_dir w' = sandbox_dir w /\
  success_dir w' = success_dir w /\ error_dir w' = error_dir w.

(** The computation [m] relates every state to the state it ends in. *)
Definition keeps (R : world -> world -> Prop) {A} (m : M A) : Prop :=
  forall w, R w (m w).2.

(** The configuration lets both reports be sent to [email]. *)
Definition report_language (lang : string) : string :=
  if blank lang then "en" else lang.

Inductive can_report (cfg : Config.t) (tpl : gmap string string) (email : string)
  : Prop :=
  | CanReport lang failure success address username password to :
      Config.get cfg email "language" = Ok lang ->
      Config.get cfg "reports" ("failure_" ++ report_language lang) = Ok failure ->
      is_Some (tpl !! failure) ->
      Config.get cfg "reports" ("success_" ++ report_language lang) = Ok success ->
      is_Some (tpl !! success) ->
      Config.get cfg "mailbox" "address" = Ok address ->
      Config.get cfg "mailbox" "username" = Ok username ->
      Config.get cfg "mailbox" "password" = Ok password ->
      Config.get cfg "reports" "email" = Ok to ->
      can_report cfg tpl email.

(** The file [name], holding [f], has left the staging area for [dst]. *)
Definition routed (name : string) (f : file) (dst : area) (w w' : world) : Prop :=
  ext w w' /\ sandbox_dir w' = delete name (sandbox_dir w) /\
  match dst with
  | Success => success_dir w' = <[name := f]> (success_dir w) /\
               error_dir w' = error_dir w
  | Error => error_dir w' = <[name := f]> (error_dir w) /\
             success_dir w' = success_dir w
  end.

(** The world after the [except] clause handled [e] for the file [name],
    which held [f], starting in the world [w] where [e] was raised. *)
Definition moved (name : string) (f : file) (dst : area) (w : world) : world :=
  let w := set_sandbox (delete name (sandbox_dir w)) w in
  match dst with
  | Success => set_success (<[name := f]> (success_dir w)) w
  | Error => set_error (<[name := f]> (error_dir w)) w
  end.

Definition caught (filepath name : string) (f : file) (e : exn) (w : world) : world :=
  let w := set_log (log w ++ [(ERROR, FailedToProcess filepath)])%list w in
  let w := set_log (log w ++ [(ERROR, ErrorArgs e)])%list w in
  let w := moved name f Error w in
  set_log (log w ++ [(INFO, Processed filepath)])%list w.

Definition is_xlsx (name : string) : bool :=
  String.eqb (snd (Text.splitext name)) ".xlsx".

(** What a pass does with the staged file [name], which held [f]: with a
    known sender it is in the success or in the error area, without one it
    is where it was and the log has the warning. *)
Definition settled (attachments : gmap string string) (in_path name : string)
    (f : file) (w' : world) : Prop :=
  match attachments !! Text.join in_path name with
  | Some _ =>
      sandbox_dir w' !! name = None /\
      (success_dir w' !! name = Some f \/ error_dir w' !! name = Some f)
  | None =>
      sandbox_dir w' !! name = Some f /\
      (WARNING, Skipping (Text.join in_path name)) ∈ log w'
  end.

(** The three directories hold the same under the name [n]. *)
Definition same_at (n : string) (w w' : world) : Prop :=
  sandbox_dir w' !! n = sandbox_dir w !! n /\
  success_dir w' !! n = success_dir w !! n /\
  error_dir w' !! n = error_dir w !! n.

(** Some character of [s] is not a dot. *)
Definition has_nondot (s : string) : bool :=
  Text.existsb_chars (fun c => negb (Ascii.eqb c ".")) s.

(** The base name of the documents of a staged file. *)
Definition base_name (code : string) (seq : Z) : string :=
  code ++ "_" ++ Text.str_of_int seq.

(** Every path of the dictionary [a] is the path of a file of the staging
    area, named by the code of its sender and a number. *)
Definition staged_under (sandbox : string) (w : world) (a : gmap string string) : Prop :=
  forall path sender, a !! path = Some sender ->
    exists code seq,
      path = Text.join sandbox (attachment_name code seq) /\
      is_Some (sandbox_dir w !! attachment_name code seq) /\
      is_email_address_known (config w) sender = true /\
      Config.get (config w) sender "code" = Ok code.

(** What the intake leaves alone: the success, error and output areas, the
    mail sent and the templates; and no name leaves the staging area. *)
Definition intake_frame (w w' : world) : Prop :=
  success_dir w' = success_dir w /\ error_dir w' = error_dir w /\
  output_dir w' = output_dir w /\ outbox w' = outbox w /\
  templates w' = templates w /\ dom (sandbox_dir w) ⊆ dom (sandbox_dir w') /\
  exists l, log w' = (log w ++ l)%list.

(** The sender of the message is not in the registry [cfg]. *)
Definition unknown (cfg : Config.t) (msg : message) : Prop :=
  is_email_address_known cfg (Text.sub_angle (return_path msg)) = false.

(** No file, document, mail or stored number differs between [w] and [w']. *)
Definition untouched (w w' : world) : Prop :=
  sandbox_dir w' = sandbox_dir w /\ success_dir w' = success_dir w /\
  error_dir w' = error_dir w /\ output_dir w' = output_dir w /\
  outbox w' = outbox w /\ config_ini w' = config_ini w.

(** The world after one attachment was saved, logged and counted. *)
Definition downloaded (s : string) (data : file) (sandbox code : string) (seq : Z)
    (cfg' : Config.t) (w : world) : world :=
  let w := set_sandbox (<[attachment_name code seq := data]> (sandbox_dir w)) w in
  let w := set_log (log w ++ [(INFO, Downloaded s seq
                                 (Text.join sandbox (attachment_name code seq)))])%list w in
  set_config_ini (Config.write cfg') (set_config cfg' w).

(** The invariant linking the dictionary of the intake to the staging
    area. *)
Definition staging_inv (sandbox : string) (a : gmap string string) (w : world) : Prop :=
  wf_config (config w) /\
  Config.get (config w) "DEFAULT" "sandbox" = Ok sandbox /\
  staged_under sandbox w a.

(** How often the label [c] occurs among [l]. *)
Definition occurrences (c : cell) (l : list cell) : nat :=
  length (filter (fun x => x = c) l).

(** The label [c] is marked as required and has no value in the frame. *)
Definition absent_in (df : DataFrame) (c : cell) : bool :=
  required c && match Pandas.getitem df c 1 with
                | Ok v => Pandas.isna v
                | Raise _ => false
                end.





(** The number of downloads that the lines [l] of the log record. *)
Definition downloads (l : list (level * event)) : Z :=
  Z.of_nat (length (issued_of l)).

(** Every count of attachments among the lines [l] is the number of the
    downloads logged before it, counted from [c]. *)
Fixpoint running_total (c : Z) (l : list (level * event)) : Prop :=
  match l with
  | [] => True
  | (_, Downloaded _ _ _) :: l' => running_total (c + 1) l'
  | (_, DownloadedCount n) :: l' => n = c /\ running_total c l'
  | _ :: l' => running_total c l'
  end.

(** The document of terms of the sheet [sh] of the file [name]: its path
    under [path], and its content. *)
Definition terms_document (name path : string) (sh : sheet) : res (string * element) :=
  let df := Pandas.of_sheet sh in
  el_name ← el_name_of df;
  xml ← terms_to_xml df el_name;
  Ok (Text.join path (Text.before "." name ++ "_" ++ el_name ++ ".xml"), xml).

(** The world after the documents [docs] were saved, one after the other. *)
Definition written (docs : list (string * element)) (w : world) : world :=
  foldl (fun w d => set_output (<[d.1 := d.2]> (output_dir w))
                      (set_log (log w ++ [(DEBUG, SaveXml d.1)])%list w)) w docs.

(** The document that [docs] leaves under the path [p]: the last one written
    there. *)
Definition last_at (p : string) (docs : list (string * element)) : option element :=
  snd <$> last (filter (fun d => d.1 = p) docs).

(** The options of the four directories, in the order of [prepare]. *)
Definition directory_options : list string := ["error"; "output"; "sandbox"; "success"].

(** The option [k] names a directory: it exists and is not empty. *)
Definition names_directory (cfg : Config.t) (k p : string) : Prop :=
  Config.get cfg "DEFAULT" k = Ok p /\ p <> ""%string.

(** ** Examples *)

Module Ex.

Definition one_field : sheet :=
  Sheet ["ARCHIVES AFRICA: COLLECTION DATA"; "Unnamed: 1"; "Unnamed: 2"]
        [ [Str "Title *"; Str "title"; Str "Kano chronicle"];
          [Str "* Required"; NaN; NaN] ].


Definition title_record : DataFrame :=
  Frame [Str "Unnamed: 1"; Str "Unnamed: 2"] [Str "Title *"]
        [[Str "title"]; [Str "Kano chronicle"]].


(** Three lines: [ a <b>], two spaces, [c ]. *)
Definition three_lines : string :=
  " a <b>" ++ String "010" "  " ++ String "010" "c ".


Definition terms_sheet : sheet :=
  Sheet ["Subject Terms : list"; "Unnamed: 1"]
        [ [Str "Term: preferred"; Str "Broader > term"];
          [Str "trade"; NaN];
          [NaN; Str "economy"];
          [NaN; NaN] ].


Definition registry : Config.t :=
  Config.mk
    [("sandbox", "in"); ("error", "err"); ("output", "out"); ("success", "ok")]
    [("mailbox", [("address", "imap.x.org"); ("username", "u"); ("password", "p")]);
     ("reports", [("email", "admin@x.org"); ("failure_en", "failure.txt");
                  ("success_en", "success.txt")]);
     ("a@x.org", [("code", "AX"); ("language", "en"); ("sequence", "5")])].

(** A world whose config.ini holds [registry], read by the program. *)
Definition office : world :=
  World ∅ ∅ ∅ ∅
        (list_to_map [("failure.txt", "Missing"); ("success.txt", "Thanks")])
        [] [] registry (Config.write registry).


Definition unknown_message : message :=
  Message "<z@unknown.com>" [Part false (Some "attachment") (Some (Bytes "xlsx"))].


Definition good_book : workbook :=
  [("collection", one_field); ("subjects", terms_sheet)].

(** The value of the required field is the number 1987. *)
Definition numeric_book : workbook :=
  [("collection",
    Sheet ["ARCHIVES AFRICA: COLLECTION DATA"; "Unnamed: 1"; "Unnamed: 2"]
          [ [Str "* Required"; NaN; NaN];
            [Str "Year *"; Str "year"; Int 1987] ])].

(** The second sheet of terms holds a number. *)
Definition broken_terms_book : workbook :=
  [("collection", one_field); ("subjects", terms_sheet);
   ("places", Sheet ["Places: list"] [ [Str "Place"]; [Int 12] ])].

Definition staged (files : list (string * file)) : world :=
  World (list_to_map files) ∅ ∅ ∅ (templates office) [] [] registry
        (Config.write registry).

Definition owners : gmap string string := {[ "in/AX_6.xlsx" := "a@x.org" ]}.

Definition dirs : paths := Paths "err" "in" "out" "ok".


(** A registry whose sender has no language option. *)
Definition registry_without_language : Config.t :=
  Config.mk (Config.defaults registry)
    [("mailbox", [("address", "imap.x.org"); ("username", "u"); ("password", "p")]);
     ("reports", [("email", "admin@x.org"); ("failure_en", "failure.txt");
                  ("success_en", "success.txt")]);
     ("a@x.org", [("code", "AX"); ("sequence", "7")])].

Definition two_owners : gmap string string :=
  {[ "in/AX_6.xlsx" := "a@x.org"; "in/AX_7.xlsx" := "a@x.org" ]}.


(** Two senders with the code [AX], neither with a counter yet. *)
Definition shared_registry : Config.t :=
  Config.mk (Config.defaults registry)
    [("mailbox", [("address", "imap.x.org"); ("username", "u"); ("password", "p")]);
     ("a@x.org", [("code", "AX"); ("language", "en")]);
     ("b@y.org", [("code", "AX"); ("language", "fr")])].

Definition shared : world :=
  World ∅ ∅ ∅ ∅ ∅ [] [] shared_registry (Config.write shared_registry).


Definition one_attachment : message :=
  Message "<a@x.org>" [Part true None None;
                       Part false (Some "attachment") (Some (Excel good_book))].


(** The required title is left empty. *)
Definition untitled_book : workbook :=
  [("collection",
    Sheet ["ARCHIVES AFRICA: COLLECTION DATA"; "Unnamed: 1"; "Unnamed: 2"]
          [ [Str "Title *"; Str "title"; NaN];
            [Str "* Required"; NaN; NaN] ])].


(** A sheet with a leading row of headings and a leading column of
    section names; the labels of the fields are in the second column. *)
Definition headed_sheet : sheet :=
  Sheet ["ARCHIVES AFRICA: COLLECTION DATA"; "Unnamed: 1"; "Unnamed: 2"]
        [ [Str "Section"; Str "Field"; Str "Value"];
          [Str "Identity"; Str "Title *"; Str "Kano chronicle"];
          [Str "* Required"; Str "* Required"; NaN] ].

(** A record of four fields: a text, a date, an absent value and a text of
    several lines. *)
Definition catalogue_record : DataFrame :=
  Frame [Str "Unnamed: 1"; Str "Unnamed: 2"]
        [Str "Title *"; Str "Date created"; Str "Notes"; Str "Scope <content>"]
        [[Str "title"; Str "date-created"; Str "notes"; Str "scope & content"];
         [Str "Kano chronicle"; Datetime (Timestamp 1987 3 12 9 30 0); NaN;
          Str three_lines]].

End Ex.

(** * Properties *)

Local Open Scope list_scope.

(** ** The configuration *)

Section ConfigFacts.

Context {A : Type}.
Implicit Types (l : list (string * A)) (k : string) (v : A).

Lemma assoc_None k l : Config.assoc k l = None <-> k ∉ l.*1.
Proof.
  induction l as [|[k' v'] l IH]; simpl.
  - split; [intros _; apply not_elem_of_nil | done].
  - rewrite not_elem_of_cons. destruct (String.eqb_spec k k') as [->|Hne].
    + split; [done | intros [? _]; done].
    + rewrite IH. split; [by intros H | by intros [_ H]].
Qed.

Lemma assoc_Some_elem k v l : Config.assoc k l = Some v -> (k, v) ∈ l.
Proof.
  induction l as [|[k' v'] l IH]; simpl; [done|].
  destruct (String.eqb_spec k k') as [->|Hne].
  - intros [= ->]. apply list_elem_of_here.
  - intros H. apply list_elem_of_further. by apply IH.
Qed.

Lemma assoc_app_l k l1 l2 v :
  Config.assoc k l1 = Some v -> Config.assoc k (l1 ++ l2) = Some v.
Proof.
  induction l1 as [|[k' v'] l1 IH]; simpl; [done|].
  by destruct (String.eqb k k').
Qed.

Lemma assoc_app_r k l1 l2 :
  Config.assoc k l1 = None -> Config.assoc k (l1 ++ l2) = Config.assoc k l2.
Proof.
  induction l1 as [|[k' v'] l1 IH]; simpl; [done|].
  by destruct (String.eqb k k').
Qed.

Lemma assoc_set_eq k v l : Config.assoc k (Config.assoc_set k v l) = Some v.
Proof.
  induction l as [|[k' v'] l IH]; simpl.
  - by rewrite String.eqb_refl.
  - destruct (String.eqb k k') eqn:E; simpl; [by rewrite String.eqb_refl|].
    by rewrite E.
Qed.

Lemma assoc_set_ne k k' v l :
  k' <> k -> Config.assoc k' (Config.assoc_set k v l) = Config.assoc k' l.
Proof.
  intros Hne. induction l as [|[k1 v1] l IH]; simpl.
  - by apply String.eqb_neq in Hne as ->.
  - destruct (String.eqb_spec k k1) as [->|Hk]; simpl.
    + by apply String.eqb_neq in Hne as ->.
    + by rewrite IH.
Qed.

Lemma assoc_set_keys_in k v v0 l :
  Config.assoc k l = Some v0 -> (Config.assoc_set k v l).*1 = l.*1.
Proof.
  induction l as [|[k1 v1] l IH]; simpl; [done|].
  destruct (String.eqb_spec k k1) as [->|Hk]; simpl; [done|].
  intros H. f_equal. by apply IH.
Qed.

Lemma assoc_set_keys_new k v l :
  Config.assoc k l = None -> Config.assoc_set k v l = l ++ [(k, v)].
Proof.
  induction l as [|[k1 v1] l IH]; simpl; [done|].
  destruct (String.eqb_spec k k1) as [->|Hk]; simpl; [done|].
  intros H. f_equal. by apply IH.
Qed.

Lemma assoc_set_NoDup k v l : NoDup l.*1 -> NoDup (Config.assoc_set k v l).*1.
Proof.
  intros Hnd. destruct (Config.assoc k l) as [v0|] eqn:E.
  - by rewrite (assoc_set_keys_in _ _ _ _ E).
  - rewrite (assoc_set_keys_new _ _ _ E), fmap_app. simpl.
    apply NoDup_app. split; [done|]. split; [|apply NoDup_singleton].
    intros x Hx ->%list_elem_of_singleton. by apply assoc_None in E.
Qed.

Lemma assoc_set_elem k v l x :
  x ∈ Config.assoc_set k v l -> x = (k, v) \/ x ∈ l.
Proof.
  induction l as [|[k1 v1] l IH]; simpl.
  - intros ->%list_elem_of_singleton. by left.
  - destruct (String.eqb k k1).
    + intros [->|H]%elem_of_cons; [by left|]. right. by apply list_elem_of_further.
    + intros [->|H]%elem_of_cons; [right; apply list_elem_of_here|].
      destruct (IH H) as [->|H']; [by left|]. right. by apply list_elem_of_further.
Qed.

End ConfigFacts.

Section ConfigTheory.

Implicit Types (cfg : Config.t) (s k v : string) (o : Config.options).

Lemma known_section cfg s :
  wf_config cfg -> Config.has_section cfg s = true ->
  s <> ""%string /\ s <> Config.default_section /\
  exists o, Config.assoc s (Config.sections cfg) = Some o.
Proof.
  intros Hwf. unfold Config.has_section.
  destruct (Config.assoc s (Config.sections cfg)) as [o|] eqn:E; [|done].
  intros _. apply assoc_Some_elem in E.
  assert (Hs : s ∈ (Config.sections cfg).*1).
  { apply list_elem_of_fmap. by exists (s, o). }
  repeat split; [| |by exists o]; intros ->.
  - by apply (wf_no_empty _ Hwf).
  - by apply (wf_no_default _ Hwf).
Qed.

Lemma set_section cfg s k v o :
  s <> ""%string -> s <> Config.default_section ->
  Config.assoc s (Config.sections cfg) = Some o ->
  Config.set cfg s k v =
  Ok (Config.mk (Config.defaults cfg)
        (Config.assoc_set s (Config.assoc_set k v o) (Config.sections cfg))).
Proof.
  intros H1 H2 Ho. unfold Config.set.
  apply String.eqb_neq in H1 as ->. apply String.eqb_neq in H2 as ->.
  by rewrite Ho.
Qed.

Lemma wf_set cfg cfg' s k v :
  wf_config cfg -> Config.set cfg s k v = Ok cfg' -> wf_config cfg'.
Proof.
  intros [H1 H2 H3 H4 H5]. unfold Config.set.
  destruct (String.eqb s "" || String.eqb s Config.default_section).
  - intros [= <-]. constructor; simpl; try done. by apply assoc_set_NoDup.
  - destruct (Config.assoc s (Config.sections cfg)) as [o|] eqn:E; [|done].
    intros [= <-]. constructor; simpl; try done;
      rewrite ?(assoc_set_keys_in _ _ _ _ E); try done.
    apply Forall_forall. intros x [->|Hx]%assoc_set_elem; simpl.
    + apply assoc_set_NoDup. apply assoc_Some_elem in E.
      by apply (proj1 (Forall_forall _ _) H5 _ E).
    + by apply (proj1 (Forall_forall _ _) H5 _ Hx).
Qed.

Lemma has_section_set cfg cfg' s k v t :
  Config.set cfg s k v = Ok cfg' ->
  Config.has_section cfg' t = Config.has_section cfg t.
Proof.
  unfold Config.set, Config.has_section.
  destruct (String.eqb s "" || String.eqb s Config.default_section).
  - by intros [= <-].
  - destruct (Config.assoc s (Config.sections cfg)) as [o|] eqn:E; [|done].
    intros [= <-]. simpl. destruct (decide (t = s)) as [->|Hne].
    + by rewrite assoc_set_eq, E.
    + by rewrite assoc_set_ne.
Qed.

(** After [config.set(s, k, v)] on a section [s]: the option reads [v],
    every other option of every section reads as before. *)
Lemma get_set_eq cfg s k v o :
  s <> ""%string -> s <> Config.default_section ->
  Config.assoc s (Config.sections cfg) = Some o ->
  forall cfg', Config.set cfg s k v = Ok cfg' ->
    Config.get cfg' s k = Ok v /\ Config.has_option cfg' s k = true.
Proof.
  intros H1 H2 Ho cfg'. rewrite (set_section _ _ _ _ o) by done. intros [= <-].
  unfold Config.get, Config.has_option, Config.mem. simpl.
  apply String.eqb_neq in H1 as ->. apply String.eqb_neq in H2 as ->. simpl.
  rewrite assoc_set_eq. by rewrite assoc_set_eq.
Qed.

Lemma get_set_other cfg s k v o t k' :
  s <> ""%string -> s <> Config.default_section ->
  Config.assoc s (Config.sections cfg) = Some o ->
  t <> s \/ k' <> k ->
  forall cfg', Config.set cfg s k v = Ok cfg' ->
    Config.get cfg' t k' = Config.get cfg t k' /\
    Config.has_option cfg' t k' = Config.has_option cfg t k'.
Proof.
  intros H1 H2 Ho Hne cfg'. rewrite (set_section _ _ _ _ o) by done. intros [= <-].
  unfold Config.get, Config.has_option, Config.mem. simpl.
  destruct (decide (t = s)) as [->|Hts].
  - destruct Hne as [?|Hk]; [done|].
    by rewrite !assoc_set_eq, Ho, !assoc_set_ne.
  - by rewrite !assoc_set_ne.
Qed.

Lemma assoc_set_last {A} s (x y : A) (l : list (string * A)) :
  s ∉ l.*1 -> Config.assoc_set s y (l ++ [(s, x)]) = l ++ [(s, y)].
Proof.
  induction l as [|[k1 v1] l IH]; simpl.
  - by rewrite String.eqb_refl.
  - intros [Hs Hl]%not_elem_of_cons. apply String.eqb_neq in Hs as ->.
    by rewrite IH.
Qed.

Lemma assoc_last {A} s (x : A) (l : list (string * A)) :
  s ∉ l.*1 -> Config.assoc s (l ++ [(s, x)]) = Some x.
Proof.
  intros Hs. rewrite assoc_app_r by (by apply assoc_None). simpl.
  by rewrite String.eqb_refl.
Qed.

(** Reading the options of the section being read. *)
Lemma read_options s d (secs : list (string * Config.options)) o2 : forall o1 rest,
  s <> ""%string -> s <> Config.default_section -> s ∉ secs.*1 ->
  NoDup (o1 ++ o2).*1 ->
  Config.read_from (Some s) (Config.mk d (secs ++ [(s, o1)]))
    (map (fun kv => Config.Option_ kv.1 kv.2) o2 ++ rest) =
  Config.read_from (Some s) (Config.mk d (secs ++ [(s, o1 ++ o2)])) rest.
Proof.
  induction o2 as [|[k v] o2 IH]; intros o1 rest H1 H2 Hs Hnd.
  - simpl. by rewrite app_nil_r.
  - cbn [map app Config.read_from fst snd].
    assert (E2 : String.eqb s Config.default_section = false) by (by apply String.eqb_neq).
    rewrite E2. cbn [Config.sections]. rewrite (assoc_last s o1 secs Hs).
    assert (Hk : Config.assoc k o1 = None).
    { apply assoc_None. rewrite fmap_app in Hnd. apply NoDup_app in Hnd as (_ & Hd & _).
      intros Hin. apply (Hd k Hin). simpl. apply list_elem_of_here. }
    unfold Config.mem. rewrite Hk.
    rewrite (set_section _ s k v o1); [|done|done|by apply assoc_last].
    cbn [mbind res_bind Config.defaults Config.sections].
    rewrite (assoc_set_keys_new _ _ _ Hk), (assoc_set_last s o1 _ secs Hs).
    rewrite (IH (o1 ++ [(k, v)]) rest); try done; by rewrite <- app_assoc.
Qed.

Lemma read_default_options (secs : list (string * Config.options)) o2 : forall o1 rest,
  NoDup (o1 ++ o2).*1 ->
  Config.read_from (Some Config.default_section) (Config.mk o1 secs)
    (map (fun kv => Config.Option_ kv.1 kv.2) o2 ++ rest) =
  Config.read_from (Some Config.default_section) (Config.mk (o1 ++ o2) secs) rest.
Proof.
  induction o2 as [|[k v] o2 IH]; intros o1 rest Hnd.
  - simpl. by rewrite app_nil_r.
  - cbn [map app Config.read_from fst snd]. rewrite String.eqb_refl.
    cbn [Config.defaults].
    assert (Hk : Config.assoc k o1 = None).
    { apply assoc_None. rewrite fmap_app in Hnd. apply NoDup_app in Hnd as (_ & Hd & _).
      intros Hin. apply (Hd k Hin). simpl. apply list_elem_of_here. }
    unfold Config.mem. rewrite Hk. unfold Config.set.
    rewrite String.eqb_refl, orb_true_r.
    cbn [mbind res_bind Config.defaults Config.sections].
    rewrite (assoc_set_keys_new _ _ _ Hk).
    rewrite (IH (o1 ++ [(k, v)]) rest); try done; by rewrite <- app_assoc.
Qed.

Lemma read_sections d (secs2 : list (string * Config.options)) :
  forall (secs1 : list (string * Config.options)) cur,
  NoDup (secs1 ++ secs2).*1 ->
  Config.default_section ∉ secs2.*1 -> ""%string ∉ secs2.*1 ->
  Forall (fun so => NoDup so.2.*1) secs2 ->
  Config.read_from cur (Config.mk d secs1)
    (flat_map (fun so => Config.write_section so.1 so.2) secs2) =
  Ok (Config.mk d (secs1 ++ secs2)).
Proof.
  induction secs2 as [|[s o] secs2 IH]; intros secs1 cur Hnd Hdef Hemp Hopt.
  - simpl. by rewrite app_nil_r.
  - apply not_elem_of_cons in Hdef as [Hd1 Hd2].
    apply not_elem_of_cons in Hemp as [He1 He2].
    apply Forall_cons in Hopt as [Ho Hopt]. simpl in Hd1, He1, Ho.
    assert (Hs : s ∉ secs1.*1).
    { rewrite fmap_app in Hnd. apply NoDup_app in Hnd as (_ & Hd & _).
      intros Hin. apply (Hd s Hin). simpl. apply list_elem_of_here. }
    cbn [flat_map Config.write_section fst snd app Config.read_from].
    assert (E1 : String.eqb s "" = false) by (apply String.eqb_neq; congruence).
    assert (E2 : String.eqb s Config.default_section = false)
      by (apply String.eqb_neq; congruence).
    rewrite E1, E2. unfold Config.has_section. cbn [Config.sections Config.defaults].
    destruct (Config.assoc s secs1) as [x|] eqn:E.
    { exfalso. apply assoc_Some_elem in E. apply Hs.
      apply list_elem_of_fmap. by exists (s, x). }
    rewrite <- app_assoc.
    rewrite (read_options s d secs1 o [] _) by (done || congruence).
    cbn [app Config.read_from].
    replace (secs1 ++ (s, o) :: secs2) with ((secs1 ++ [(s, o)]) ++ secs2)
      by (by rewrite <- app_assoc).
    apply IH; try done. by rewrite <- app_assoc.
Qed.

(** What [config.write] wrote, [config.read] reads back. *)
Lemma read_write cfg : wf_config cfg -> Config.read (Config.write cfg) = Ok cfg.
Proof.
  intros [H1 H2 H3 H4 H5]. destruct cfg as [d secs]. simpl in *.
  unfold Config.read, Config.write, Config.empty. cbn [Config.defaults Config.sections].
  destruct d as [|kv d].
  - cbn [app]. by rewrite (read_sections [] secs [] None).
  - unfold Config.write_section at 1.
    cbn [app Config.read_from]. rewrite String.eqb_refl.
    change (String.eqb Config.default_section "") with false. cbv iota.
    rewrite <- app_assoc.
    rewrite (read_default_options [] (kv :: d) [] _) by done.
    cbn [app Config.read_from].
    by rewrite (read_sections (kv :: d) secs [] _).
Qed.



End ConfigTheory.

(** ** Numerals *)

Section Numerals.

Lemma forallb_chars_app p s t :
  Text.forallb_chars p (s +:+ t) = Text.forallb_chars p s && Text.forallb_chars p t.
Proof. induction s as [|c s IH]; simpl; [done|]. by rewrite IH, andb_assoc. Qed.

Lemma forallb_chars_impl (p q : ascii -> bool) s :
  (forall c, p c = true -> q c = true) ->
  Text.forallb_chars p s = true -> Text.forallb_chars q s = true.
Proof.
  intros Hpq. induction s as [|c s IH]; simpl; [done|].
  intros [Hc Hs]%andb_prop. by rewrite (Hpq _ Hc), IH.
Qed.

Lemma numeral_uint d : Text.forallb_chars numeral_char (NilEmpty.string_of_uint d) = true.
Proof. induction d; simpl; try done. Qed.

Lemma numeral_str_of_int n : Text.forallb_chars numeral_char (Text.str_of_int n) = true.
Proof.
  unfold Text.str_of_int, NilZero.string_of_int, NilZero.string_of_uint.
  destruct (Z.to_int n) as [d|d]; destruct d; simpl; try done; apply numeral_uint.
Qed.

Lemma numeral_not_space c : numeral_char c = true -> Text.is_space c = false.
Proof. destruct c as [[] [] [] [] [] [] [] []]; vm_compute; intros; congruence. Qed.

Lemma numeral_not_plus c : numeral_char c = true -> c <> "+"%char.
Proof. intros H ->. vm_compute in H. congruence. Qed.

Lemma rstrip_numeral s :
  Text.forallb_chars numeral_char s = true -> Text.rstrip s = s.
Proof.
  induction s as [|c s IH]; simpl; [done|].
  intros [Hc Hs]%andb_prop. rewrite (IH Hs), (numeral_not_space c Hc).
  by destruct s.
Qed.

Lemma strip_numeral s :
  Text.forallb_chars numeral_char s = true -> Text.strip s = s.
Proof.
  intros H. unfold Text.strip.
  assert (Hl : Text.lstrip s = s).
  { destruct s as [|c s]; simpl in *; [done|].
    apply andb_prop in H as [Hc _]. by rewrite (numeral_not_space c Hc). }
  rewrite Hl. by apply rstrip_numeral.
Qed.

(** [int(str(n)) == n] *)
Lemma int_of_str_of_int n : Text.int_of_str (Text.str_of_int n) = Ok n.
Proof.
  unfold Text.int_of_str. rewrite strip_numeral by apply numeral_str_of_int.
  assert (Hparse : NilZero.int_of_string (Text.str_of_int n) = Some (Z.to_int n)).
  { unfold Text.str_of_int. apply NilZero.isi; destruct n; simpl; try done;
      intros [= H]; by apply Unsigned.to_uint_nonnil in H. }
  assert (Hnum := numeral_str_of_int n).
  destruct (Text.str_of_int n) as [|c s] eqn:E; [done|].
  simpl in Hnum. apply andb_prop in Hnum as [Hc _].
  assert (Hplus := numeral_not_plus c Hc).
  destruct c as [[] [] [] [] [] [] [] []];
    first [ by destruct Hplus | by rewrite Hparse, DecimalZ.of_to ].
Qed.

Lemma str_of_int_inj n m : Text.str_of_int n = Text.str_of_int m -> n = m.
Proof.
  intros H. assert (Hn := int_of_str_of_int n). rewrite H, int_of_str_of_int in Hn.
  by injection Hn.
Qed.

End Numerals.

(** ** The validator *)

Lemma nth_error_lookup {A} (l : list A) (i : nat) : nth_error l i = l !! i.
Proof. revert i. induction l as [|x l IH]; intros [|i]; simpl; auto. Qed.

Section Validator.

Lemma positions_notin c l i : c ∉ l -> Pandas.positions c l i = [].
Proof.
  revert i. induction l as [|x l IH]; intros i Hc; simpl; [done|].
  apply not_elem_of_cons in Hc as [Hx Hl].
  destruct (decide (x = c)); [congruence | by apply IH].
Qed.

Lemma positions_unique c l j i :
  NoDup l -> l !! j = Some c -> Pandas.positions c l i = [(i + j)%nat].
Proof.
  revert j i. induction l as [|x l IH]; intros j i Hnd Hj; [done|].
  apply NoDup_cons in Hnd as [Hx Hnd]. destruct j as [|j]; simpl in *.
  - injection Hj as ->. destruct (decide (c = c)); [|done].
    rewrite positions_notin by done. by rewrite Nat.add_0_r.
  - destruct (decide (x = c)) as [->|_].
    + exfalso. apply Hx. by eapply list_elem_of_lookup_2.
    + rewrite (IH j (S i)) by done. f_equal. lia.
Qed.

Lemma getitem_value idx labels names values rest j c v :
  NoDup labels -> labels !! j = Some c -> values !! j = Some v ->
  Pandas.getitem (Frame idx labels (names :: values :: rest)) c 1 = Ok v.
Proof.
  intros Hnd Hc Hv. unfold Pandas.getitem. simpl.
  rewrite (positions_unique c labels j 0) by done. simpl.
  f_equal. by apply nth_lookup_Some.
Qed.

Lemma getitem_name idx labels names rest j c n :
  NoDup labels -> labels !! j = Some c -> names !! j = Some n ->
  Pandas.getitem (Frame idx labels (names :: rest)) c 0 = Ok n.
Proof.
  intros Hnd Hc Hn. unfold Pandas.getitem. simpl.
  rewrite (positions_unique c labels j 0) by done. simpl.
  f_equal. by apply nth_lookup_Some.
Qed.

Lemma get_missing_fields_loop_spec idx labels names values rest :
  NoDup labels ->
  forall cs vs pre prev acc,
    labels = pre ++ cs -> values = prev ++ vs ->
    length pre = length prev -> length cs = length vs ->
    Forall (fun c => is_true (Pandas.is_str c)) cs ->
    get_missing_fields_loop (Frame idx labels (names :: values :: rest)) cs acc
    = Ok (acc ++ absent_required cs vs).
Proof.
  intros Hnd cs. induction cs as [|c cs IH]; intros vs pre prev acc Hl Hv Hlen Hlen' Hstr.
  - destruct vs; [|done]. unfold absent_required. simpl. by rewrite app_nil_r.
  - destruct vs as [|v vs]; [done|]. simpl in Hlen'.
    apply Forall_cons in Hstr as [Hc Hstr].
    destruct c as [|s| | |]; try done.
    assert (Hj : labels !! length pre = Some (Str s)).
    { rewrite Hl. by rewrite list_lookup_middle. }
    assert (Hvj : values !! length pre = Some v).
    { rewrite Hv. by rewrite list_lookup_middle. }
    cbn [get_missing_fields_loop star_in mbind res_bind].
    rewrite (getitem_value _ _ _ _ _ _ _ _ Hnd Hj Hvj).
    assert (Hrest : forall acc', get_missing_fields_loop
              (Frame idx labels (names :: values :: rest)) cs acc'
              = Ok (acc' ++ absent_required cs vs)).
    { intros acc'. apply (IH vs (pre ++ [Str s]) (prev ++ [v])).
      - by rewrite <- app_assoc.
      - by rewrite <- app_assoc.
      - rewrite !length_app. simpl. lia.
      - lia.
      - done. }
    unfold absent_required. simpl. rewrite filter_cons. simpl.
    destruct (Text.contains "*" s) eqn:Hreq; simpl.
    + destruct (Pandas.isna v) eqn:Hna; simpl.
      * rewrite Hrest. unfold absent_required. by rewrite <- app_assoc.
      * apply Hrest.
    + apply Hrest.
Qed.

Lemma elem_of_absent_required labels values c :
  length labels = length values ->
  c ∈ absent_required labels values <->
  is_true (required c) /\ under labels values c NaN.
Proof.
  intros Hlen. unfold absent_required, under. rewrite list_elem_of_fmap. split.
  - intros [[c' v] [-> Hin]]. apply list_elem_of_filter in Hin as [HP Hin].
    simpl in *. apply andb_prop_elim in HP as [Hreq Hna].
    apply list_elem_of_lookup in Hin as [j Hj].
    apply lookup_zip_with_Some in Hj as (c1 & v1 & Heq & Hc & Hv).
    injection Heq as <- <-. split; [by apply Is_true_true|].
    exists j. split; [done|]. destruct v; try done.
  - intros [Hreq (j & Hc & Hv)]. exists (c, NaN). split; [done|].
    apply list_elem_of_filter. split.
    + simpl. rewrite Hreq. done.
    + apply list_elem_of_lookup. exists j.
      apply lookup_zip_with_Some. by exists c, NaN.
Qed.

(** C4.  On every Normalized Record the validator returns exactly the
    labels marked as required whose value is absent (an empty cell, read as
    NaN), in the order of the record; the result is empty if and only if
    every required label has a present value.  [get_missing_fields] is a
    function of the record alone: it neither takes nor returns a [world]. *)
Theorem get_missing_fields_exact (r : DataFrame) (names values : list cell) :
  normalized r names values ->
  exists missing : list cell,
    get_missing_fields r = Ok missing /\
    missing = absent_required (columns r) values /\
    (forall c, c ∈ missing <->
       is_true (required c) /\ under (columns r) values c NaN) /\
    (missing = [] <->
       forall c v, is_true (required c) -> under (columns r) values c v ->
                   Pandas.isna v = false).
Proof.
  intros [idx labels names' values' rest Hstr Hnd Hn Hv]. simpl.
  exists (absent_required labels values').
  assert (Hin := elem_of_absent_required labels values').
  split; [|split; [done|split]].
  - unfold get_missing_fields. simpl.
    by rewrite (get_missing_fields_loop_spec idx labels names' values' rest Hnd
                  labels values' [] [] []).
  - intros c. by apply Hin.
  - split.
    + intros Hnil c v Hreq Hu. destruct v; try done.
      assert (Hc : c ∈ absent_required labels values') by (by apply Hin).
      rewrite Hnil in Hc. by apply elem_of_nil in Hc.
    + intros Hall. apply elem_of_nil_inv. intros c Hc.
      apply Hin in Hc as [Hreq Hu]; [|done].
      by specialize (Hall c NaN Hreq Hu).
Qed.

Lemma get_missing_fields_exact_witness :
  exists missing : list cell,
    get_missing_fields
      (Frame [Str "Unnamed: 1"; Str "Unnamed: 2"]
             [Str "Title *"; Str "Date"; Str "Creator *"]
             [[Str "title"; Str "date"; Str "creator"];
              [Str "My title"; NaN; NaN]]) = Ok missing /\
    missing = [Str "Creator *"].
Proof.
  destruct (get_missing_fields_exact
    (Frame [Str "Unnamed: 1"; Str "Unnamed: 2"]
           [Str "Title *"; Str "Date"; Str "Creator *"]
           [[Str "title"; Str "date"; Str "creator"];
            [Str "My title"; NaN; NaN]])
    [Str "title"; Str "date"; Str "creator"]
    [Str "My title"; NaN; NaN]) as (missing & Hm & Heq & _).
  - constructor; [by repeat constructor | | reflexivity | reflexivity].
    apply (bool_decide_unpack _). vm_compute. exact I.
  - exists missing. split; [exact Hm | rewrite Heq; reflexivity].
Defined.

End Validator.

(** ** The record extractor *)

Section Extractor.

Lemma select_map {A B} (p : A -> bool) (g : A -> B) (l : list A) :
  Pandas.select (map p l) (map g l) = map g (filter (fun x => is_true (p x)) l).
Proof.
  induction l as [|x l IH]; [done|].
  cbn [map Pandas.select]. rewrite filter_cons.
  destruct (decide (is_true (p x))) as [Hp|Hp].
  - rewrite Hp. cbn [map]. by rewrite IH.
  - destruct (p x); [by destruct Hp | apply IH].
Qed.

Lemma mem_true c l : c ∈ l -> Pandas.mem c l = true.
Proof. intros H. unfold Pandas.mem. by apply bool_decide_eq_true. Qed.

Lemma tail_map_seq {A} (f : nat -> A) n :
  tail (map f (seq 0 n)) = map f (seq 1 (n - 1)).
Proof. destruct n; simpl; [done|]. by rewrite Nat.sub_0_r. Qed.

Lemma zero_in_range n : (0 < n)%nat -> Int 0 ∈ Pandas.range n.
Proof.
  intros Hn. destruct n; [lia|]. unfold Pandas.range. simpl. apply list_elem_of_here.
Qed.

Lemma drop_columns_one c df :
  c ∈ columns df ->
  Pandas.drop_columns [c] df =
  Ok (Frame (index df) (Pandas.select (Pandas.mask [c] (columns df)) (columns df))
            (map (Pandas.select (Pandas.mask [c] (columns df))) (data df))).
Proof. intros H. unfold Pandas.drop_columns. simpl. by rewrite mem_true. Qed.

Lemma drop_rows_one c df :
  c ∈ index df ->
  Pandas.drop_rows [c] df =
  Ok (Frame (Pandas.select (Pandas.mask [c] (index df)) (index df)) (columns df)
            (Pandas.select (Pandas.mask [c] (index df)) (data df))).
Proof. intros H. unfold Pandas.drop_rows. simpl. by rewrite mem_true. Qed.

Lemma str_strip_text row s :
  Str s ∈ row -> Pandas.str_strip row = Ok (map Pandas.strip_cell row).
Proof.
  intros H. unfold Pandas.str_strip.
  assert (Hex : existsb Pandas.is_str row = true).
  { apply existsb_exists. exists (Str s). split; [by apply list_elem_of_In | done]. }
  by rewrite Hex.
Qed.

Lemma mask_marker (rows : list (list cell)) :
  Pandas.mask [required_marker] (map Pandas.strip_cell (Pandas.column 0 rows))
  = map is_field rows.
Proof.
  unfold Pandas.mask, Pandas.column. rewrite !map_map.
  apply map_ext. intros r. unfold is_field, label_of, Pandas.mem. f_equal.
  apply bool_decide_ext. by rewrite list_elem_of_singleton.
Qed.

(** What the extractor computes, line 215 having no effect: it reads the
    sheet [collection] and turns it on its side: the stripped cells of the
    first column (the headings of the rows) become the field labels, every
    further column becomes one row of the record (the first the element
    names, the second the values), and the rows headed ["* Required"] are
    left out. *)
Theorem clean_collection_fields (wb : workbook) (sh : sheet) :
  Config.assoc "collection" wb = Some sh ->
  "ARCHIVES AFRICA: COLLECTION DATA"%string ∈ header sh ->
  body sh <> [] ->
  (exists row s, row ∈ body sh /\ nth 0 row NaN = Str s) ->
  (exists row, row ∈ body sh /\ label_of row = required_marker) ->
  clean_collection wb =
  Ok (Frame (map Str (tail (header sh)))
            (map label_of (field_rows sh))
            (map (fun j => Pandas.column j (field_rows sh))
                 (seq 1 (length (header sh) - 1)))).
Proof.
  intros Hwb Htitle Hbody (row & s & Hrow & Hs) (mrow & Hmrow & Hmarker).
  unfold clean_collection, Pandas.read_excel. rewrite Hwb.
  cbn [mbind res_bind]. unfold clean_collection_frame.
  destruct sh as [hd bd]. simpl in Htitle, Hbody, Hrow, Hmrow.
  destruct hd as [|h hs]; [by apply elem_of_nil in Htitle|].
  (* line 215 *)
  rewrite drop_columns_one
    by (unfold title_column; by apply (list_elem_of_fmap_2 Str)).
  cbn [mbind res_bind].
  rewrite drop_rows_one
    by (apply zero_in_range; destruct bd; [done | simpl; lia]).
  cbn [mbind res_bind].
  (* the transposed frame and its first row *)
  unfold Pandas.transpose, Pandas.of_sheet, Pandas.iloc0.
  cbn [header body data columns index].
  rewrite length_map. cbn [length seq map mbind res_bind].
  rewrite (str_strip_text _ s).
  2:{ rewrite <- Hs. unfold Pandas.column.
      by apply (list_elem_of_fmap_2 (fun r => nth 0 r NaN)). }
  cbn [mbind res_bind].
  unfold Pandas.set_columns, Pandas.from1. cbn [data columns index tail].
  rewrite !length_map. unfold Pandas.range. rewrite length_map, length_seq.
  unfold Pandas.column at 1. rewrite length_map.
  rewrite Nat.eqb_refl. cbn [mbind res_bind].
  rewrite drop_columns_one.
  2:{ cbn [columns]. unfold Pandas.column. rewrite <- Hmarker. unfold label_of.
      rewrite map_map.
      by apply (list_elem_of_fmap_2 (fun r => Pandas.strip_cell (nth 0 r NaN))). }
  cbn [columns index data]. rewrite mask_marker.
  unfold field_rows. cbn [body length].
  replace (S (length hs) - 1)%nat with (length hs) by lia. f_equal. f_equal.
  - unfold Pandas.column. rewrite map_map.
    apply (select_map is_field label_of bd).
  - rewrite <- seq_shift, !map_map. apply map_ext. intros j.
    unfold Pandas.column. apply (select_map is_field).
Qed.

Lemma clean_collection_fields_witness :
  clean_collection [("collection"%string, Ex.one_field)] =
  Ok (Frame [Str "Unnamed: 1"; Str "Unnamed: 2"] [Str "Title *"]
            [[Str "title"]; [Str "Kano chronicle"]]).
Proof.
  rewrite (clean_collection_fields [("collection"%string, Ex.one_field)] Ex.one_field).
  - reflexivity.
  - reflexivity.
  - apply list_elem_of_here.
  - discriminate.
  - exists [Str "Title *"; Str "title"; Str "Kano chronicle"], "Title *"%string.
    split; [apply list_elem_of_here | reflexivity].
  - exists [Str "* Required"; NaN; NaN].
    split; [apply list_elem_of_further, list_elem_of_here | reflexivity].
Defined.

(** In this sheet the row 0 of the title column holds ["Title *"]: it is
    not discarded but supplies the only field, and the record has two rows
    under that label, the element name and the value, not a single row of
    values.  Discarding the column and the row first leaves no marker to
    strip and raises. *)
Lemma clean_collection_keeps_row0 :
  clean_collection [("collection"%string, Ex.one_field)] =
    Ok (Frame [Str "Unnamed: 1"; Str "Unnamed: 2"] [Str "Title *"]
              [[Str "title"]; [Str "Kano chronicle"]]) /\
  clean_collection_as_specified [("collection"%string, Ex.one_field)] =
    Raise KeyError.
Proof. split; reflexivity. Qed.

(** C5.  Line 215 drops the title column and the row 0, but the frame it
    computes is not bound to a name, while line 222 drops in place: the
    discard the extractor attempts is lost.  On [headed_sheet] the
    extractor as the claim states it, with the column and the row
    discarded first, gives the record of the one field [Title *] with its
    single row of values; the program keeps both, takes the labels from
    the leading column, the row 0 among them, and gives a record labelled
    [Section] and [Identity] whose rows are the columns that were to be
    the labels and the values. *)
Theorem clean_collection_discards_nothing :
  clean_collection_as_specified [("collection"%string, Ex.headed_sheet)] =
    Ok (Frame [Str "Unnamed: 2"] [Str "Title *"] [[Str "Kano chronicle"]]) /\
  clean_collection [("collection"%string, Ex.headed_sheet)] =
    Ok (Frame [Str "Unnamed: 1"; Str "Unnamed: 2"] [Str "Section"; Str "Identity"]
              [[Str "Field"; Str "Title *"]; [Str "Value"; Str "Kano chronicle"]]) /\
  (d ← Pandas.drop_columns [title_column] (Pandas.of_sheet Ex.headed_sheet);
   Pandas.drop_rows [Int 0] d) =
    Ok (Frame [Int 1; Int 2] [Str "Unnamed: 1"; Str "Unnamed: 2"]
              [[Str "Title *"; Str "Kano chronicle"]; [Str "* Required"; NaN]]).
Proof. repeat split; vm_compute; reflexivity. Qed.

End Extractor.

(** ** The document builder: one field *)

Section Rendering.

Lemma numeral_zfill w s :
  Text.forallb_chars numeral_char s = true ->
  Text.forallb_chars numeral_char (zfill w s) = true.
Proof.
  intros H. unfold zfill. rewrite forallb_chars_app, H, andb_true_r.
  induction (w - String.length s)%nat; simpl; [done|]. done.
Qed.

Lemma numeral_xml_char c : numeral_char c = true -> Etree.xml_char c = true.
Proof.
  destruct c as [[] [] [] [] [] [] [] []]; vm_compute; intros; congruence.
Qed.

Lemma isoformat_compatible d : Etree.xml_compatible (isoformat d) = true.
Proof.
  unfold Etree.xml_compatible. apply (forallb_chars_impl numeral_char).
  { apply numeral_xml_char. }
  unfold isoformat. rewrite !forallb_chars_app.
  rewrite !numeral_zfill by apply numeral_str_of_int. done.
Qed.

Lemma occurs_end_mark_angle l :
  Text.occurs "]]>" l = true -> Text.contains ">" l = true.
Proof.
  induction l as [|c l IH]; [done|]. cbn [Text.occurs].
  intros [Hp|Hl]%orb_true_iff.
  - assert (Hpre : String.prefix "]]>" (String c l) = true) by exact Hp.
    apply prefix_correct in Hpre. cbn [String.length] in Hpre.
    destruct l as [|c1 [|c2 l]]; try discriminate Hpre.
    cbn [substring] in Hpre. injection Hpre as -> -> ->. reflexivity.
  - unfold Text.contains in *. cbn [Text.existsb_chars]. rewrite (IH Hl).
    apply orb_true_r.
Qed.

Lemma paragraphs_spec paras el :
  Forall (fun l => is_true (line_ok l))
         (filter (fun l => l <> ""%string) (map Text.strip paras)) ->
  paragraphs paras el =
  Ok (Node (Etree.tag el) (Etree.txt el)
           (Etree.children el
            ++ map paragraph_of (filter (fun l => l <> ""%string) (map Text.strip paras)))).
Proof.
  revert el. induction paras as [|para paras IH]; intros el Hok.
  - destruct el. simpl. by rewrite app_nil_r.
  - cbn [paragraphs map]. cbn [map] in Hok. rewrite filter_cons in Hok |- *.
    destruct (decide (Text.strip para <> ""%string)) as [Hne|Heq].
    + apply Forall_cons in Hok as [Hc Hok].
      assert (Hb : String.eqb (Text.strip para) "" = false) by (by apply String.eqb_neq).
      rewrite Hb. cbn [negb].
      change (Etree.Element "p") with (Ok (Node "p" NoText [])).
      cbn [mbind res_bind]. fold (has_angle (Text.strip para)).
      unfold Etree.cdata, Etree.plain.
      unfold line_ok in Hc. apply andb_prop in Hc as [Hx Ho]. rewrite Hx, Ho.
      cbn [andb].
      destruct (has_angle (Text.strip para)) eqn:Ha; cbn [mbind res_bind];
        rewrite IH by done; destruct el; cbn [Etree.append Etree.tag Etree.txt
          Etree.children Etree.with_text map]; unfold paragraph_of; rewrite Ha;
        by rewrite <- app_assoc.
    + assert (Hb : String.eqb (Text.strip para) "" = true).
      { apply String.eqb_eq. by destruct (decide (Text.strip para = ""%string)). }
      rewrite Hb. cbn [negb]. by apply IH.
Qed.

Lemma fill_spec name v :
  renderable v -> fill (Node name NoText []) v = Ok (element_of name v).
Proof.
  destruct v as [|s|d|n|b]; simpl; try done.
  - intros H. unfold lines_of in *. by rewrite paragraphs_spec.
  - intros _. unfold Etree.plain. by rewrite isoformat_compatible.
Qed.

Lemma fill_other el v : is_true (other v) -> fill el v = Raise TypeError.
Proof. by destruct v. Qed.

(** A line that holds the mark ending a CDATA region holds [>], goes to
    [etree.CDATA] and is refused there: the builder raises. *)
Lemma end_mark_refused :
  line_ok "a]]>b" = false /\
  (el ← Etree.Element "note"; fill el (Str "a]]>b")) = Raise ValueError.
Proof. split; reflexivity. Qed.

(** C8, as the program has it.  For a field whose element name is valid
    and whose value the library accepts (for a text: lines of compatible
    characters without the mark that ends a CDATA region): every text
    value, of one line or of several, is split at the line breaks, each
    line is stripped of surrounding white space, and each line that is then
    not empty becomes one [p] child holding the stripped line unchanged, as
    a CDATA region when the line holds [<] or [>] and as plain text
    otherwise; a date value becomes the text of the element, as the ISO
    date of its year, month and day, whatever its time. *)
Theorem fill_rendering (name : string) (v : cell) :
  is_true (Etree.valid_tag name) ->
  renderable v ->
  (el ← Etree.Element name; fill el v) = Ok (element_of name v) /\
  (forall s, v = Str s ->
     Etree.txt (element_of name v) = NoText /\
     Etree.children (element_of name v) = map paragraph_of (lines_of s) /\
     forall l, l ∈ lines_of s ->
       Etree.txt (paragraph_of l) = (if has_angle l then CDATA l else Plain l)) /\
  (forall d, v = Datetime d ->
     element_of name v = Node name (Plain (isoformat d)) [] /\
     forall d', year d' = year d -> month d' = month d -> day d' = day d ->
                isoformat d' = isoformat d).
Proof.
  intros Htag Hren. split; [|split].
  - unfold Etree.Element. rewrite Htag. cbn [mbind res_bind]. by apply fill_spec.
  - intros s ->. by repeat split.
  - intros d ->. split; [done|].
    intros d' Hy Hm Hd. unfold isoformat. by rewrite Hy, Hm, Hd.
Qed.

Lemma fill_rendering_witness :
  (el ← Etree.Element "note"; fill el (Str Ex.three_lines)) =
    Ok (Node "note" NoText [Node "p" (CDATA "a <b>") []; Node "p" (Plain "c") []]) /\
  (el ← Etree.Element "date"; fill el (Datetime (Timestamp 987 3 12 10 30 0))) =
    Ok (Node "date" (Plain "0987-03-12") []).
Proof.
  split.
  - destruct (fill_rendering "note" (Str Ex.three_lines)) as [H _].
    + reflexivity.
    + repeat constructor.
    + rewrite H. reflexivity.
  - destruct (fill_rendering "date" (Datetime (Timestamp 987 3 12 10 30 0))) as [H _].
    + reflexivity.
    + exact I.
    + rewrite H. reflexivity.
Defined.

(** C8, as stated, fails.  A text of one line is not rendered as plain
    text of its element but as a [p] child; and of the three non-empty
    lines of [three_lines] the one of white space yields no paragraph. *)
Lemma fill_not_as_specified :
  (el ← Etree.Element "title"; fill el (Str "Kano chronicle")) =
    Ok (Node "title" NoText [Node "p" (Plain "Kano chronicle") []]) /\
  render_as_specified "title" (Str "Kano chronicle") =
    Node "title" (Plain "Kano chronicle") [] /\
  (el ← Etree.Element "note"; fill el (Str Ex.three_lines)) =
    Ok (Node "note" NoText [Node "p" (CDATA "a <b>") []; Node "p" (Plain "c") []]) /\
  render_as_specified "note" (Str Ex.three_lines) =
    Node "note" NoText [Node "p" (CDATA " a <b>") []; Node "p" (Plain "  ") [];
                        Node "p" (Plain "c ") []].
Proof. repeat split; reflexivity. Qed.

End Rendering.

(** ** The document builder: the primary document *)

Section Primary.

Lemma present_cons c n v cs ns vs :
  present (c :: cs) (n :: ns) (v :: vs) =
  if Pandas.isna v then present cs ns vs else (c, n, v) :: present cs ns vs.
Proof.
  unfold present. simpl. rewrite filter_cons. simpl.
  destruct (Pandas.isna v); [by rewrite decide_False | by rewrite decide_True].
Qed.

Lemma collection_to_xml_loop_spec idx labels names values rest :
  NoDup labels ->
  forall cs ns vs pre pren prev xml,
    labels = pre ++ cs -> names = pren ++ ns -> values = prev ++ vs ->
    length pre = length pren -> length pre = length prev ->
    length cs = length ns -> length cs = length vs ->
    Forall buildable (present cs ns vs) ->
    collection_to_xml_loop (Frame idx labels (names :: values :: rest)) cs xml =
    Ok (Node (Etree.tag xml) (Etree.txt xml)
             (Etree.children xml
              ++ map (fun f => element_of (name_of f) f.2) (present cs ns vs))).
Proof.
  intros Hnd cs. induction cs as [|c cs IH];
    intros ns vs pre pren prev xml Hl Hn Hv Hlen1 Hlen2 Hlen3 Hlen4 Hb.
  - destruct xml. simpl. unfold present. simpl. by rewrite app_nil_r.
  - destruct ns as [|n ns]; [done|]. destruct vs as [|v vs]; [done|].
    simpl in Hlen3, Hlen4.
    assert (Hj : labels !! length pre = Some c).
    { rewrite Hl. by rewrite list_lookup_middle. }
    assert (Hnj : names !! length pre = Some n).
    { rewrite Hn. by rewrite list_lookup_middle. }
    assert (Hvj : values !! length pre = Some v).
    { rewrite Hv. by rewrite list_lookup_middle. }
    cbn [collection_to_xml_loop].
    rewrite (getitem_value _ _ _ _ _ _ _ _ Hnd Hj Hvj). cbn [mbind res_bind].
    rewrite present_cons in Hb |- *.
    assert (Hrest : forall xml', Forall buildable (present cs ns vs) ->
              collection_to_xml_loop (Frame idx labels (names :: values :: rest)) cs xml'
              = Ok (Node (Etree.tag xml') (Etree.txt xml')
                      (Etree.children xml'
                       ++ map (fun f => element_of (name_of f) f.2) (present cs ns vs)))).
    { intros xml' Hb'. apply (IH ns vs (pre ++ [c]) (pren ++ [n]) (prev ++ [v]));
        rewrite ?length_app; simpl; try lia; try done; by rewrite <- app_assoc. }
    destruct (Pandas.isna v) eqn:Hna; cbn [negb].
    + by apply Hrest.
    + apply Forall_cons in Hb as [(Hstr & Htag & Hren) Hb].
      rewrite (getitem_name _ _ _ _ _ _ _ Hnd Hj Hnj). cbn [mbind res_bind].
      destruct n as [|s| | |]; try done. cbn [sanitize mbind res_bind].
      unfold name_of in Htag. simpl in Htag, Hren.
      unfold Etree.Element. rewrite Htag. cbn [mbind res_bind].
      rewrite fill_spec by done. cbn [mbind res_bind].
      rewrite Hrest by done. destruct xml. cbn [Etree.append Etree.tag Etree.txt
        Etree.children map]. by rewrite <- app_assoc.
Qed.

(** C7, as the program has it.  When every present field of a Normalized
    Record can be built (a text as element name that is a valid name once
    sanitized, and a value that is a date or a text whose lines have
    compatible characters and no mark ending a CDATA region), the primary
    document is the element [collection]
    with exactly one child per present field, in the order of the record,
    and none for an absent field; the names of the children are the
    sanitized element names of the present fields, which the record holds
    in the row under the labels. *)
Theorem collection_to_xml_elements (r : DataFrame) (names values : list cell) :
  normalized r names values ->
  Forall buildable (present (columns r) names values) ->
  exists els : list element,
    collection_to_xml r = Ok (Node "collection" NoText els) /\
    els = map (fun f => element_of (name_of f) f.2) (present (columns r) names values) /\
    length els = length (present (columns r) names values) /\
    map Etree.tag els = map name_of (present (columns r) names values).
Proof.
  intros [idx labels names' values' rest Hstr Hnd Hn Hv] Hb. simpl in *.
  eexists. split; [|split; [reflexivity|split]].
  - unfold collection_to_xml.
    change (Etree.Element "collection") with (Ok (Node "collection" NoText [])).
    cbn [mbind res_bind columns].
    by rewrite (collection_to_xml_loop_spec idx labels names' values' rest Hnd
                  labels names' values' [] [] []).
  - by rewrite length_map.
  - rewrite map_map. apply map_ext. intros [[c n] v]. by destruct v.
Qed.

Lemma collection_to_xml_elements_witness :
  collection_to_xml Ex.catalogue_record =
  Ok (Node "collection" NoText
        [Node "title" NoText [Node "p" (Plain "Kano chronicle") []];
         Node "datecreated" (Plain "1987-03-12") [];
         Node "scopecontent" NoText
           [Node "p" (CDATA "a <b>") []; Node "p" (Plain "c") []]]).
Proof.
  destruct (collection_to_xml_elements Ex.catalogue_record
              [Str "title"; Str "date-created"; Str "notes"; Str "scope & content"]
              [Str "Kano chronicle"; Datetime (Timestamp 1987 3 12 9 30 0); NaN;
               Str Ex.three_lines]) as (els & Hdoc & Hels & _).
  - constructor; [by repeat constructor | | reflexivity | reflexivity].
    apply (bool_decide_unpack _). vm_compute. exact I.
  - repeat constructor.
  - rewrite Hdoc, Hels. reflexivity.
Defined.

(** C7, as stated, fails.  This record has no absent required field; its
    one element is named [title] after the name cell, whereas the
    sanitized label of the field is [Title]. *)
Lemma element_names_not_sanitized_labels :
  get_missing_fields Ex.title_record = Ok [] /\
  exists els,
    collection_to_xml Ex.title_record = Ok (Node "collection" NoText els) /\
    map Etree.tag els = ["title"%string] /\
    map sanitized_label
        (present (columns Ex.title_record) [Str "title"] [Str "Kano chronicle"])
      = ["Title"%string] /\
    ~ Permutation (map Etree.tag els)
        (map sanitized_label
           (present (columns Ex.title_record) [Str "title"] [Str "Kano chronicle"])).
Proof.
  split; [reflexivity|]. eexists. split; [reflexivity|].
  split; [reflexivity|]. split; [reflexivity|].
  intros HP. apply Permutation_singleton_l in HP. discriminate HP.
Qed.

End Primary.

(** ** The document builder: the documents of terms *)

Section Auxiliary.

Lemma terms_row_loop_spec terms labels row :
  Pandas.iloc0 terms = Ok labels ->
  forall pos p,
    row_ok labels pos row ->
    terms_row_loop terms row pos p =
    Ok (Node (Etree.tag p) (Etree.txt p)
             (Etree.children p ++ group_children labels pos row)).
Proof.
  intros Hlabels. induction row as [|term row IH]; intros pos p Hok.
  - destruct p. simpl. by rewrite app_nil_r.
  - cbn [terms_row_loop group_children].
    assert (Hrest : row_ok labels (S pos) row).
    { intros i t Hi. replace (S pos + i)%nat with (pos + S i)%nat by lia.
      by apply Hok. }
    destruct (Hok 0%nat term eq_refl) as [Hna|(t & l & -> & Ht & Hl & Htag)].
    + rewrite Hna. cbn [negb]. rewrite IH by done. done.
    + rewrite Nat.add_0_r in Hl. cbn [Pandas.isna negb].
      unfold label_at. rewrite Hlabels. cbn [mbind res_bind].
      assert (Hnth : nth_error labels pos = Some (Str l)).
      { by rewrite nth_error_lookup. }
      rewrite Hnth. cbn [mbind res_bind term_name].
      unfold Etree.Element. rewrite Htag. cbn [mbind res_bind Etree.set_text].
      unfold Etree.plain. rewrite Ht. cbn [mbind res_bind].
      rewrite IH by done. destruct p.
      cbn [Etree.append Etree.with_text Etree.tag Etree.txt Etree.children].
      rewrite (nth_lookup_Some _ _ NaN _ Hl). cbn [text_of].
      by rewrite <- app_assoc.
Qed.

Lemma terms_loop_spec terms labels :
  Pandas.iloc0 terms = Ok labels ->
  forall rows k xml,
    (1 <= k)%nat ->
    Forall (row_ok labels 0) rows ->
    terms_loop terms (zip (map (fun i => Int (Z.of_nat i)) (seq k (length rows))) rows) xml =
    Ok (Node (Etree.tag xml) (Etree.txt xml)
             (Etree.children xml ++ map (group_of labels) rows)).
Proof.
  intros Hlabels rows. induction rows as [|row rows IH]; intros k xml Hk Hok.
  - destruct xml. simpl. by rewrite app_nil_r.
  - apply Forall_cons in Hok as [Hrow Hok].
    cbn [length seq map zip zip_with terms_loop positive_label].
    assert (Hpos : (0 <? Z.of_nat k) = true) by (apply Z.ltb_lt; lia).
    rewrite Hpos. cbn [mbind res_bind].
    change (Etree.Element "p") with (Ok (Node "p" NoText [])).
    cbn [mbind res_bind].
    rewrite (terms_row_loop_spec terms labels row Hlabels) by done.
    cbn [mbind res_bind]. rewrite IH by (done || lia).
    destruct xml. cbn [Etree.append Etree.tag Etree.txt Etree.children map].
    unfold group_of at 2. by rewrite <- app_assoc.
Qed.

(** C9, as the program has it.  For a sheet of terms whose cells can be
    built, the document has the root named by [normalize_root] from the
    first column heading (the text before the first colon, stripped, in
    lower case, spaces replaced by underscores) and one [p] group per row
    after the row of labels, in order; a group holds one child per cell
    of its row that is not absent, named by [normalize_label] from the
    label of its column (the text before the first colon in lower case,
    every [>] removed, stripped, spaces replaced by underscores, then every
    non-word character removed) and holding the text of the cell. *)
Theorem terms_to_xml_groups (h : string) (hs : list string)
    (labels : list cell) (rows : list (list cell)) :
  is_true (Etree.valid_tag (normalize_root h)) ->
  Forall (row_ok labels 0) rows ->
  let terms := Pandas.of_sheet (Sheet (h :: hs) (labels :: rows)) in
  el_name_of terms = Ok (normalize_root h) /\
  terms_to_xml terms (normalize_root h) =
    Ok (Node (normalize_root h) NoText (map (group_of labels) rows)) /\
  forall row, Etree.children (group_of labels row) = group_children labels 0 row.
Proof.
  intros Htag Hok terms. split; [done|]. split; [|done].
  unfold terms_to_xml, Etree.Element. rewrite Htag. cbn [mbind res_bind].
  unfold iterrows, terms, Pandas.of_sheet, Pandas.range.
  cbn [index data body header length seq map zip zip_with terms_loop
       positive_label Z.of_nat Z.ltb Z.compare mbind res_bind].
  by rewrite (terms_loop_spec _ labels).
Qed.

Lemma terms_to_xml_groups_witness :
  terms_to_xml (Pandas.of_sheet Ex.terms_sheet) "subject_terms" =
  Ok (Node "subject_terms" NoText
        [Node "p" NoText [Node "term" (Plain "trade") []];
         Node "p" NoText [Node "broader__term" (Plain "economy") []];
         Node "p" NoText []]).
Proof.
  destruct (terms_to_xml_groups "Subject Terms : list" ["Unnamed: 1"%string]
              [Str "Term: preferred"; Str "Broader > term"]
              [[Str "trade"; NaN]; [NaN; Str "economy"]; [NaN; NaN]])
    as (_ & H & _).
  - reflexivity.
  - repeat (apply Forall_cons; split); [| | |by constructor];
      intros [|[|i]] term Hi; try discriminate Hi;
      injection Hi as <-; try (by left).
    + right. by exists "trade"%string, "Term: preferred"%string.
    + right. by exists "economy"%string, "Broader > term"%string.
  - exact H.
Defined.

(** C9, as stated, fails on the names.  The heading [Subject Terms : list]
    gives the root [subject_terms], not [subject_terms_]; the label
    [Broader > term], whose bracket is not at its end, gives the child
    name [broader__term], not [broader_>_term]. *)
Lemma term_names_not_as_specified :
  (el_name ← el_name_of (Pandas.of_sheet Ex.terms_sheet);
   terms_to_xml (Pandas.of_sheet Ex.terms_sheet) el_name) =
    Ok (Node "subject_terms" NoText
          [Node "p" NoText [Node "term" (Plain "trade") []];
           Node "p" NoText [Node "broader__term" (Plain "economy") []];
           Node "p" NoText []]) /\
  root_as_specified "Subject Terms : list" = "subject_terms_"%string /\
  label_as_specified "Broader > term" = "broader_>_term"%string.
Proof. repeat split; reflexivity. Qed.

End Auxiliary.

(** ** The sequence store *)

Section Sequence.

Lemma config_get_run w s k :
  config_get s k w =
  match Config.get (config w) s k with
  | Ok v => (Return v, w)
  | Raise e => (Throw e, w)
  end.
Proof. unfold config_get, bind, gets, lift. by destruct (Config.get (config w) s k). Qed.

Lemma save_attachment_run address data w :
  save_attachment address data w =
  match Config.get (config w) "DEFAULT" "sandbox" with
  | Raise e => (Throw e, w)
  | Ok sandbox =>
      match Config.get (config w) address "code" with
      | Raise e => (Throw e, w)
      | Ok code =>
          match next_of (config w) address with
          | Raise e => (Throw e, w)
          | Ok seq =>
              (Return (seq, Text.join sandbox (attachment_name code seq)),
               set_sandbox (<[attachment_name code seq := data]> (sandbox_dir w)) w)
          end
      end
  end.
Proof.
  unfold save_attachment. unfold bind at 1. rewrite config_get_run.
  destruct (Config.get (config w) "DEFAULT" "sandbox") as [sandbox|e]; [|done].
  unfold bind at 1. rewrite config_get_run.
  destruct (Config.get (config w) address "code") as [code|e]; [|done].
  unfold bind, gets, next_of, lift, ret, throw, modify.
  destruct (Config.has_option (config w) address "sequence"); [|done].
  by destruct (Config.getint (config w) address "sequence").
Qed.

Lemma update_sequence_run address seq w cfg' :
  Config.set (config w) address "sequence" (Text.str_of_int seq) = Ok cfg' ->
  update_sequence address seq w =
  (Return tt, set_config_ini (Config.write cfg') (set_config cfg' w)).
Proof.
  intros H. unfold update_sequence, bind, gets, lift, modify, ret. by rewrite H.
Qed.

Lemma get_has_option cfg s k v o :
  Config.assoc s (Config.sections cfg) = Some o ->
  s <> ""%string -> s <> Config.default_section ->
  Config.get cfg s k = Ok v -> Config.has_option cfg s k = true.
Proof.
  intros Ho H1 H2. unfold Config.get, Config.has_option, Config.mem.
  apply String.eqb_neq in H1 as ->. apply String.eqb_neq in H2 as ->.
  rewrite Ho. simpl. destruct (Config.assoc k o); [done|].
  by destruct (Config.assoc k (Config.defaults cfg)).
Qed.

(** The effect of the sequence operation for a sender of the registry. *)
Lemma next_sequence_run w address data sandbox code seq :
  wf_config (config w) ->
  is_email_address_known (config w) address = true ->
  Config.get (config w) "DEFAULT" "sandbox" = Ok sandbox ->
  Config.get (config w) address "code" = Ok code ->
  next_of (config w) address = Ok seq ->
  exists w',
    next_sequence address data w = (Return seq, w') /\
    Config.getint (config w') address "sequence" = Ok seq /\
    stored w' address seq /\
    sandbox_dir w' !! attachment_name code seq = Some data.
Proof.
  intros Hwf Hknown Hsandbox Hcode Hnext.
  destruct (known_section _ _ Hwf Hknown) as (Hne & Hnd & o & Ho).
  destruct (Config.set (config w) address "sequence" (Text.str_of_int seq))
    as [cfg'|e] eqn:Hset.
  2:{ by rewrite (set_section _ _ _ _ o) in Hset. }
  destruct (get_set_eq _ _ _ _ _ Hne Hnd Ho _ Hset) as [Hget _].
  assert (Hint : Config.getint cfg' address "sequence" = Ok seq).
  { unfold Config.getint. rewrite Hget. cbn [mbind res_bind].
    apply int_of_str_of_int. }
  eexists. split; [|split; [|split]].
  - unfold next_sequence. unfold bind at 1.
    rewrite save_attachment_run, Hsandbox, Hcode, Hnext.
    unfold bind. cbn [fst].
    rewrite (update_sequence_run _ _ _ cfg') by done. reflexivity.
  - done.
  - exists cfg'. split; [|done]. simpl. apply read_write. by eapply wf_set.
  - simpl. by rewrite lookup_insert_eq.
Qed.

(** C3, as the program has it.  For a sender of the registry whose stored
    counter is [N] the sequence operation returns [N + 1], for one without
    a counter it returns 1; when it returns, config.ini has been written
    anew and holds the returned number for the sender. *)
Theorem next_sequence_stored (w : world) (address : string) (data : file)
    (sandbox code : string) :
  wf_config (config w) ->
  is_email_address_known (config w) address = true ->
  Config.get (config w) "DEFAULT" "sandbox" = Ok sandbox ->
  Config.get (config w) address "code" = Ok code ->
  (forall N, Config.get (config w) address "sequence" = Ok (Text.str_of_int N) ->
     exists w', next_sequence address data w = (Return (N + 1), w') /\
                stored w' address (N + 1)) /\
  (Config.has_option (config w) address "sequence" = false ->
     exists w', next_sequence address data w = (Return 1, w') /\
                stored w' address 1).
Proof.
  intros Hwf Hknown Hsandbox Hcode.
  destruct (known_section _ _ Hwf Hknown) as (Hne & Hnd & o & Ho).
  split.
  - intros N HN.
    assert (Hnext : next_of (config w) address = Ok (N + 1)).
    { unfold next_of. rewrite (get_has_option _ _ _ _ o Ho Hne Hnd HN).
      unfold Config.getint. rewrite HN. cbn [mbind res_bind].
      by rewrite int_of_str_of_int. }
    destruct (next_sequence_run w address data sandbox code (N + 1))
      as (w' & Hrun & _ & Hst & _); try done.
    by exists w'.
  - intros Hno.
    assert (Hnext : next_of (config w) address = Ok 1).
    { unfold next_of. by rewrite Hno. }
    destruct (next_sequence_run w address data sandbox code 1)
      as (w' & Hrun & _ & Hst & _); try done.
    by exists w'.
Qed.

Lemma next_sequence_stored_witness :
  exists w', next_sequence "a@x.org" (Bytes "xlsx") Ex.office = (Return 6, w') /\
             stored w' "a@x.org" 6.
Proof.
  destruct (next_sequence_stored Ex.office "a@x.org" (Bytes "xlsx") "in" "AX")
    as [H _].
  - constructor; simpl.
    + apply (bool_decide_unpack _). vm_compute. exact I.
    + apply (bool_decide_unpack _). vm_compute. exact I.
    + apply (bool_decide_unpack _). vm_compute. exact I.
    + apply (bool_decide_unpack _). vm_compute. exact I.
    + repeat constructor; simpl; apply (bool_decide_unpack _); vm_compute; exact I.
  - reflexivity.
  - reflexivity.
  - reflexivity.
  - apply (H 5). reflexivity.
Defined.

(** C3, as stated, fails on the crash.  config.ini holds the counter 5 of
    the sender; the sequence operation returns 6 and the run stops inside
    [update_sequence] when 19 lines of the new text are written.  The file
    then still names the sender and the code but no counter, and the next
    run hands out the number 1. *)
Lemma interrupted_update_resets :
  let stopped := interrupted_sequence "a@x.org" (Bytes "xlsx") 19 Ex.office in
  stored Ex.office "a@x.org" 5 /\
  stopped.1 = Return 6 /\
  exists cfg,
    Config.read (config_ini stopped.2) = Ok cfg /\
    is_email_address_known cfg "a@x.org" = true /\
    Config.has_option cfg "a@x.org" "sequence" = false /\
    (next_sequence "a@x.org" (Bytes "xlsx") (set_config cfg stopped.2)).1 = Return 1.
Proof.
  split; [eexists; split; reflexivity|]. split; [reflexivity|].
  eexists. split; [reflexivity|]. repeat split; reflexivity.
Qed.

End Sequence.

(** ** The attachment intake *)

Section Intake.

Lemma issued_of_app l1 l2 : issued_of (l1 ++ l2) = issued_of l1 ++ issued_of l2.
Proof. unfold issued_of. apply omap_app. Qed.









End Intake.

(** ** The pipeline: what each step leaves untouched *)

Section Frames.

Lemma ext_refl w : ext w w.
Proof. repeat split. exists []. by rewrite app_nil_r. Qed.

Lemma ext_trans w1 w2 w3 : ext w1 w2 -> ext w2 w3 -> ext w1 w3.
Proof.
  intros (H1 & H2 & H3 & l & Hl & Hq) (H1' & H2' & H3' & l' & Hl' & Hq').
  repeat split; try congruence. exists (l ++ l').
  split; [by rewrite Hl', Hl, <- app_assoc | by apply Forall_app].
Qed.

Lemma passive_refl w : passive w w.
Proof. split; [apply ext_refl | done]. Qed.

Lemma passive_trans w1 w2 w3 : passive w1 w2 -> passive w2 w3 -> passive w1 w3.
Proof.
  intros (He & H1 & H2 & H3) (He' & H1' & H2' & H3').
  split; [by eapply ext_trans | repeat split; congruence].
Qed.


Section Keeps.

Context (R : world -> world -> Prop).
Hypothesis R_refl : forall w, R w w.
Hypothesis R_trans : forall w1 w2 w3, R w1 w2 -> R w2 w3 -> R w1 w3.

Lemma keeps_ret {A} (a : A) : keeps R (ret a).
Proof. intros w. apply R_refl. Qed.

Lemma keeps_throw {A} e : keeps R (@throw A e).
Proof. intros w. apply R_refl. Qed.

Lemma keeps_lift {A} (r : res A) : keeps R (lift r).
Proof. destruct r; [apply keeps_ret | apply keeps_throw]. Qed.

Lemma keeps_gets {A} (f : world -> A) : keeps R (gets f).
Proof. intros w. apply R_refl. Qed.

Lemma keeps_bind {A B} (m : M A) (k : A -> M B) :
  keeps R m -> (forall a, keeps R (k a)) -> keeps R (bind m k).
Proof.
  intros Hm Hk w. unfold bind. specialize (Hm w).
  destruct (m w) as [[a|e] w1]; simpl in *; [|done].
  eapply R_trans; [exact Hm | apply Hk].
Qed.


End Keeps.

Lemma passive_logger l e : quiet e -> keeps passive (logger l e).
Proof.
  intros Hq w. repeat split. exists [(l, e)]. split; [done|].
  by apply Forall_singleton.
Qed.

Lemma passive_config_get s k : keeps passive (config_get s k).
Proof.
  apply keeps_bind; [apply passive_trans | apply keeps_gets, passive_refl |].
  intros cfg. apply keeps_lift, passive_refl.
Qed.

Lemma passive_output (f : world -> gmap string element) :
  keeps passive (modify (fun w => set_output (f w) w)).
Proof.
  intros w. repeat split. exists []. split; [simpl; by rewrite app_nil_r | done].
Qed.

Lemma passive_outbox (f : world -> list mail) :
  keeps passive (modify (fun w => set_outbox (f w) w)).
Proof.
  intros w. repeat split. exists []. split; [simpl; by rewrite app_nil_r | done].
Qed.

Lemma passive_save_xml xml name : keeps passive (save_xml xml name).
Proof.
  apply keeps_bind; [apply passive_trans | by apply passive_logger |].
  intros _. apply passive_output.
Qed.

Lemma passive_process_collection collection filename :
  keeps passive (process_collection collection filename).
Proof.
  apply keeps_bind; [apply passive_trans | apply keeps_lift, passive_refl |].
  intros xml. apply passive_save_xml.
Qed.

Lemma passive_open_excel name : keeps passive (open_excel name).
Proof.
  apply keeps_bind; [apply passive_trans | apply keeps_gets, passive_refl |].
  intros [[raw|wb]|]; [apply keeps_throw | apply keeps_ret | apply keeps_throw];
    apply passive_refl.
Qed.

Lemma passive_process_terms_loop sheets name path :
  keeps passive (process_terms_loop sheets name path).
Proof.
  induction sheets as [|[sn sh] sheets IH]; [apply keeps_ret, passive_refl|].
  cbn [process_terms_loop].
  apply keeps_bind; [apply passive_trans | apply keeps_lift, passive_refl |].
  intros el_name.
  apply keeps_bind; [apply passive_trans | apply keeps_lift, passive_refl |].
  intros xml.
  apply keeps_bind; [apply passive_trans | apply passive_save_xml | done].
Qed.

Lemma passive_process_terms name path : keeps passive (process_terms name path).
Proof.
  apply keeps_bind; [apply passive_trans | apply passive_open_excel |].
  intros wb. apply passive_process_terms_loop.
Qed.

Lemma passive_send_email to subject message : keeps passive (send_email to subject message).
Proof.
  repeat (apply keeps_bind; [apply passive_trans | apply passive_config_get | intros ?]).
  destruct (blank _ || blank _ || blank _).
  - by apply passive_logger.
  - apply passive_outbox.
Qed.

Lemma passive_read_template path : keeps passive (read_template path).
Proof.
  apply keeps_bind; [apply passive_trans | apply keeps_gets, passive_refl |].
  intros [t|]; [apply keeps_ret | apply keeps_throw]; apply passive_refl.
Qed.

Lemma passive_language_of email : keeps passive (language_of email).
Proof.
  apply keeps_bind; [apply passive_trans | apply passive_config_get |].
  intros lang. apply keeps_ret, passive_refl.
Qed.

Lemma passive_send_failure_report email missing :
  keeps passive (send_failure_report email missing).
Proof.
  apply keeps_bind; [apply passive_trans | apply passive_language_of | intros ?].
  apply keeps_bind; [apply passive_trans | apply passive_config_get | intros ?].
  apply keeps_bind; [apply passive_trans | apply passive_read_template | intros ?].
  apply passive_send_email.
Qed.

Lemma passive_send_success_report email filepath :
  keeps passive (send_success_report email filepath).
Proof.
  apply keeps_bind; [apply passive_trans | apply passive_language_of | intros ?].
  apply keeps_bind; [apply passive_trans | apply passive_config_get | intros ?].
  apply keeps_bind; [apply passive_trans | apply passive_read_template | intros ?].
  apply keeps_bind; [apply passive_trans | apply passive_send_email | intros ?].
  apply keeps_bind; [apply passive_trans | apply passive_config_get | intros to].
  apply keeps_bind; [apply passive_trans | | intros ?; apply passive_send_email].
  destruct (blank to); [by apply passive_logger | apply keeps_ret, passive_refl].
Qed.

Lemma send_email_returns w to subject message address username password :
  Config.get (config w) "mailbox" "address" = Ok address ->
  Config.get (config w) "mailbox" "username" = Ok username ->
  Config.get (config w) "mailbox" "password" = Ok password ->
  (send_email to subject message w).1 = Return tt.
Proof.
  intros Ha Hu Hp. unfold send_email.
  unfold bind at 1. rewrite config_get_run, Ha. cbv beta iota.
  unfold bind at 1. rewrite config_get_run, Hu. cbv beta iota.
  unfold bind at 1. rewrite config_get_run, Hp. cbv beta iota.
  by destruct (blank _ || blank _ || blank _).
Qed.

Lemma run_bind {A B} (m : M A) (k : A -> M B) w a w1 :
  m w = (Return a, w1) -> bind m k w = k a w1.
Proof. intros H. unfold bind. by rewrite H. Qed.

Lemma run_logger {B} l e (k : unit -> M B) w :
  bind (logger l e) k w = k tt (set_log (log w ++ [(l, e)]) w).
Proof. reflexivity. Qed.

Lemma returns_run {A} (m : M A) w a :
  (m w).1 = Return a -> m w = (Return a, (m w).2).
Proof. destruct (m w) as [o w']. simpl. by intros ->. Qed.

Lemma language_of_run w email lang :
  Config.get (config w) email "language" = Ok lang ->
  language_of email w = (Return (report_language lang), w).
Proof.
  intros H. unfold language_of, bind. by rewrite config_get_run, H.
Qed.

Lemma read_template_run w path :
  is_Some (templates w !! path) ->
  exists message, read_template path w = (Return message, w).
Proof.
  intros [message H]. exists message. unfold read_template, bind, gets. by rewrite H.
Qed.

(** With the reports configured, both report functions return. *)
Lemma send_failure_report_returns w email missing :
  can_report (config w) (templates w) email ->
  (send_failure_report email missing w).1 = Return tt.
Proof.
  intros [lang pf ps a u p to Hl Hf Hft Hs Hst Ha Hu Hp Hto].
  unfold send_failure_report.
  rewrite (run_bind _ _ _ _ _ (language_of_run _ _ _ Hl)).
  unfold bind at 1. rewrite config_get_run, Hf. cbv beta iota.
  destruct (read_template_run w pf Hft) as [message Hm].
  rewrite (run_bind _ _ _ _ _ Hm).
  by eapply send_email_returns.
Qed.

Lemma send_success_report_returns w email filepath :
  can_report (config w) (templates w) email ->
  (send_success_report email filepath w).1 = Return tt.
Proof.
  intros [lang pf ps a u p to Hl Hf Hft Hs Hst Ha Hu Hp Hto].
  unfold send_success_report.
  rewrite (run_bind _ _ _ _ _ (language_of_run _ _ _ Hl)).
  unfold bind at 1. rewrite config_get_run, Hs. cbv beta iota.
  destruct (read_template_run w ps Hst) as [message Hm].
  rewrite (run_bind _ _ _ _ _ Hm).
  pose proof (passive_send_email email "Thank you for your email" (Template message) w)
    as ((Hc1 & _) & _).
  rewrite (run_bind _ _ _ _ _
             (returns_run _ _ _ (send_email_returns w _ _ _ a u p Ha Hu Hp))).
  set (w1 := (send_email email "Thank you for your email" (Template message) w).2) in *.
  unfold bind at 1. rewrite config_get_run, Hc1, Hto. cbv beta iota.
  assert (Hw2 : exists w2, (if blank to then logger ERROR MissingReportAddress else ret tt) w1
                           = (Return tt, w2) /\ config w2 = config w).
  { destruct (blank to); eexists; (split; [reflexivity | simpl; exact Hc1]). }
  destruct Hw2 as (w2 & Hrun & Hc2). rewrite (run_bind _ _ _ _ _ Hrun).
  apply (send_email_returns w2 _ _ _ a u p); by rewrite Hc2.
Qed.

End Frames.

(** ** The pipeline: one file *)

Section OneFile.

Context (attachments : gmap string string) (d : paths).

Lemma move_eq w name f dst :
  sandbox_dir w !! name = Some f ->
  move name dst w = (Return tt, moved name f dst w).
Proof. intros H. unfold move, bind, gets, modify. by rewrite H. Qed.

Lemma moved_routed w name f dst : routed name f dst w (moved name f dst w).
Proof.
  destruct dst; unfold moved; cbn [set_sandbox set_success set_error sandbox_dir
    success_dir error_dir]; repeat split; exists []; cbn [log]; by rewrite app_nil_r.
Qed.

Lemma move_run w name f dst :
  sandbox_dir w !! name = Some f ->
  exists w', move name dst w = (Return tt, w') /\ routed name f dst w w' /\
             output_dir w' = output_dir w /\ outbox w' = outbox w /\ log w' = log w.
Proof.
  intros H. exists (moved name f dst w). split; [by apply move_eq|].
  split; [apply moved_routed|]. by destruct dst.
Qed.

Lemma routed_after w w1 w2 name f dst :
  passive w w1 -> routed name f dst w1 w2 -> routed name f dst w w2.
Proof.
  intros (He & H1 & H2 & H3) (He' & H1' & Hd). split; [by eapply ext_trans|].
  split; [congruence|]. destruct dst; destruct Hd; split; congruence.
Qed.

Lemma routed_then w w1 w2 name f dst :
  routed name f dst w w1 -> passive w1 w2 -> routed name f dst w w2.
Proof.
  intros (He & H1 & Hd) (He' & H1' & H2' & H3'). split; [by eapply ext_trans|].
  split; [congruence|]. destruct dst; destruct Hd; split; congruence.
Qed.

Lemma process_file_other name w :
  is_xlsx name = false -> process_file attachments d name w = (Return tt, w).
Proof. unfold process_file, is_xlsx. by intros ->. Qed.

(** A file without a known sender is logged and left where it is. *)
Lemma process_file_unowned name w :
  is_xlsx name = true ->
  attachments !! Text.join (in_path d) name = None ->
  process_file attachments d name w =
  (Return tt,
   set_log (log w ++ [(INFO, Processing (Text.join (in_path d) name));
                      (WARNING, Skipping (Text.join (in_path d) name))]) w).
Proof.
  unfold process_file, is_xlsx. intros -> Hown.
  unfold bind at 1. unfold try_except, attempt.
  rewrite run_logger. rewrite Hown. rewrite run_logger.
  unfold ret. cbn [set_log log]. by rewrite <- app_assoc.
Qed.

(** An exception that reaches the [except] clause while the file is still
    in the staging area: the file goes to the error area and the loop goes
    on. *)
Lemma process_file_caught name w e w1 f :
  is_xlsx name = true ->
  attempt attachments d name w = (Throw e, w1) ->
  sandbox_dir w1 !! name = Some f ->
  process_file attachments d name w =
  (Return tt, caught (Text.join (in_path d) name) name f e w1).
Proof.
  unfold process_file, is_xlsx. intros -> Hatt Hf.
  unfold bind at 1. unfold try_except. rewrite Hatt.
  rewrite !run_logger.
  rewrite (run_bind _ _ _ tt _ (move_eq (set_log _ (set_log _ w1)) name f Error Hf)).
  reflexivity.
Qed.

Lemma caught_routed filepath name f e w :
  sandbox_dir w !! name = Some f ->
  routed name f Error w (caught filepath name f e w).
Proof.
  intros _. unfold caught, moved. cbn [set_sandbox set_success set_error set_log
    sandbox_dir success_dir error_dir config config_ini templates log].
  repeat split.
  exists [(ERROR, FailedToProcess filepath); (ERROR, ErrorArgs e); (INFO, Processed filepath)].
  split; [by rewrite <- !app_assoc|]. by repeat constructor.
Qed.

(** The three ways the [try] body ends for a file with a known sender whose
    reports can be sent. *)
Lemma attempt_owned name w email f :
  attachments !! Text.join (in_path d) name = Some email ->
  sandbox_dir w !! name = Some f ->
  can_report (config w) (templates w) email ->
  (exists w1, attempt attachments d name w = (Return false, w1) /\
              routed name f Error w w1) \/
  (exists w1, attempt attachments d name w = (Return true, w1) /\
              routed name f Success w w1) \/
  (exists e w1, attempt attachments d name w = (Throw e, w1) /\ passive w w1).
Proof.
  intros Hown Hf Hrep.
  remember (attempt attachments d name w) as r eqn:Hr.
  unfold attempt in Hr. rewrite run_logger, Hown in Hr.
  set (filepath := Text.join (in_path d) name) in *.
  assert (H0 := passive_logger INFO (Processing filepath) I w).
  change (set_log _ w) with (logger INFO (Processing filepath) w).2 in Hr.
  set (w0 := (logger INFO (Processing filepath) w).2) in *.
  assert (Hf0 : sandbox_dir w0 !! name = Some f) by done.
  (* extraction *)
  unfold bind at 1 in Hr. unfold bind at 1 in Hr. unfold open_excel at 1 in Hr.
  unfold bind at 1, gets at 1 in Hr. rewrite Hf0 in Hr.
  destruct f as [raw|wb].
  { right. right. by exists BadZipFile, w0. }
  cbv beta iota in Hr. unfold ret at 1 in Hr.
  destruct (clean_collection wb) as [collection|e].
  2:{ right. right. by exists e, w0. }
  cbv beta iota in Hr. unfold lift at 1, ret at 1 in Hr.
  (* validation *)
  unfold bind at 1 in Hr.
  destruct (get_missing_fields collection) as [missing|e].
  2:{ right. right. by exists e, w0. }
  cbv beta iota in Hr. unfold lift at 1, ret at 1 in Hr.
  destruct missing as [|c missing].
  - (* building *)
    set (collection_filename := Text.join (out_path d) _) in *.
    unfold bind at 1 in Hr.
    assert (H1 := passive_process_collection collection collection_filename w0).
    destruct (process_collection collection collection_filename w0) as [[[]|e] w1].
    2:{ right. right. exists e, w1. split; [done|]. by eapply passive_trans. }
    unfold bind at 1 in Hr.
    assert (H2 := passive_process_terms name (out_path d) w1).
    destruct (process_terms name (out_path d) w1) as [[[]|e] w2].
    2:{ right. right. exists e, w2. split; [done|].
        eapply passive_trans; [exact H0|]. by eapply passive_trans. }
    simpl in H1, H2.
    assert (H02 : passive w w2).
    { eapply passive_trans; [exact H0|]. by eapply passive_trans. }
    (* routing *)
    assert (Hf2 : sandbox_dir w2 !! name = Some (Excel wb)).
    { destruct H02 as (_ & -> & _). done. }
    destruct (move_run w2 name _ Success Hf2) as (w3 & Hmove & Hrt & _).
    rewrite (run_bind _ _ _ _ _ Hmove) in Hr.
    (* the reports *)
    assert (Hrep3 : can_report (config w3) (templates w3) email).
    { destruct Hrt as ((Hc & _ & Ht & _) & _). destruct H02 as ((Hc' & _ & Ht' & _) & _).
      by rewrite Hc, Ht, Hc', Ht'. }
    assert (H3 := passive_send_success_report email collection_filename w3).
    rewrite (run_bind _ _ _ _ _
               (returns_run _ _ _ (send_success_report_returns w3 _ collection_filename Hrep3)))
      in Hr.
    right. left. eexists. split; [exact Hr|].
    eapply routed_then; [|exact H3]. by eapply routed_after.
  - (* the failure report *)
    rewrite run_logger in Hr.
    change (set_log _ w0) with (logger WARNING (MissingFields filepath (c :: missing)) w0).2
      in Hr.
    set (w1 := (logger WARNING (MissingFields filepath (c :: missing)) w0).2) in *.
    assert (H1 : passive w w1).
    { eapply passive_trans; [exact H0|].
      by apply (passive_logger WARNING (MissingFields filepath (c :: missing))). }
    assert (Hf1 : sandbox_dir w1 !! name = Some (Excel wb)) by done.
    destruct (move_run w1 name _ Error Hf1) as (w2 & Hmove & Hrt & _).
    rewrite (run_bind _ _ _ _ _ Hmove) in Hr.
    rewrite run_logger in Hr.
    change (set_log _ w2) with (logger INFO (SendingFailureReport email) w2).2 in Hr.
    set (w3 := (logger INFO (SendingFailureReport email) w2).2) in *.
    assert (H23 : passive w2 w3) by (by apply (passive_logger INFO (SendingFailureReport email))).
    assert (Hrep3 : can_report (config w3) (templates w3) email).
    { destruct Hrt as ((Hc & _ & Ht & _) & _). destruct H1 as ((Hc' & _ & Ht' & _) & _).
      simpl. by rewrite Hc, Ht, Hc', Ht'. }
    assert (H3 := passive_send_failure_report email (c :: missing) w3).
    rewrite (run_bind _ _ _ _ _
               (returns_run _ _ _ (send_failure_report_returns w3 _ (c :: missing) Hrep3)))
      in Hr.
    left. eexists. split; [exact Hr|].
    eapply routed_then; [|exact H3]. eapply routed_then; [|exact H23].
    by eapply routed_after.
Qed.

(** A file with a known sender leaves the staging area, for the success or
    for the error area. *)
Lemma process_file_owned name w email f :
  is_xlsx name = true ->
  attachments !! Text.join (in_path d) name = Some email ->
  sandbox_dir w !! name = Some f ->
  can_report (config w) (templates w) email ->
  exists w' dst, process_file attachments d name w = (Return tt, w') /\
                 routed name f dst w w'.
Proof.
  intros Hx Hown Hf Hrep.
  destruct (attempt_owned name w email f Hown Hf Hrep)
    as [(w1 & Hatt & Hr)|[(w1 & Hatt & Hr)|(e & w1 & Hatt & Hp)]].
  - exists w1, Error. split; [|done].
    unfold process_file. unfold is_xlsx in Hx. rewrite Hx.
    unfold bind, try_except. by rewrite Hatt.
  - eexists _, Success. split.
    + unfold process_file. unfold is_xlsx in Hx. rewrite Hx.
      unfold bind, try_except. rewrite Hatt. reflexivity.
    + eapply routed_then; [exact Hr|].
      by apply (passive_logger INFO (Processed (Text.join (in_path d) name))).
  - assert (Hf1 : sandbox_dir w1 !! name = Some f).
    { destruct Hp as (_ & -> & _). done. }
    eexists _, Error. split; [by eapply process_file_caught|].
    eapply routed_after; [exact Hp|]. by apply caught_routed.
Qed.

End OneFile.

(** ** The pipeline: one pass *)

Section Pass.

Context (attachments : gmap string string) (d : paths).

Lemma routed_same_at name f dst w w' n :
  routed name f dst w w' -> n <> name -> same_at n w w'.
Proof.
  intros (_ & Hs & Hd) Hn. unfold same_at. rewrite Hs, lookup_delete_ne by done.
  destruct dst; destruct Hd as [-> ->]; by rewrite lookup_insert_ne.
Qed.

Lemma routed_settled name f dst w w' email :
  attachments !! Text.join (in_path d) name = Some email ->
  routed name f dst w w' -> settled attachments (in_path d) name f w'.
Proof.
  intros Hown (_ & Hs & Hd). unfold settled. rewrite Hown, Hs, lookup_delete_eq.
  split; [done|]. destruct dst; destruct Hd as [-> _]; rewrite lookup_insert_eq; auto.
Qed.

(** One file of the listing. *)
Lemma process_file_summary name w :
  (forall path email, attachments !! path = Some email ->
     can_report (config w) (templates w) email) ->
  is_Some (sandbox_dir w !! name) ->
  exists w1,
    process_file attachments d name w = (Return tt, w1) /\ ext w w1 /\
    (forall n, n <> name -> same_at n w w1) /\
    (forall f, is_xlsx name = true -> sandbox_dir w !! name = Some f ->
       settled attachments (in_path d) name f w1).
Proof.
  intros Hrep [f Hf].
  destruct (is_xlsx name) eqn:Hx.
  2:{ exists w. split; [by apply process_file_other|]. split; [apply ext_refl|].
      split; [done|]. intros f' Hx'. done. }
  destruct (attachments !! Text.join (in_path d) name) as [email|] eqn:Hown.
  - destruct (process_file_owned attachments d name w email f Hx Hown Hf (Hrep _ _ Hown))
      as (w1 & dst & Hrun & Hr).
    exists w1. split; [done|]. split; [by destruct Hr|].
    split; [intros n Hn; by eapply routed_same_at|].
    intros f' _ Hf'. rewrite Hf in Hf'. injection Hf' as <-.
    by eapply routed_settled.
  - eexists. split; [by apply process_file_unowned|].
    split.
    { repeat split. eexists. split; [reflexivity|]. by repeat constructor. }
    split; [done|].
    intros f' _ Hf'. unfold settled. rewrite Hown. split; [done|].
    cbn [log set_log]. rewrite elem_of_app. right.
    apply list_elem_of_further, list_elem_of_here.
Qed.

Lemma settled_later name f w1 w' :
  same_at name w1 w' -> (exists l, log w' = log w1 ++ l) ->
  settled attachments (in_path d) name f w1 ->
  settled attachments (in_path d) name f w'.
Proof.
  intros (H1 & H2 & H3) [l Hl]. unfold settled.
  destruct (attachments !! Text.join (in_path d) name).
  - rewrite H1, H2, H3. done.
  - rewrite H1, Hl. intros [? ?]. split; [done|]. apply elem_of_app. by left.
Qed.

(** The loop over the listing: every listed file is dealt with once. *)
Lemma process_files_summary files : forall w,
  NoDup files ->
  (forall path email, attachments !! path = Some email ->
     can_report (config w) (templates w) email) ->
  (forall name, name ∈ files -> is_Some (sandbox_dir w !! name)) ->
  exists w',
    process_files attachments d files w = (Return tt, w') /\ ext w w' /\
    (forall n, n ∉ files -> same_at n w w') /\
    (forall name f, name ∈ files -> is_xlsx name = true ->
       sandbox_dir w !! name = Some f ->
       settled attachments (in_path d) name f w').
Proof.
  induction files as [|name files IH]; intros w Hnd Hrep Hin.
  - exists w. split; [done|]. split; [apply ext_refl|]. split; [done|].
    intros name f Hn. by apply elem_of_nil in Hn.
  - apply NoDup_cons in Hnd as [Hname Hnd].
    destruct (process_file_summary name w Hrep) as (w1 & Hrun1 & Hext1 & Hsame1 & Hset1).
    { apply Hin, list_elem_of_here. }
    destruct (IH w1 Hnd) as (w' & Hrun & Hext & Hsame & Hset).
    { destruct Hext1 as (Hc & _ & Ht & _). intros path email Ho.
      rewrite Hc, Ht. by eapply Hrep. }
    { intros n Hn.
      assert (Hne : n <> name) by (intros ->; done).
      destruct (Hsame1 n Hne) as (-> & _). apply Hin. by apply list_elem_of_further. }
    exists w'. split.
    { cbn [process_files]. by rewrite (run_bind _ _ _ _ _ Hrun1). }
    split; [by eapply ext_trans|]. split.
    + intros n [Hne Hn]%not_elem_of_cons.
      destruct (Hsame1 n Hne) as (H1 & H2 & H3). destruct (Hsame n Hn) as (H1' & H2' & H3').
      unfold same_at. by rewrite H1', H2', H3'.
    + intros n f [->|Hn]%elem_of_cons Hx Hf.
      * apply (settled_later name f w1 w'); [by apply Hsame| |by apply Hset1].
        destruct Hext as (_ & _ & _ & l & Hl & _). by exists l.
      * assert (Hne : n <> name) by (intros ->; done).
        apply Hset; try done. destruct (Hsame1 n Hne) as (-> & _). done.
Qed.

Lemma elem_of_listdir w name : name ∈ listdir w <-> is_Some (sandbox_dir w !! name).
Proof.
  unfold listdir. rewrite list_elem_of_fmap. split.
  - intros [[n f] [-> H]]. apply elem_of_map_to_list in H. by exists f.
  - intros [f H]. exists (name, f). split; [done|]. by apply elem_of_map_to_list.
Qed.

End Pass.

(** C1, as the program has it.  When the reports of every sender of the
    run can be sent, the pass over the staging area returns, and of the
    spreadsheets staged before it: each one with a known sender has left
    the staging area and is in the success or in the error area; each one
    without a known sender is logged with a warning and is still in the
    staging area. *)
Theorem process_attachments_settles (w : world) (attachments : gmap string string)
    (error_p in_p out_p success_p : string) :
  attachments <> ∅ ->
  Config.get (config w) "DEFAULT" "error" = Ok error_p ->
  Config.get (config w) "DEFAULT" "sandbox" = Ok in_p ->
  Config.get (config w) "DEFAULT" "output" = Ok out_p ->
  Config.get (config w) "DEFAULT" "success" = Ok success_p ->
  (forall path email, attachments !! path = Some email ->
     can_report (config w) (templates w) email) ->
  exists w',
    process_attachments (Some attachments) w = (Return tt, w') /\
    forall name f, sandbox_dir w !! name = Some f -> is_xlsx name = true ->
      settled attachments in_p name f w'.
Proof.
  intros Hne He Hi Ho Hs Hrep. unfold process_attachments.
  rewrite decide_False by done. rewrite run_logger.
  set (w0 := set_log _ w).
  unfold bind at 1. rewrite config_get_run. cbn [config w0 set_log]. rewrite He. cbv beta iota.
  unfold bind at 1. rewrite config_get_run. cbn [config w0 set_log]. rewrite Hi. cbv beta iota.
  unfold bind at 1. rewrite config_get_run. cbn [config w0 set_log]. rewrite Ho. cbv beta iota.
  unfold bind at 1. rewrite config_get_run. cbn [config w0 set_log]. rewrite Hs. cbv beta iota.
  unfold bind at 1, gets at 1.
  destruct (process_files_summary attachments (Paths error_p in_p out_p success_p)
              (listdir w0) w0) as (w' & Hrun & _ & _ & Hset).
  - apply NoDup_fst_map_to_list.
  - done.
  - intros name Hn. by apply elem_of_listdir.
  - exists w'. split; [done|]. intros name f Hf Hx.
    apply (Hset name f); [|done|done]. apply elem_of_listdir. by exists f.
Qed.


(** ** The pipeline: errors *)

Section Errors.

Context (attachments : gmap string string) (d : paths).

Lemma collection_to_xml_loop_raises r c v :
  Pandas.getitem r c 1 = Ok v -> is_true (other v) ->
  forall cs xml, c ∈ cs -> exists e, collection_to_xml_loop r cs xml = Raise e.
Proof.
  intros Hv Hother cs. induction cs as [|c0 cs IH]; intros xml Hin.
  - by apply elem_of_nil in Hin.
  - cbn [collection_to_xml_loop]. destruct (decide (c0 = c)) as [->|Hne].
    + rewrite Hv. cbn [mbind res_bind].
      assert (Hna : Pandas.isna v = false) by (by destruct v). rewrite Hna. cbn [negb].
      destruct (Pandas.getitem r c 0) as [n|e]; [|by exists e]. cbn [mbind res_bind].
      destruct (sanitize n) as [name|e]; [|by exists e]. cbn [mbind res_bind].
      destruct (Etree.Element name) as [el|e]; [|by exists e]. cbn [mbind res_bind].
      rewrite fill_other by done. by exists TypeError.
    + apply elem_of_cons in Hin as [->|Hin]; [done|].
      destruct (Pandas.getitem r c0 1) as [v0|e]; [|by exists e]. cbn [mbind res_bind].
      destruct (negb (Pandas.isna v0)); [|by apply IH].
      destruct (Pandas.getitem r c0 0) as [n|e]; [|by exists e]. cbn [mbind res_bind].
      destruct (sanitize n) as [name|e]; [|by exists e]. cbn [mbind res_bind].
      destruct (Etree.Element name) as [el|e]; [|by exists e]. cbn [mbind res_bind].
      destruct (fill el v0) as [el'|e]; [|by exists e]. cbn [mbind res_bind].
      by apply IH.
Qed.

(** The builder raises on a record with a value that is neither text nor
    a date. *)
Lemma collection_to_xml_raises r names values c v :
  normalized r names values -> under (columns r) values c v -> is_true (other v) ->
  exists e, collection_to_xml r = Raise e.
Proof.
  intros [idx labels names' values' rest Hstr Hnd Hn Hv] (j & Hc & Hvj) Hother.
  simpl in *. unfold collection_to_xml.
  change (Etree.Element "collection") with (Ok (Node "collection" NoText [])).
  cbn [mbind res_bind columns].
  apply (collection_to_xml_loop_raises _ c v); [|done|by eapply list_elem_of_lookup_2].
  by eapply getitem_value.
Qed.

(** The [try] body when the primary document cannot be built. *)
Lemma attempt_primary_raises name w email wb r e :
  attachments !! Text.join (in_path d) name = Some email ->
  sandbox_dir w !! name = Some (Excel wb) ->
  clean_collection wb = Ok r ->
  get_missing_fields r = Ok [] ->
  collection_to_xml r = Raise e ->
  attempt attachments d name w =
  (Throw e, set_log (log w ++ [(INFO, Processing (Text.join (in_path d) name))]) w).
Proof.
  intros Hown Hf Hclean Hmiss Hxml. unfold attempt. rewrite run_logger, Hown.
  unfold bind at 1. unfold bind at 1. unfold open_excel, bind at 1, gets at 1.
  cbn [sandbox_dir set_log]. rewrite Hf. cbv beta iota. unfold ret at 1.
  rewrite Hclean. cbv beta iota. unfold lift at 1, ret at 1.
  unfold bind at 1. rewrite Hmiss. cbv beta iota. unfold lift at 1, ret at 1.
  unfold bind at 1, process_collection, bind at 1. rewrite Hxml. reflexivity.
Qed.

End Errors.

(** C10.  Only text and dates are rendered: for any other value the builder
    assigns the raw value as the text of the element, which raises
    [TypeError]; so the builder returns a document only if every present
    value is text or a date, and a staged file that passed validation but
    holds such a value is routed to the error area by the handler of its
    iteration, with no document written and no report sent. *)
Theorem non_text_value_routed_to_error :
  (forall el v, is_true (other v) ->
     fill el v = Etree.set_text el v /\ fill el v = Raise TypeError) /\
  (forall r names values doc c v,
     normalized r names values -> collection_to_xml r = Ok doc ->
     under (columns r) values c v -> other v = false) /\
  (forall attachments d name w email wb r names values c v,
     is_xlsx name = true ->
     attachments !! Text.join (in_path d) name = Some email ->
     sandbox_dir w !! name = Some (Excel wb) ->
     clean_collection wb = Ok r ->
     normalized r names values ->
     get_missing_fields r = Ok [] ->
     under (columns r) values c v -> is_true (other v) ->
     exists w',
       process_file attachments d name w = (Return tt, w') /\
       sandbox_dir w' !! name = None /\
       error_dir w' !! name = Some (Excel wb) /\
       success_dir w' = success_dir w /\
       output_dir w' = output_dir w /\
       outbox w' = outbox w /\
       exists e, (ERROR, ErrorArgs e) ∈ log w').
Proof.
  split; [|split].
  - intros el v Hv. by destruct v.
  - intros r names values doc c v Hnorm Hdoc Hu.
    destruct (other v) eqn:Hother; [|done].
    destruct (collection_to_xml_raises r names values c v Hnorm Hu) as [e He];
      [by rewrite Hother|]. rewrite He in Hdoc. discriminate Hdoc.
  - intros attachments d name w email wb r names values c v
      Hx Hown Hf Hclean Hnorm Hmiss Hu Hother.
    destruct (collection_to_xml_raises r names values c v Hnorm Hu Hother) as [e He].
    eexists. split.
    + eapply process_file_caught; [done| |].
      * by eapply attempt_primary_raises.
      * exact Hf.
    + unfold caught, moved.
      cbn [sandbox_dir error_dir success_dir output_dir outbox log
           set_log set_sandbox set_error].
      rewrite lookup_delete_eq, lookup_insert_eq. repeat split.
      exists e. rewrite !elem_of_app, !list_elem_of_singleton. auto.
Qed.

Lemma non_text_value_routed_to_error_witness :
  exists w',
    process_file Ex.owners Ex.dirs "AX_6.xlsx"
      (Ex.staged [("AX_6.xlsx"%string, Excel Ex.numeric_book)]) = (Return tt, w') /\
    sandbox_dir w' !! "AX_6.xlsx"%string = None /\
    error_dir w' !! "AX_6.xlsx"%string = Some (Excel Ex.numeric_book).
Proof.
  destruct non_text_value_routed_to_error as (_ & _ & H).
  destruct (H Ex.owners Ex.dirs "AX_6.xlsx"%string
              (Ex.staged [("AX_6.xlsx"%string, Excel Ex.numeric_book)])
              "a@x.org"%string Ex.numeric_book
              (Frame [Str "Unnamed: 1"; Str "Unnamed: 2"] [Str "Year *"]
                     [[Str "year"]; [Int 1987]])
              [Str "year"] [Int 1987] (Str "Year *") (Int 1987))
    as (w' & Hrun & Hs & He & _).
  - reflexivity.
  - vm_compute. reflexivity.
  - vm_compute. reflexivity.
  - reflexivity.
  - constructor; [by repeat constructor | | reflexivity | reflexivity].
    apply (bool_decide_unpack _). vm_compute. exact I.
  - reflexivity.
  - exists 0%nat. split; reflexivity.
  - reflexivity.
  - exists w'. split; [exact Hrun|]. split; [exact Hs | exact He].
Defined.

(** C2, as the program has it.  For a staged spreadsheet with a known
    sender whose reports can be sent, any exception of the [try] body (an
    error of the extraction, the validation, the building or the routing)
    is caught in the iteration of that file: the file is moved to the error
    area, the error is logged, and the loop goes on with the remaining
    files.  The output area is left as it was when the exception was
    raised: the documents written for the file before the error are still
    there. *)
Theorem error_caught_per_file (attachments : gmap string string) (d : paths)
    (name : string) (rest : list string) (w w1 : world) (email : string)
    (f : file) (e : exn) :
  is_xlsx name = true ->
  attachments !! Text.join (in_path d) name = Some email ->
  sandbox_dir w !! name = Some f ->
  can_report (config w) (templates w) email ->
  attempt attachments d name w = (Throw e, w1) ->
  exists w',
    process_file attachments d name w = (Return tt, w') /\
    process_files attachments d (name :: rest) w = process_files attachments d rest w' /\
    sandbox_dir w' !! name = None /\
    error_dir w' !! name = Some f /\
    success_dir w' = success_dir w /\
    (ERROR, FailedToProcess (Text.join (in_path d) name)) ∈ log w' /\
    (ERROR, ErrorArgs e) ∈ log w' /\
    output_dir w' = output_dir w1.
Proof.
  intros Hx Hown Hf Hrep Hatt.
  assert (Hp : passive w w1).
  { destruct (attempt_owned attachments d name w email f Hown Hf Hrep)
      as [(w2 & H & _)|[(w2 & H & _)|(e' & w2 & H & Hp)]];
      rewrite Hatt in H; try discriminate H. by injection H as <- <-. }
  assert (Hf1 : sandbox_dir w1 !! name = Some f).
  { destruct Hp as (_ & -> & _). done. }
  assert (Hrun := process_file_caught attachments d name w e w1 f Hx Hatt Hf1).
  eexists. split; [exact Hrun|]. split.
  { cbn [process_files]. by rewrite (run_bind _ _ _ _ _ Hrun). }
  destruct Hp as (_ & _ & Hsucc & _).
  unfold caught, moved.
  cbn [sandbox_dir error_dir success_dir output_dir outbox log
       set_log set_sandbox set_error].
  rewrite lookup_delete_eq, lookup_insert_eq, Hsucc. repeat split.
  - rewrite !elem_of_app, !list_elem_of_singleton. auto.
  - rewrite !elem_of_app, !list_elem_of_singleton. auto.
Qed.

Lemma error_caught_per_file_witness :
  exists w',
    process_file Ex.owners Ex.dirs "AX_6.xlsx"
      (Ex.staged [("AX_6.xlsx"%string, Bytes "not a spreadsheet")]) = (Return tt, w') /\
    sandbox_dir w' !! "AX_6.xlsx"%string = None /\
    error_dir w' !! "AX_6.xlsx"%string = Some (Bytes "not a spreadsheet") /\
    (ERROR, ErrorArgs BadZipFile) ∈ log w'.
Proof.
  destruct (error_caught_per_file Ex.owners Ex.dirs "AX_6.xlsx"%string []
              (Ex.staged [("AX_6.xlsx"%string, Bytes "not a spreadsheet")])
              (set_log [(INFO, Processing "in/AX_6.xlsx")]
                 (Ex.staged [("AX_6.xlsx"%string, Bytes "not a spreadsheet")]))
              "a@x.org"%string (Bytes "not a spreadsheet") BadZipFile)
    as (w' & Hrun & _ & Hs & He & _ & _ & Hlog & _).
  - reflexivity.
  - vm_compute. reflexivity.
  - vm_compute. reflexivity.
  - apply (CanReport _ _ _ "en" "failure.txt" "success.txt" "imap.x.org" "u" "p"
             "admin@x.org"); try reflexivity; eexists; vm_compute; reflexivity.
  - vm_compute. reflexivity.
  - exists w'. split; [exact Hrun|]. split; [exact Hs|]. split; [exact He | exact Hlog].
Defined.

(** C2, as stated, fails on the output area.  The second sheet of terms
    of this file raises; the file goes to the error area, but the primary
    document and the document of the first sheet of terms, written before,
    stay in the output area, which was empty. *)
Lemma documents_left_after_error :
  let w := Ex.staged [("AX_6.xlsx"%string, Excel Ex.broken_terms_book)] in
  let result := process_file Ex.owners Ex.dirs "AX_6.xlsx" w in
  output_dir w = ∅ /\
  result.1 = Return tt /\
  error_dir result.2 !! "AX_6.xlsx"%string = Some (Excel Ex.broken_terms_book) /\
  (ERROR, ErrorArgs TypeError) ∈ log result.2 /\
  is_Some (output_dir result.2 !! "out/AX_6.xml"%string) /\
  is_Some (output_dir result.2 !! "out/AX_6_subject_terms.xml"%string).
Proof.
  split; [reflexivity|]. split; [vm_compute; reflexivity|].
  split; [vm_compute; reflexivity|]. split.
  - apply (bool_decide_unpack _). vm_compute. exact I.
  - split; eexists; vm_compute; reflexivity.
Qed.

(** C1, as stated, fails.  The spreadsheet [old.xlsx] has no known sender:
    after the pass, which returns, it is still in the staging area, in
    neither of the other areas, and the log has the warning. *)
Lemma unowned_file_left_in_staging :
  let w := Ex.staged [("AX_6.xlsx"%string, Excel Ex.good_book);
                      ("old.xlsx"%string, Excel Ex.good_book)] in
  let result := process_attachments (Some Ex.owners) w in
  result.1 = Return tt /\
  sandbox_dir result.2 !! "old.xlsx"%string = Some (Excel Ex.good_book) /\
  success_dir result.2 !! "old.xlsx"%string = None /\
  error_dir result.2 !! "old.xlsx"%string = None /\
  (WARNING, Skipping "in/old.xlsx") ∈ log result.2 /\
  success_dir result.2 !! "AX_6.xlsx"%string = Some (Excel Ex.good_book).
Proof.
  repeat split; try (vm_compute; reflexivity).
  apply (bool_decide_unpack _). vm_compute. exact I.
Qed.

Lemma process_attachments_settles_witness :
  let w := Ex.staged [("AX_6.xlsx"%string, Excel Ex.good_book);
                      ("old.xlsx"%string, Excel Ex.good_book)] in
  exists w',
    process_attachments (Some Ex.owners) w = (Return tt, w') /\
    settled Ex.owners "in" "AX_6.xlsx" (Excel Ex.good_book) w' /\
    settled Ex.owners "in" "old.xlsx" (Excel Ex.good_book) w'.
Proof.
  intros w.
  destruct (process_attachments_settles w Ex.owners "err" "in" "out" "ok")
    as (w' & Hrun & Hset).
  - intros H. apply (f_equal (fun m => m !! "in/AX_6.xlsx"%string)) in H.
    vm_compute in H. discriminate H.
  - reflexivity.
  - reflexivity.
  - reflexivity.
  - reflexivity.
  - unfold Ex.owners. intros path email [_ <-]%lookup_singleton_Some.
    apply (CanReport _ _ _ "en" "failure.txt" "success.txt" "imap.x.org" "u" "p"
             "admin@x.org"); try reflexivity; eexists; vm_compute; reflexivity.
  - exists w'. split; [exact Hrun|]. split; apply Hset; vm_compute; reflexivity.
Defined.

(** ** Separate runs *)

Section Runs.













End Runs.

(** ** A report that cannot be sent *)

(** The handler moves the file once more.  When the exception comes from a
    report, the file has already left the staging area: the second move
    raises out of the loop, and the files not yet visited stay staged.  Here
    the sender has no language option; one of the two good files reaches
    the success area, the pass ends with [FileNotFoundError], and the other
    file is still in the staging area. *)
Lemma failed_report_ends_pass :
  let w := World (list_to_map [("AX_6.xlsx"%string, Excel Ex.good_book);
                               ("AX_7.xlsx"%string, Excel Ex.good_book)])
                 ∅ ∅ ∅ (templates Ex.office) [] [] Ex.registry_without_language
                 (Config.write Ex.registry_without_language) in
  let result := process_attachments (Some Ex.two_owners) w in
  result.1 = Throw FileNotFoundError /\
  size (success_dir result.2) = 1%nat /\
  size (sandbox_dir result.2) = 1%nat /\
  error_dir result.2 = ∅.
Proof. repeat split; vm_compute; reflexivity. Qed.

(** * Further properties *)

(** ** Names of staged files *)

Section StagedNames.

Lemma append_cons c s t : String c s +:+ t = String c (s +:+ t).
Proof. reflexivity. Qed.

Lemma append_nil_l t : "" +:+ t = t.
Proof. reflexivity. Qed.

Lemma append_assoc s t u : (s +:+ t) +:+ u = s +:+ (t +:+ u).
Proof.
  induction s as [|c s IH]; [done|]. by rewrite !append_cons, IH.
Qed.

Lemma length_append s t :
  String.length (s +:+ t) = (String.length s + String.length t)%nat.
Proof.
  induction s as [|c s IH]; [done|]. rewrite append_cons. simpl. by rewrite IH.
Qed.

Lemma append_inv_tail t : forall s1 s2, s1 +:+ t = s2 +:+ t -> s1 = s2.
Proof.
  induction s1 as [|c1 s1 IH]; intros [|c2 s2] H;
    rewrite ?append_cons, ?append_nil_l in H.
  - done.
  - apply (f_equal String.length) in H. simpl in H. rewrite length_append in H. lia.
  - apply (f_equal String.length) in H. simpl in H. rewrite length_append in H. lia.
  - injection H as -> H. f_equal. by apply IH.
Qed.

Lemma contains_append c s t :
  Text.contains c (s +:+ t) = Text.contains c s || Text.contains c t.
Proof.
  unfold Text.contains. induction s as [|a s IH]; [done|].
  rewrite append_cons. simpl. by rewrite IH, orb_assoc.
Qed.

(** A text is cut in one way only at its last occurrence of [c]. *)
Lemma last_separator c : forall a b x y,
  Text.contains c x = false -> Text.contains c y = false ->
  a +:+ String c x = b +:+ String c y -> a = b /\ x = y.
Proof.
  assert (Hself : Ascii.eqb c c = true) by apply Ascii.eqb_refl.
  induction a as [|a0 a IH]; intros [|b0 b] x y Hx Hy H;
    rewrite ?append_cons, ?append_nil_l in H.
  - by injection H as ->.
  - injection H as <- ->. rewrite contains_append in Hx. simpl in Hx.
    unfold Text.contains in Hx. simpl in Hx. rewrite Hself in Hx.
    by rewrite orb_true_r in Hx.
  - injection H as -> <-. rewrite contains_append in Hy. simpl in Hy.
    unfold Text.contains in Hy. simpl in Hy. rewrite Hself in Hy.
    by rewrite orb_true_r in Hy.
  - injection H as -> H. destruct (IH b x y Hx Hy H) as [-> ->]. done.
Qed.

Lemma numeral_without c s :
  numeral_char c = false ->
  Text.forallb_chars numeral_char s = true -> Text.contains c s = false.
Proof.
  intros Hc. unfold Text.contains. induction s as [|a s IH]; simpl; [done|].
  intros [Ha Hs]%andb_prop. rewrite (IH Hs), orb_false_r.
  apply Ascii.eqb_neq. intros ->. congruence.
Qed.

Lemma attachment_name_eq (code1 code2 : string) (seq1 seq2 : Z) :
  attachment_name code1 seq1 = attachment_name code2 seq2 <->
  code1 = code2 /\ seq1 = seq2.
Proof.
  split; [|by intros [-> ->]].
  unfold attachment_name. intros H.
  change (code1 +:+ ("_" +:+ (Text.str_of_int seq1 +:+ ".xlsx")))
    with (code1 +:+ String "_" (Text.str_of_int seq1 +:+ ".xlsx")) in H.
  change (code2 +:+ ("_" +:+ (Text.str_of_int seq2 +:+ ".xlsx")))
    with (code2 +:+ String "_" (Text.str_of_int seq2 +:+ ".xlsx")) in H.
  apply last_separator in H as [-> H].
  - split; [done|]. apply append_inv_tail in H. by apply str_of_int_inj.
  - rewrite contains_append. rewrite (numeral_without "_"); [done|done|].
    apply numeral_str_of_int.
  - rewrite contains_append. rewrite (numeral_without "_"); [done|done|].
    apply numeral_str_of_int.
Qed.

(** The name of a staged file (line 134) determines the code and the
    sequence number it was made from: two attachments get the same name
    only when both the codes and the numbers are the same. *)
Theorem attachment_name_inj (code1 code2 : string) (seq1 seq2 : Z) :
  attachment_name code1 seq1 = attachment_name code2 seq2 <->
  code1 = code2 /\ seq1 = seq2.
Proof. apply attachment_name_eq. Qed.

End StagedNames.

(** ** The sequence store, further *)

Section SequenceStore.

Lemma update_sequence_effect (w : world) (address : string) (seq : Z) :
  wf_config (config w) ->
  is_email_address_known (config w) address = true ->
  exists w',
    update_sequence address seq w = (Return tt, w') /\
    wf_config (config w') /\
    Config.read (config_ini w') = Ok (config w') /\
    Config.getint (config w') address "sequence" = Ok seq /\
    Config.has_option (config w') address "sequence" = true /\
    (forall t k, t <> address \/ k <> "sequence"%string ->
       Config.get (config w') t k = Config.get (config w) t k /\
       Config.has_option (config w') t k = Config.has_option (config w) t k) /\
    (forall t, Config.has_section (config w') t = Config.has_section (config w) t) /\
    sandbox_dir w' = sandbox_dir w.
Proof.
  intros Hwf Hknown.
  destruct (known_section _ _ Hwf Hknown) as (Hne & Hnd & o & Ho).
  destruct (Config.set (config w) address "sequence" (Text.str_of_int seq))
    as [cfg'|e] eqn:Hset.
  2:{ by rewrite (set_section _ _ _ _ o) in Hset. }
  destruct (get_set_eq _ _ _ _ _ Hne Hnd Ho _ Hset) as [Hget Hopt].
  assert (Hwf' : wf_config cfg') by (by eapply wf_set).
  eexists. split; [by apply (update_sequence_run _ _ _ cfg')|].
  cbn [config config_ini sandbox_dir set_config set_config_ini].
  split; [done|]. split; [by apply read_write|]. split.
  { unfold Config.getint. rewrite Hget. cbn [mbind res_bind]. apply int_of_str_of_int. }
  split; [done|]. split.
  { intros t k Hother. by eapply get_set_other. }
  split; [|done]. intros t. by eapply has_section_set.
Qed.

(** [update_sequence] (lines 143 to 147) for a sender of the registry: it
    returns, config.ini then reads back as the configuration in memory,
    the counter of the sender is the number given, and every other option
    of every section, and the set of sections, are as before. *)
Theorem update_sequence_keeps_registry (w : world) (address : string) (seq : Z) :
  wf_config (config w) ->
  is_email_address_known (config w) address = true ->
  exists w',
    update_sequence address seq w = (Return tt, w') /\
    wf_config (config w') /\
    Config.read (config_ini w') = Ok (config w') /\
    Config.getint (config w') address "sequence" = Ok seq /\
    Config.has_option (config w') address "sequence" = true /\
    (forall t k, t <> address \/ k <> "sequence"%string ->
       Config.get (config w') t k = Config.get (config w) t k /\
       Config.has_option (config w') t k = Config.has_option (config w) t k) /\
    (forall t, Config.has_section (config w') t = Config.has_section (config w) t) /\
    sandbox_dir w' = sandbox_dir w.
Proof. apply update_sequence_effect. Qed.

Lemma update_sequence_keeps_registry_witness :
  exists w', update_sequence "a@x.org" 6 Ex.office = (Return tt, w') /\
             Config.getint (config w') "a@x.org" "sequence" = Ok 6 /\
             Config.get (config w') "a@x.org" "code" = Ok "AX"%string.
Proof.
  destruct (update_sequence_keeps_registry Ex.office "a@x.org" 6)
    as (w' & Hrun & _ & _ & Hint & _ & Hother & _).
  - constructor; simpl.
    + apply (bool_decide_unpack _). vm_compute. exact I.
    + apply (bool_decide_unpack _). vm_compute. exact I.
    + apply (bool_decide_unpack _). vm_compute. exact I.
    + apply (bool_decide_unpack _). vm_compute. exact I.
    + repeat constructor; simpl; apply (bool_decide_unpack _); vm_compute; exact I.
  - reflexivity.
  - exists w'. split; [exact Hrun|]. split; [exact Hint|].
    destruct (Hother "a@x.org"%string "code"%string) as [-> _];
      [right; discriminate | reflexivity].
Defined.

(** [save_attachment] (lines 125 to 140) stages nothing when it raises: the
    world is then as it was.  It raises the exception of the lookup when
    the sender has no code, and [ValueError] when the stored counter of the
    sender is not a number. *)
Theorem save_attachment_raises_unchanged (w : world) (address : string) (data : file) :
  (forall e w', save_attachment address data w = (Throw e, w') -> w' = w) /\
  (forall sandbox e,
     Config.get (config w) "DEFAULT" "sandbox" = Ok sandbox ->
     Config.get (config w) address "code" = Raise e ->
     save_attachment address data w = (Throw e, w)) /\
  (forall sandbox code v,
     Config.get (config w) "DEFAULT" "sandbox" = Ok sandbox ->
     Config.get (config w) address "code" = Ok code ->
     Config.has_option (config w) address "sequence" = true ->
     Config.get (config w) address "sequence" = Ok v ->
     Text.int_of_str v = Raise ValueError ->
     save_attachment address data w = (Throw ValueError, w)).
Proof.
  split; [|split].
  - intros e w'. rewrite save_attachment_run.
    destruct (Config.get (config w) "DEFAULT" "sandbox"); [|by intros [= _ <-]].
    destruct (Config.get (config w) address "code"); [|by intros [= _ <-]].
    destruct (next_of (config w) address); [done | by intros [= _ <-]].
  - intros sandbox e Hs Hc. by rewrite save_attachment_run, Hs, Hc.
  - intros sandbox code v Hs Hc Ho Hv Hint.
    rewrite save_attachment_run, Hs, Hc. unfold next_of, Config.getint.
    rewrite Ho, Hv. cbn [mbind res_bind]. by rewrite Hint.
Qed.

Lemma save_attachment_raises_unchanged_witness :
  save_attachment "reports" (Bytes "xlsx") Ex.office = (Throw NoOptionError, Ex.office).
Proof.
  destruct (save_attachment_raises_unchanged Ex.office "reports" (Bytes "xlsx"))
    as (_ & H & _).
  apply (H "in"%string NoOptionError); reflexivity.
Defined.

(** The state after one sequence operation, for the next one. *)
Lemma next_sequence_next w address data sandbox code seq :
  wf_config (config w) ->
  is_email_address_known (config w) address = true ->
  Config.get (config w) "DEFAULT" "sandbox" = Ok sandbox ->
  Config.get (config w) address "code" = Ok code ->
  next_of (config w) address = Ok seq ->
  exists w',
    next_sequence address data w = (Return seq, w') /\
    wf_config (config w') /\
    (forall t, is_email_address_known (config w') t = is_email_address_known (config w) t) /\
    Config.get (config w') "DEFAULT" "sandbox" = Ok sandbox /\
    (forall t, Config.get (config w') t "code" = Config.get (config w) t "code") /\
    next_of (config w') address = Ok (seq + 1) /\
    (forall t, t <> address -> next_of (config w') t = next_of (config w) t) /\
    sandbox_dir w' = <[attachment_name code seq := data]> (sandbox_dir w).
Proof.
  intros Hwf Hknown Hsandbox Hcode Hnext.
  set (w0 := set_sandbox (<[attachment_name code seq := data]> (sandbox_dir w)) w).
  destruct (update_sequence_effect w0 address seq Hwf Hknown)
    as (w' & Hrun & Hwf' & _ & Hint & Hopt & Hother & Hsec & Hdir).
  exists w'. split.
  { unfold next_sequence. unfold bind at 1.
    rewrite save_attachment_run, Hsandbox, Hcode, Hnext.
    unfold bind at 1. cbn [fst]. fold w0. by rewrite Hrun. }
  split; [done|]. split; [intros t; apply Hsec|].
  destruct (known_section _ _ Hwf Hknown) as (_ & Hnd & _).
  split. { destruct (Hother "DEFAULT"%string "sandbox"%string) as [-> _]; [by left|done]. }
  split. { intros t. destruct (Hother t "code"%string) as [-> _]; [by right|done]. }
  split. { unfold next_of. by rewrite Hopt, Hint. }
  split; [|done]. intros t Ht. unfold next_of, Config.getint.
  destruct (Hother t "sequence"%string) as [-> ->]; [by left|done].
Qed.

(** Two attachments of one sender, one after the other (lines 101 to 106
    in the loop over the parts): the second gets the number after the
    first, and both files are staged. *)
Theorem next_sequence_twice (w : world) (address : string) (data1 data2 : file)
    (sandbox code : string) (seq : Z) :
  wf_config (config w) ->
  is_email_address_known (config w) address = true ->
  Config.get (config w) "DEFAULT" "sandbox" = Ok sandbox ->
  Config.get (config w) address "code" = Ok code ->
  next_of (config w) address = Ok seq ->
  exists w1 w2,
    next_sequence address data1 w = (Return seq, w1) /\
    next_sequence address data2 w1 = (Return (seq + 1), w2) /\
    sandbox_dir w2 !! attachment_name code seq = Some data1 /\
    sandbox_dir w2 !! attachment_name code (seq + 1) = Some data2 /\
    stored w2 address (seq + 1).
Proof.
  intros Hwf Hknown Hsandbox Hcode Hnext.
  destruct (next_sequence_next w address data1 sandbox code seq)
    as (w1 & Hrun1 & Hwf1 & Hk1 & Hs1 & Hc1 & Hn1 & _ & Hd1); try done.
  assert (Hknown1 : is_email_address_known (config w1) address = true) by (by rewrite Hk1).
  assert (Hcode1 : Config.get (config w1) address "code" = Ok code) by (by rewrite Hc1).
  destruct (next_sequence_next w1 address data2 sandbox code (seq + 1))
    as (w2 & Hrun2 & _ & _ & _ & _ & _ & _ & Hd2); try done.
  destruct (next_sequence_run w1 address data2 sandbox code (seq + 1))
    as (w2' & Hrun2' & _ & Hst & _); try done.
  rewrite Hrun2 in Hrun2'. injection Hrun2' as <-.
  exists w1, w2. split; [done|]. split; [done|]. rewrite Hd2, Hd1.
  split; [|split; [by rewrite lookup_insert_eq | done]].
  rewrite lookup_insert_ne, lookup_insert_eq; [done|].
  intros [_ H]%attachment_name_eq. lia.
Qed.

Lemma next_sequence_twice_witness :
  exists w1 w2,
    next_sequence "a@x.org" (Bytes "one") Ex.office = (Return 6, w1) /\
    next_sequence "a@x.org" (Bytes "two") w1 = (Return 7, w2) /\
    sandbox_dir w2 !! "AX_6.xlsx"%string = Some (Bytes "one") /\
    sandbox_dir w2 !! "AX_7.xlsx"%string = Some (Bytes "two").
Proof.
  destruct (next_sequence_twice Ex.office "a@x.org" (Bytes "one") (Bytes "two")
              "in" "AX" 6) as (w1 & w2 & H1 & H2 & H3 & H4 & _).
  - constructor; simpl.
    + apply (bool_decide_unpack _). vm_compute. exact I.
    + apply (bool_decide_unpack _). vm_compute. exact I.
    + apply (bool_decide_unpack _). vm_compute. exact I.
    + apply (bool_decide_unpack _). vm_compute. exact I.
    + repeat constructor; simpl; apply (bool_decide_unpack _); vm_compute; exact I.
  - reflexivity.
  - reflexivity.
  - reflexivity.
  - reflexivity.
  - exists w1, w2. split; [exact H1|]. split; [exact H2|]. split; [exact H3 | exact H4].
Defined.

(** Two senders with the same code and the same next number: the file of
    the second replaces the staged file of the first, under the same
    path. *)
Theorem same_code_overwrites (w : world) (address1 address2 : string)
    (data1 data2 : file) (sandbox code : string) (seq : Z) :
  wf_config (config w) ->
  address1 <> address2 ->
  is_email_address_known (config w) address1 = true ->
  is_email_address_known (config w) address2 = true ->
  Config.get (config w) "DEFAULT" "sandbox" = Ok sandbox ->
  Config.get (config w) address1 "code" = Ok code ->
  Config.get (config w) address2 "code" = Ok code ->
  next_of (config w) address1 = Ok seq ->
  next_of (config w) address2 = Ok seq ->
  exists w1 w2,
    next_sequence address1 data1 w = (Return seq, w1) /\
    sandbox_dir w1 !! attachment_name code seq = Some data1 /\
    save_attachment address2 data2 w1 =
      (Return (seq, Text.join sandbox (attachment_name code seq)), w2) /\
    sandbox_dir w2 !! attachment_name code seq = Some data2 /\
    dom (sandbox_dir w2) = dom (sandbox_dir w1).
Proof.
  intros Hwf Hne Hk1 Hk2 Hsandbox Hc1 Hc2 Hn1 Hn2.
  destruct (next_sequence_next w address1 data1 sandbox code seq)
    as (w1 & Hrun1 & _ & _ & Hs1 & Hcode1 & _ & Hnext1 & Hd1); try done.
  exists w1. eexists. split; [done|]. split; [by rewrite Hd1, lookup_insert_eq|].
  split.
  { rewrite save_attachment_run, Hs1, Hcode1, Hc2, (Hnext1 address2), Hn2 by done.
    reflexivity. }
  cbn [sandbox_dir set_sandbox]. split; [by rewrite lookup_insert_eq|].
  by rewrite Hd1, insert_insert_eq, !dom_insert_L.
Qed.

Lemma same_code_overwrites_witness :
  exists w1 w2,
    next_sequence "a@x.org" (Bytes "one") Ex.shared = (Return 1, w1) /\
    save_attachment "b@y.org" (Bytes "two") w1 = (Return (1, "in/AX_1.xlsx"%string), w2) /\
    sandbox_dir w2 !! "AX_1.xlsx"%string = Some (Bytes "two").
Proof.
  destruct (same_code_overwrites Ex.shared "a@x.org" "b@y.org" (Bytes "one") (Bytes "two")
              "in" "AX" 1) as (w1 & w2 & H1 & _ & H2 & H3 & _).
  - constructor; simpl.
    + apply (bool_decide_unpack _). vm_compute. exact I.
    + apply (bool_decide_unpack _). vm_compute. exact I.
    + apply (bool_decide_unpack _). vm_compute. exact I.
    + apply (bool_decide_unpack _). vm_compute. exact I.
    + repeat constructor; simpl; apply (bool_decide_unpack _); vm_compute; exact I.
  - discriminate.
  - reflexivity.
  - reflexivity.
  - reflexivity.
  - reflexivity.
  - reflexivity.
  - reflexivity.
  - reflexivity.
  - exists w1, w2. split; [exact H1|]. split; [exact H2 | exact H3].
Defined.

End SequenceStore.

(** ** Extensions and base names *)

Section Extensions.

Lemma splitext_aux_none t : forall stem seen,
  Text.contains "." t = false -> Text.splitext_aux stem t seen = None.
Proof.
  unfold Text.contains. induction t as [|c t IH]; intros stem seen H; [done|].
  cbn [Text.existsb_chars] in H. apply orb_false_elim in H as [Hc Ht].
  cbn [Text.splitext_aux]. rewrite IH by done.
  rewrite Ascii.eqb_sym in Hc. by rewrite Hc.
Qed.

Lemma splitext_aux_last ext : forall s stem seen,
  Text.contains "." ext = false ->
  seen || has_nondot s = true ->
  Text.splitext_aux stem (s +:+ String "." ext) seen = Some (stem +:+ s, String "." ext).
Proof.
  intros s. induction s as [|c s IH]; intros stem seen Hext Hseen.
  - rewrite append_nil_l. cbn [Text.splitext_aux].
    rewrite splitext_aux_none by done.
    unfold has_nondot in Hseen. cbn [Text.existsb_chars] in Hseen.
    rewrite orb_false_r in Hseen.
    rewrite Hseen, Ascii.eqb_refl. cbn [andb]. f_equal. f_equal.
    clear. induction stem as [|a stem IH]; [done|]. rewrite append_cons. by f_equal.
  - rewrite append_cons. cbn [Text.splitext_aux].
    rewrite (IH (stem +:+ String c "") (seen || negb (Ascii.eqb c "."))); [|done|].
    + f_equal. f_equal. by rewrite append_assoc.
    + unfold has_nondot in *. cbn [Text.existsb_chars] in Hseen.
      by rewrite <- orb_assoc.
Qed.

Lemma has_nondot_append s t : has_nondot (s +:+ t) = has_nondot s || has_nondot t.
Proof.
  unfold has_nondot. induction s as [|a s IH]; [done|].
  rewrite append_cons. cbn [Text.existsb_chars]. by rewrite IH, orb_assoc.
Qed.

Lemma attachment_name_base code seq :
  attachment_name code seq = base_name code seq +:+ String "." "xlsx".
Proof. unfold attachment_name, base_name. by rewrite !append_assoc. Qed.

Lemma splitext_attachment_name code seq :
  Text.splitext (attachment_name code seq) = (base_name code seq, ".xlsx"%string).
Proof.
  unfold Text.splitext. rewrite attachment_name_base.
  rewrite splitext_aux_last; [done|done|].
  unfold base_name. rewrite has_nondot_append. cbn [orb].
  rewrite has_nondot_append. simpl. by rewrite orb_true_r.
Qed.

(** Every name the intake gives a staged file (line 134) passes the test
    of the pass on the extension (lines 166 and 168), whatever the code,
    and the primary document is named after the code and the number
    (lines 194 to 197). *)
Theorem staged_name_is_xlsx (code : string) (seq : Z) :
  is_xlsx (attachment_name code seq) = true /\
  (Text.splitext (attachment_name code seq)).1 = base_name code seq.
Proof.
  unfold is_xlsx. by rewrite splitext_attachment_name.
Qed.

Lemma before_first c t : forall s,
  Text.contains c s = false -> Text.before c (s +:+ String c t) = s.
Proof.
  unfold Text.before, Text.contains. induction s as [|a s IH]; intros H.
  - rewrite append_nil_l. cbn [Text.split]. by rewrite Ascii.eqb_refl.
  - cbn [Text.existsb_chars] in H. apply orb_false_elim in H as [Ha Hs].
    rewrite append_cons. cbn [Text.split]. rewrite Ascii.eqb_sym in Ha. rewrite Ha.
    specialize (IH Hs). destruct (Text.split c (s +:+ String c t)) as [|h l].
    + by rewrite <- IH.
    + by rewrite IH.
Qed.

(** The documents of terms take the text before the first dot of the file
    name as their base (line 328), the primary document the name without
    its extension (line 194).  For a code without a dot the two are the
    same; for a code with a dot, the documents of terms are named after the
    part of the code before its first dot. *)
Theorem terms_base_name (code : string) (seq : Z) :
  (Text.contains "." code = false ->
   Text.before "." (attachment_name code seq) = base_name code seq /\
   Text.before "." (attachment_name code seq)
     = (Text.splitext (attachment_name code seq)).1) /\
  (forall prefix rest, code = prefix +:+ String "." rest ->
     Text.contains "." prefix = false ->
     Text.before "." (attachment_name code seq) = prefix /\
     Text.before "." (attachment_name code seq)
       <> (Text.splitext (attachment_name code seq)).1).
Proof.
  split.
  - intros Hcode. rewrite splitext_attachment_name, attachment_name_base.
    rewrite before_first; [done|].
    unfold base_name. rewrite !contains_append, Hcode. cbn [orb].
    rewrite (numeral_without "." (Text.str_of_int seq));
      [reflexivity|reflexivity|apply numeral_str_of_int].
  - intros prefix rest -> Hprefix. rewrite splitext_attachment_name.
    unfold attachment_name. rewrite append_assoc, append_cons.
    rewrite before_first by done. split; [done|].
    unfold base_name. cbn [fst]. intros H. apply (f_equal String.length) in H.
    rewrite !length_append in H. simpl in H. lia.
Qed.

Lemma terms_base_name_witness :
  Text.before "." (attachment_name "AX" 6) = "AX_6"%string /\
  Text.before "." (attachment_name "A.X" 6) = "A"%string.
Proof.
  destruct (terms_base_name "AX" 6) as [H1 _].
  destruct (terms_base_name "A.X" 6) as [_ H2].
  split.
  - destruct H1 as [H _]; [reflexivity|]. rewrite H. reflexivity.
  - destruct (H2 "A"%string "X"%string) as [H _]; [reflexivity|reflexivity|exact H].
Defined.

End Extensions.

(** ** The intake, further *)

Section IntakeFurther.

Lemma set_sequence_facts cfg s seq :
  wf_config cfg -> is_email_address_known cfg s = true ->
  exists cfg',
    Config.set cfg s "sequence" (Text.str_of_int seq) = Ok cfg' /\
    wf_config cfg' /\
    (forall t k, t <> s \/ k <> "sequence"%string -> Config.get cfg' t k = Config.get cfg t k) /\
    (forall t, is_email_address_known cfg' t = is_email_address_known cfg t).
Proof.
  intros Hwf Hknown.
  destruct (known_section _ _ Hwf Hknown) as (Hne & Hnd & o & Ho).
  destruct (Config.set cfg s "sequence" (Text.str_of_int seq)) as [cfg'|e] eqn:Hset.
  2:{ by rewrite (set_section _ _ _ _ o) in Hset. }
  exists cfg'. split; [done|]. split; [by eapply wf_set|]. split.
  - intros t k Hother. by destruct (get_set_other _ _ _ _ _ t k Hne Hnd Ho Hother _ Hset).
  - intros t. unfold is_email_address_known. by eapply has_section_set.
Qed.

Lemma download_run {A} s data (k : Z -> string -> M A) w :
  wf_config (config w) ->
  is_email_address_known (config w) s = true ->
  let m := (sf <- save_attachment s data ;;
            let '(seq, filename) := sf in
            logger INFO (Downloaded s seq filename) ;;
            update_sequence s seq ;;
            k seq filename) in
  (exists e, m w = (Throw e, w)) \/
  (exists sandbox code seq cfg',
     Config.get (config w) "DEFAULT" "sandbox" = Ok sandbox /\
     Config.get (config w) s "code" = Ok code /\
     Config.set (config w) s "sequence" (Text.str_of_int seq) = Ok cfg' /\
     m w = k seq (Text.join sandbox (attachment_name code seq))
             (downloaded s data sandbox code seq cfg' w)).
Proof.
  intros Hwf Hknown m. unfold m.
  destruct (Config.get (config w) "DEFAULT" "sandbox") as [sandbox|e] eqn:Hs.
  2:{ left. exists e. unfold bind at 1. by rewrite save_attachment_run, Hs. }
  destruct (Config.get (config w) s "code") as [code|e] eqn:Hc.
  2:{ left. exists e. unfold bind at 1. by rewrite save_attachment_run, Hs, Hc. }
  destruct (next_of (config w) s) as [seq|e] eqn:Hn.
  2:{ left. exists e. unfold bind at 1. by rewrite save_attachment_run, Hs, Hc, Hn. }
  destruct (set_sequence_facts (config w) s seq Hwf Hknown) as (cfg' & Hset & _).
  right. exists sandbox, code, seq, cfg'. repeat split; try done.
  unfold bind at 1. rewrite save_attachment_run, Hs, Hc, Hn.
  cbv beta iota. rewrite run_logger. unfold bind at 1.
  by rewrite (update_sequence_run _ _ _ cfg').
Qed.

Lemma staging_inv_log sandbox a w l :
  staging_inv sandbox a w -> staging_inv sandbox a (set_log l w).
Proof. done. Qed.

Lemma staging_inv_downloaded sandbox a w s data code seq cfg' :
  staging_inv sandbox a w ->
  is_email_address_known (config w) s = true ->
  Config.get (config w) s "code" = Ok code ->
  Config.set (config w) s "sequence" (Text.str_of_int seq) = Ok cfg' ->
  staging_inv sandbox (<[Text.join sandbox (attachment_name code seq) := s]> a)
    (downloaded s data sandbox code seq cfg' w) /\
  is_email_address_known cfg' s = true.
Proof.
  intros (Hwf & Hs & Hst) Hknown Hcode Hset.
  destruct (set_sequence_facts (config w) s seq Hwf Hknown) as (cfg1 & Hset1 & Hwf1 & Hget & Hk).
  rewrite Hset in Hset1. injection Hset1 as <-.
  split; [|by rewrite Hk]. split; [done|]. split.
  { cbn [downloaded config set_config set_config_ini]. rewrite Hget; [done|by right]. }
  intros path sender Hpath.
  unfold downloaded.
  cbn [config sandbox_dir set_config set_config_ini set_log set_sandbox].
  destruct (decide (path = Text.join sandbox (attachment_name code seq))) as [->|Hne].
  - rewrite lookup_insert_eq in Hpath. injection Hpath as <-.
    exists code, seq. split; [done|]. split; [by rewrite lookup_insert_eq|].
    split; [by rewrite Hk|]. rewrite Hget; [done|by right].
  - rewrite lookup_insert_ne in Hpath by done.
    destruct (Hst path sender Hpath) as (code0 & seq0 & -> & Hin & Hk0 & Hc0).
    exists code0, seq0. split; [done|]. split.
    { apply lookup_insert_is_Some.
      destruct (decide (attachment_name code seq = attachment_name code0 seq0)); auto. }
    split; [by rewrite Hk|]. rewrite Hget; [done|by right].
Qed.

Lemma walk_parts_staged sandbox s ps : forall a c w a' c' w',
  staging_inv sandbox a w ->
  is_email_address_known (config w) s = true ->
  walk_parts s ps a c w = (Return (a', c'), w') ->
  staging_inv sandbox a' w'.
Proof.
  induction ps as [|part ps IH]; intros a c w a' c' w' Hinv Hknown.
  - cbn [walk_parts]. unfold ret. by intros [= <- _ <-].
  - cbn [walk_parts].
    destruct (multipart part); [by apply IH|].
    destruct (content_disposition part); [|by apply IH].
    assert (Hskip :
      (logger DEBUG (NoPayload s) ;; walk_parts s ps a c) w = (Return (a', c'), w') ->
      staging_inv sandbox a' w').
    { rewrite run_logger. apply IH; [by apply staging_inv_log | done]. }
    assert (Hdown : forall data,
      (sf <- save_attachment s data ;;
       let '(seq, filename) := sf in
       logger INFO (Downloaded s seq filename) ;;
       update_sequence s seq ;;
       walk_parts s ps (<[filename := s]> a) (c + 1)) w = (Return (a', c'), w') ->
      staging_inv sandbox a' w').
    { intros data Hrun.
      destruct (download_run s data
                  (fun seq filename => walk_parts s ps (<[filename := s]> a) (c + 1)) w)
        as [[e He]|(sandbox' & code & seq & cfg' & Hs & Hc & Hset & Heq)];
        [by destruct Hinv|done| |].
      - rewrite He in Hrun. discriminate Hrun.
      - rewrite Heq in Hrun.
        assert (sandbox' = sandbox) as ->.
        { destruct Hinv as (_ & Hs' & _). rewrite Hs in Hs'. by injection Hs'. }
        destruct (staging_inv_downloaded sandbox a w s data code seq cfg' Hinv Hknown Hc Hset)
          as [Hinv' Hk'].
        by eapply IH. }
    destruct (payload part) as [[[|ch raw]|wb]|]; try done; apply Hdown.
Qed.

Lemma fetch_loop_staged sandbox msgs : forall a c w a' w',
  staging_inv sandbox a w ->
  fetch_loop msgs a c w = (Return a', w') ->
  staging_inv sandbox a' w'.
Proof.
  induction msgs as [|msg msgs IH]; intros a c w a' w' Hinv.
  - cbn [fetch_loop]. unfold ret. by intros [= <- <-].
  - cbn [fetch_loop]. rewrite run_logger. unfold bind at 1, gets at 1.
    set (w1 := set_log _ w). 
    assert (Hinv1 : staging_inv sandbox a w1) by (by apply staging_inv_log).
    destruct (is_email_address_known (config w1) _) eqn:Hknown; cbn [negb].
    + unfold bind at 1.
      destruct (walk_parts _ (parts msg) a c w1) as [[[a1 c1]|e] w2] eqn:Hwalk; [|done].
      rewrite run_logger. apply IH. apply staging_inv_log.
      by eapply walk_parts_staged.
    + rewrite run_logger. apply IH. by apply staging_inv_log.
Qed.

(** What the intake returns is staged (lines 101 and 102): every path of
    the dictionary it returns is the path, under the configured staging
    directory, of a file that is in the staging area when the intake
    returns, has the extension the pass looks for, and belongs to a sender
    of the registry. *)
Theorem intake_paths_are_staged (unseen : list message) (w w' : world)
    (sandbox : string) (attachments : gmap string string) :
  wf_config (config w) ->
  Config.get (config w) "DEFAULT" "sandbox" = Ok sandbox ->
  get_data_from_mailbox unseen w = (Return (Some attachments), w') ->
  Config.get (config w') "DEFAULT" "sandbox" = Ok sandbox /\
  forall path sender, attachments !! path = Some sender ->
    is_email_address_known (config w') sender = true /\
    exists name, path = Text.join sandbox name /\ is_xlsx name = true /\
                 is_Some (sandbox_dir w' !! name).
Proof.
  intros Hwf Hs. unfold get_data_from_mailbox.
  unfold bind at 1. rewrite config_get_run.
  destruct (Config.get (config w) "mailbox" "address"); [|done]. cbv beta iota.
  unfold bind at 1. rewrite config_get_run.
  destruct (Config.get (config w) "mailbox" "username"); [|done]. cbv beta iota.
  unfold bind at 1. rewrite config_get_run.
  destruct (Config.get (config w) "mailbox" "password"); [|done]. cbv beta iota.
  destruct (blank _ || blank _ || blank _); [by rewrite run_logger|].
  unfold bind at 1.
  destruct (fetch_loop unseen ∅ 0 w) as [[att|e] w1] eqn:Hloop; [|done].
  unfold ret. intros [= <- <-].
  destruct (fetch_loop_staged sandbox unseen ∅ 0 w att w1) as (_ & Hs1 & Hst); [|done|].
  { split; [done|]. split; [done|]. intros path sender H. by rewrite lookup_empty in H. }
  split; [done|]. intros path sender Hpath.
  destruct (Hst path sender Hpath) as (code & seq & -> & Hin & Hk & _).
  split; [done|]. exists (attachment_name code seq). split; [done|]. split; [|done].
  unfold is_xlsx. by rewrite splitext_attachment_name.
Qed.

Lemma intake_paths_are_staged_witness :
  exists w',
    get_data_from_mailbox [Ex.one_attachment] Ex.office
      = (Return (Some {[ "in/AX_6.xlsx"%string := "a@x.org"%string ]}), w') /\
    is_Some (sandbox_dir w' !! "AX_6.xlsx"%string).
Proof.
  eexists. split; [vm_compute; reflexivity|].
  destruct (intake_paths_are_staged [Ex.one_attachment] Ex.office
              (get_data_from_mailbox [Ex.one_attachment] Ex.office).2 "in"
              {[ "in/AX_6.xlsx"%string := "a@x.org"%string ]}) as [_ H].
  - constructor; simpl.
    + apply (bool_decide_unpack _). vm_compute. exact I.
    + apply (bool_decide_unpack _). vm_compute. exact I.
    + apply (bool_decide_unpack _). vm_compute. exact I.
    + apply (bool_decide_unpack _). vm_compute. exact I.
    + repeat constructor; simpl; apply (bool_decide_unpack _); vm_compute; exact I.
  - reflexivity.
  - vm_compute. reflexivity.
  - eexists. vm_compute. reflexivity.
Defined.

End IntakeFurther.

(** ** What the intake leaves alone *)

Section IntakeFrame.

Lemma intake_frame_refl w : intake_frame w w.
Proof. repeat split; try done. exists []. by rewrite app_nil_r. Qed.

Lemma intake_frame_trans w1 w2 w3 :
  intake_frame w1 w2 -> intake_frame w2 w3 -> intake_frame w1 w3.
Proof.
  intros (H1 & H2 & H3 & H4 & H5 & H6 & l & Hl) (H1' & H2' & H3' & H4' & H5' & H6' & l' & Hl').
  repeat split; try congruence; [by etrans|].
  exists (l ++ l'). by rewrite Hl', Hl, <- app_assoc.
Qed.

Lemma intake_frame_logger l e : keeps intake_frame (logger l e).
Proof. intros w. repeat split; try done. by exists [(l, e)]. Qed.

Lemma intake_frame_config_get s k : keeps intake_frame (config_get s k).
Proof.
  apply keeps_bind; [apply intake_frame_trans | apply keeps_gets, intake_frame_refl |].
  intros cfg. apply keeps_lift, intake_frame_refl.
Qed.

Lemma intake_frame_set_config cfg : keeps intake_frame (modify (set_config cfg)).
Proof. intros w. repeat split; try done. exists []. simpl. by rewrite app_nil_r. Qed.

Lemma intake_frame_set_config_ini ini : keeps intake_frame (modify (set_config_ini ini)).
Proof. intros w. repeat split; try done. exists []. simpl. by rewrite app_nil_r. Qed.

Lemma intake_frame_save_attachment address attachment :
  keeps intake_frame (save_attachment address attachment).
Proof.
  apply keeps_bind; [apply intake_frame_trans | apply intake_frame_config_get | intros sandbox].
  apply keeps_bind; [apply intake_frame_trans | apply intake_frame_config_get | intros code].
  apply keeps_bind; [apply intake_frame_trans | apply keeps_gets, intake_frame_refl | intros cfg].
  apply keeps_bind; [apply intake_frame_trans | | intros seq].
  { destruct (Config.has_option cfg address "sequence");
      [|apply keeps_ret, intake_frame_refl].
    apply keeps_bind; [apply intake_frame_trans | apply keeps_lift, intake_frame_refl |].
    intros n. apply keeps_ret, intake_frame_refl. }
  apply keeps_bind; [apply intake_frame_trans | | intros _; apply keeps_ret, intake_frame_refl].
  intros w. repeat split; try done.
  - cbn [modify snd sandbox_dir set_sandbox]. rewrite dom_insert_L. set_solver.
  - exists []. simpl. by rewrite app_nil_r.
Qed.

Lemma intake_frame_update_sequence address seq :
  keeps intake_frame (update_sequence address seq).
Proof.
  apply keeps_bind; [apply intake_frame_trans | apply keeps_gets, intake_frame_refl | intros cfg].
  apply keeps_bind; [apply intake_frame_trans | apply keeps_lift, intake_frame_refl | intros cfg'].
  apply keeps_bind; [apply intake_frame_trans | apply intake_frame_set_config | intros _].
  apply keeps_bind; [apply intake_frame_trans | apply intake_frame_set_config_ini | intros _].
  apply intake_frame_set_config_ini.
Qed.

Lemma intake_frame_walk_parts sender ps : forall a c,
  keeps intake_frame (walk_parts sender ps a c).
Proof.
  induction ps as [|part ps IH]; intros a c; [apply keeps_ret, intake_frame_refl|].
  cbn [walk_parts].
  destruct (multipart part); [apply IH|].
  destruct (content_disposition part); [|apply IH].
  assert (Hskip : keeps intake_frame
                    (logger DEBUG (NoPayload sender) ;; walk_parts sender ps a c)).
  { apply keeps_bind; [apply intake_frame_trans | apply intake_frame_logger |].
    intros _. apply IH. }
  assert (Hdown : forall data, keeps intake_frame
    (sf <- save_attachment sender data ;;
     let '(seq, filename) := sf in
     logger INFO (Downloaded sender seq filename) ;;
     update_sequence sender seq ;;
     walk_parts sender ps (<[filename := sender]> a) (c + 1))).
  { intros data.
    apply keeps_bind; [apply intake_frame_trans | apply intake_frame_save_attachment |].
    intros [seq filename].
    apply keeps_bind; [apply intake_frame_trans | apply intake_frame_logger | intros _].
    apply keeps_bind; [apply intake_frame_trans | apply intake_frame_update_sequence |].
    intros _. apply IH. }
  destruct (payload part) as [[[|ch raw]|wb]|]; try done; apply Hdown.
Qed.

Lemma intake_frame_fetch_loop msgs : forall a c,
  keeps intake_frame (fetch_loop msgs a c).
Proof.
  induction msgs as [|msg msgs IH]; intros a c; [apply keeps_ret, intake_frame_refl|].
  cbn [fetch_loop].
  apply keeps_bind; [apply intake_frame_trans | apply intake_frame_logger | intros _].
  apply keeps_bind; [apply intake_frame_trans | apply keeps_gets, intake_frame_refl | intros cfg].
  destruct (negb _).
  - apply keeps_bind; [apply intake_frame_trans | apply intake_frame_logger | intros _].
    apply IH.
  - apply keeps_bind; [apply intake_frame_trans | apply intake_frame_walk_parts |].
    intros [a' c'].
    apply keeps_bind; [apply intake_frame_trans | apply intake_frame_logger | intros _].
    apply IH.
Qed.

(** The intake only adds (lines 48 to 147): however it ends, returning or
    raising, and whatever the messages hold, it leaves the success, error
    and output areas, the templates and the mail sent as they were, no
    name leaves the staging area, and the log is only extended. *)
Theorem intake_only_adds (unseen : list message) (w : world) :
  intake_frame w (intake unseen w).2.
Proof.
  revert w. change (keeps intake_frame (intake unseen)). unfold intake.
  apply keeps_bind; [apply intake_frame_trans | apply keeps_gets, intake_frame_refl | intros ini].
  apply keeps_bind; [apply intake_frame_trans | apply keeps_lift, intake_frame_refl | intros cfg].
  apply keeps_bind; [apply intake_frame_trans | apply intake_frame_set_config | intros _].
  unfold get_data_from_mailbox.
  repeat (apply keeps_bind; [apply intake_frame_trans | apply intake_frame_config_get | intros ?]).
  destruct (blank _ || blank _ || blank _).
  - apply keeps_bind; [apply intake_frame_trans | apply intake_frame_logger | intros _].
    apply keeps_ret, intake_frame_refl.
  - apply keeps_bind; [apply intake_frame_trans | apply intake_frame_fetch_loop | intros ?].
    apply keeps_ret, intake_frame_refl.
Qed.

Lemma fetch_loop_unknown cfg msgs : forall a c w,
  config w = cfg ->
  Forall (unknown cfg) msgs ->
  exists l, fetch_loop msgs a c w = (Return a, set_log (log w ++ l) w).
Proof.
  induction msgs as [|msg msgs IH]; intros a c w Hc Hall.
  - exists []. rewrite app_nil_r. by destruct w.
  - apply Forall_cons in Hall as [Hmsg Hall]. cbn [fetch_loop].
    rewrite run_logger. unfold bind at 1, gets at 1.
    cbn [config set_log]. rewrite Hc. unfold unknown in Hmsg. rewrite Hmsg. cbn [negb].
    rewrite run_logger.
    edestruct (IH a c) as [l Hl]; [|exact Hall|rewrite Hl]; [exact Hc|].
    eexists. cbn [log set_log]. rewrite <- !app_assoc. reflexivity.
Qed.

(** The intake and the pass when every unread message comes from a sender
    outside the registry. *)
Lemma main_unknown_senders (unseen : list message) (w : world) (cfg : Config.t) :
  Config.read (config_ini w) = Ok cfg ->
  Forall (unknown cfg) unseen ->
  untouched w (main unseen w).2 /\
  (forall address username password,
     Config.get cfg "mailbox" "address" = Ok address ->
     Config.get cfg "mailbox" "username" = Ok username ->
     Config.get cfg "mailbox" "password" = Ok password ->
     (main unseen w).1 = Return tt /\
     (INFO, NoAttachments) ∈ log (main unseen w).2).
Proof.
  intros Hread Hall.
  remember (main unseen w) as r eqn:Hr.
  unfold main, intake in Hr.
  unfold bind at 1 in Hr. unfold bind at 1, gets at 1 in Hr.
  unfold bind at 1 in Hr. rewrite Hread in Hr. cbn [lift ret] in Hr.
  unfold bind at 1 in Hr. cbn [modify] in Hr.
  set (w1 := set_config cfg w) in Hr. unfold get_data_from_mailbox in Hr.
  unfold bind at 1 in Hr. rewrite config_get_run in Hr. cbn [w1 config set_config] in Hr.
  destruct (Config.get cfg "mailbox" "address") as [address|e1]; [|by subst r].
  unfold bind at 1 in Hr. rewrite config_get_run in Hr. cbn [w1 config set_config] in Hr.
  destruct (Config.get cfg "mailbox" "username") as [username|e2]; [|by subst r].
  unfold bind at 1 in Hr. rewrite config_get_run in Hr. cbn [w1 config set_config] in Hr.
  destruct (Config.get cfg "mailbox" "password") as [password|e3]; [|by subst r].
  destruct (blank _ || blank _ || blank _).
  - rewrite run_logger in Hr. cbn [ret process_attachments logger modify] in Hr.
    subst r. split; [done|]. intros _ _ _ _ _ _. split; [done|].
    cbn [snd log set_log]. apply elem_of_app. right. by apply list_elem_of_singleton.
  - destruct (fetch_loop_unknown cfg unseen ∅ 0 w1 eq_refl Hall) as [l Hl].
    unfold bind at 1 in Hr. rewrite Hl in Hr. cbn [ret process_attachments] in Hr.
    rewrite decide_True in Hr by done. cbn [logger modify] in Hr.
    subst r. split; [done|]. intros _ _ _ _ _ _. split; [done|].
    cbn [snd log set_log]. apply elem_of_app. right. by apply list_elem_of_singleton.
Qed.

End IntakeFrame.

(** * When the functions of the record return *)

Section Returns.

Lemma positions_occurrences c l i :
  length (Pandas.positions c l i) = occurrences c l.
Proof.
  revert i. induction l as [|x l IH]; intros i; [done|].
  unfold occurrences in *. cbn [Pandas.positions]. rewrite filter_cons.
  destruct (decide (x = c)); cbn [length]; by rewrite IH.
Qed.

Lemma getitem_returns df c i v :
  Pandas.getitem df c i = Ok v ->
  occurrences c (columns df) = 1%nat /\ (i < length (data df))%nat.
Proof.
  unfold Pandas.getitem. intros H.
  rewrite <- (positions_occurrences c (columns df) 0).
  destruct (Pandas.positions c (columns df) 0) as [|j [|j' js]]; try done.
  split; [done|].
  destruct (nth_error _ i) eqn:Hnth; [|done].
  assert (Hlt : (i < length (Pandas.column j (data df)))%nat).
  { apply nth_error_Some. by rewrite Hnth. }
  unfold Pandas.column in Hlt. by rewrite length_map in Hlt.
Qed.

Lemma get_missing_fields_loop_returns df : forall cs acc missing,
  get_missing_fields_loop df cs acc = Ok missing ->
  Forall (fun c => is_true (Pandas.is_str c)) cs /\
  (forall c, c ∈ cs -> is_true (required c) ->
     occurrences c (columns df) = 1%nat /\ (2 <= length (data df))%nat) /\
  missing = acc ++ filter (fun c => is_true (absent_in df c)) cs.
Proof.
  induction cs as [|c cs IH]; intros acc missing.
  - cbn [get_missing_fields_loop]. intros [= <-]. split; [constructor|].
    split; [by intros c Hc; apply elem_of_nil in Hc|]. by rewrite app_nil_r.
  - cbn [get_missing_fields_loop]. destruct c as [|s| | |]; try done.
    cbn [star_in mbind res_bind].
    destruct (Text.contains "*" s) eqn:Hreq.
    + destruct (Pandas.getitem df (Str s) 1) as [v|e] eqn:Hget; [|done].
      cbn [mbind res_bind]. destruct (getitem_returns _ _ _ _ Hget) as [Hocc Hlen].
      assert (Hhead : forall c, c ∈ Str s :: cs ->
                (forall c, c ∈ cs -> is_true (required c) ->
                   occurrences c (columns df) = 1%nat /\ (2 <= length (data df))%nat) ->
                is_true (required c) ->
                occurrences c (columns df) = 1%nat /\ (2 <= length (data df))%nat).
      { intros c [->|Hc]%elem_of_cons Hcs Hr; [split; [done|lia] | by apply Hcs]. }
      destruct (Pandas.isna v) eqn:Hna.
      * intros (Hstr & Hcs & ->)%IH. split; [by constructor|].
        split; [intros c Hc; by apply Hhead|].
        rewrite filter_cons_True
          by (unfold absent_in; cbn [required]; by rewrite Hreq, Hget, Hna).
        by rewrite <- app_assoc.
      * intros (Hstr & Hcs & ->)%IH. split; [by constructor|].
        split; [intros c Hc; by apply Hhead|].
        by rewrite filter_cons_False
          by (unfold absent_in; cbn [required]; by rewrite Hreq, Hget, Hna).
    + intros (Hstr & Hcs & ->)%IH. split; [by constructor|]. split.
      * intros c [->|Hc]%elem_of_cons Hr; [|by apply Hcs].
        cbn [required] in Hr. by rewrite Hreq in Hr.
      * by rewrite filter_cons_False
          by (unfold absent_in; cbn [required]; by rewrite Hreq).
Qed.

(** The validator on any frame (lines 227 to 237), normalized or not: it
    returns only if every label is a text and every label marked as
    required occurs once among the labels, over at least two rows; and
    what it returns is the list of the labels that are marked as required
    and have no value, in the order of the frame. *)
Theorem get_missing_fields_returns (df : DataFrame) (missing : list cell) :
  get_missing_fields df = Ok missing ->
  Forall (fun c => is_true (Pandas.is_str c)) (columns df) /\
  (forall c, c ∈ columns df -> is_true (required c) ->
     occurrences c (columns df) = 1%nat /\ (2 <= length (data df))%nat) /\
  missing = filter (fun c => is_true (absent_in df c)) (columns df).
Proof. intros H. by apply get_missing_fields_loop_returns in H. Qed.

Lemma get_missing_fields_returns_witness :
  get_missing_fields Ex.title_record = Ok [] /\
  occurrences (Str "Title *") (columns Ex.title_record) = 1%nat.
Proof.
  split; [vm_compute; reflexivity|].
  destruct (get_missing_fields_returns Ex.title_record []) as (_ & H & _);
    [vm_compute; reflexivity|].
  apply H; [|reflexivity].
  apply (bool_decide_unpack _). vm_compute. exact I.
Defined.

Lemma not_in_select_mask c (l : list cell) :
  c ∉ Pandas.select (Pandas.mask [c] l) l.
Proof.
  induction l as [|x l IH]; [by apply not_elem_of_nil|].
  unfold Pandas.mask in *. cbn [map Pandas.select]. unfold Pandas.mem at 1.
  destruct (decide (x = c)) as [->|Hne].
  - rewrite bool_decide_eq_true_2 by (by apply list_elem_of_singleton). done.
  - rewrite bool_decide_eq_false_2 by (by rewrite list_elem_of_singleton).
    cbn [negb]. by apply not_elem_of_cons.
Qed.

Lemma drop_columns_one_returns c df df' :
  Pandas.drop_columns [c] df = Ok df' ->
  c ∈ columns df /\ c ∉ columns df'.
Proof.
  unfold Pandas.drop_columns. cbn [forallb]. unfold Pandas.mem at 1.
  destruct (bool_decide (c ∈ columns df)) eqn:Hc; [|done].
  cbn [andb]. intros [= <-]. apply bool_decide_eq_true in Hc.
  split; [done|]. apply not_in_select_mask.
Qed.

(** When the extractor returns (lines 213 to 224): only for a workbook
    with a sheet [collection] whose first row holds the title of the form
    and whose first column holds, in some row, the marker ["* Required"];
    and then no label of the record is that marker. *)
Theorem clean_collection_returns (wb : workbook) (df : DataFrame) :
  clean_collection wb = Ok df ->
  (required_marker ∉ columns df) /\
  exists sh, Config.assoc "collection" wb = Some sh /\
    "ARCHIVES AFRICA: COLLECTION DATA"%string ∈ header sh /\
    exists row, row ∈ body sh /\ label_of row = required_marker.
Proof.
  unfold clean_collection, Pandas.read_excel.
  destruct (Config.assoc "collection" wb) as [sh|]; [|done].
  cbn [mbind res_bind]. unfold clean_collection_frame.
  destruct (Pandas.drop_columns [title_column] (Pandas.of_sheet sh)) as [d|e] eqn:Hd;
    [|done].
  apply drop_columns_one_returns in Hd as [Htitle _]. cbn [mbind res_bind].
  destruct (Pandas.drop_rows [Int 0] d) as [d'|e]; [|done]. cbn [mbind res_bind].
  destruct sh as [hd bd]. cbn [Pandas.of_sheet columns header body] in *.
  apply list_elem_of_fmap in Htitle as (h & [= <-] & Hh).
  destruct hd as [|h0 hs]; [by apply elem_of_nil in Hh|].
  unfold Pandas.transpose, Pandas.iloc0, Pandas.of_sheet.
  cbn [data columns index header body].
  rewrite length_map. cbn [length seq map mbind res_bind].
  destruct (Pandas.str_strip (Pandas.column 0 bd)) as [new_header|e] eqn:Hstrip;
    [|done].
  cbn [mbind res_bind].
  assert (new_header = map Pandas.strip_cell (Pandas.column 0 bd)) as ->.
  { unfold Pandas.str_strip in Hstrip. destruct (_ || _); congruence. }
  destruct (Pandas.set_columns _ _) as [c|e] eqn:Hset; [|done]. cbn [mbind res_bind].
  assert (Hcols : columns c = map Pandas.strip_cell (Pandas.column 0 bd)).
  { unfold Pandas.set_columns in Hset. destruct (_ =? _)%nat; [|done].
    by injection Hset as <-. }
  intros [Hin Hout]%drop_columns_one_returns. split; [done|].
  exists (Sheet (h0 :: hs) bd). split; [done|]. split; [done|].
  rewrite Hcols in Hin. unfold Pandas.column in Hin. rewrite map_map in Hin.
  apply list_elem_of_fmap in Hin as (row & Hrow & Hin). by exists row.
Qed.

Lemma clean_collection_returns_witness :
  clean_collection Ex.good_book = Ok Ex.title_record /\
  (required_marker ∉ columns Ex.title_record).
Proof.
  assert (H : clean_collection Ex.good_book = Ok Ex.title_record)
    by (vm_compute; reflexivity).
  split; [exact H|].
  exact (proj1 (clean_collection_returns Ex.good_book Ex.title_record H)).
Defined.

Lemma paragraphs_returns paras : forall el e,
  paragraphs paras el = Ok e ->
  Forall (fun l => is_true (line_ok l))
         (filter (fun l => l <> ""%string) (map Text.strip paras)).
Proof.
  induction paras as [|para paras IH]; intros el e; [constructor|].
  cbn [paragraphs map].
  destruct (String.eqb (Text.strip para) "") eqn:Hb; cbn [negb].
  - apply String.eqb_eq in Hb. rewrite filter_cons_False by (by intros ?). apply IH.
  - apply String.eqb_neq in Hb. rewrite filter_cons_True by done.
    change (Etree.Element "p") with (Ok (Node "p" NoText [])).
    cbn [mbind res_bind]. fold (has_angle (Text.strip para)).
    assert (Hline : forall el' : element,
              (if has_angle (Text.strip para)
               then Etree.cdata (Text.strip para) else Etree.plain (Text.strip para))
              ≫= (fun t => paragraphs paras (Etree.append el (Etree.with_text (Node "p" NoText []) t)))
              = Ok e -> is_true (line_ok (Text.strip para))).
    { intros _. unfold Etree.cdata, Etree.plain, line_ok.
      destruct (has_angle (Text.strip para)) eqn:Ha.
      - by destruct (_ && _).
      - destruct (Etree.xml_compatible (Text.strip para)); [|done]. intros _.
        destruct (Text.occurs "]]>" (Text.strip para)) eqn:Ho; [|done].
        apply occurs_end_mark_angle in Ho. unfold has_angle in Ha.
        rewrite Ho in Ha. by rewrite orb_true_r in Ha. }
    intros H. constructor; [by apply (Hline el)|].
    destruct (if has_angle _ then _ else _) as [t|e']; [|done].
    cbn [mbind res_bind] in H. by eapply IH.
Qed.

Lemma fill_returns el v e : fill el v = Ok e -> renderable v.
Proof.
  destruct v as [|s|d|n|b]; try done. cbn [fill renderable]. unfold lines_of.
  apply paragraphs_returns.
Qed.

Lemma collection_to_xml_loop_returns idx labels names values rest :
  NoDup labels ->
  forall cs ns vs pre pren prev xml xml',
    labels = pre ++ cs -> names = pren ++ ns -> values = prev ++ vs ->
    length pre = length pren -> length pre = length prev ->
    length cs = length ns -> length cs = length vs ->
    collection_to_xml_loop (Frame idx labels (names :: values :: rest)) cs xml = Ok xml' ->
    Forall buildable (present cs ns vs).
Proof.
  intros Hnd cs. induction cs as [|c cs IH];
    intros ns vs pre pren prev xml xml' Hl Hn Hv Hlen1 Hlen2 Hlen3 Hlen4.
  - intros _. destruct ns, vs; try done.
  - destruct ns as [|n ns]; [done|]. destruct vs as [|v vs]; [done|].
    simpl in Hlen3, Hlen4.
    assert (Hj : labels !! length pre = Some c).
    { rewrite Hl. by rewrite list_lookup_middle. }
    assert (Hnj : names !! length pre = Some n).
    { rewrite Hn. by rewrite list_lookup_middle. }
    assert (Hvj : values !! length pre = Some v).
    { rewrite Hv. by rewrite list_lookup_middle. }
    cbn [collection_to_xml_loop].
    rewrite (getitem_value _ _ _ _ _ _ _ _ Hnd Hj Hvj). cbn [mbind res_bind].
    rewrite present_cons.
    assert (Hrest : forall xml0,
              collection_to_xml_loop (Frame idx labels (names :: values :: rest)) cs xml0
              = Ok xml' -> Forall buildable (present cs ns vs)).
    { intros xml0. apply (IH ns vs (pre ++ [c]) (pren ++ [n]) (prev ++ [v]));
        rewrite ?length_app; simpl; try lia; try done; by rewrite <- app_assoc. }
    destruct (Pandas.isna v) eqn:Hna; cbn [negb]; [by apply Hrest|].
    rewrite (getitem_name _ _ _ _ _ _ _ Hnd Hj Hnj). cbn [mbind res_bind].
    destruct n as [|s| | |]; try done. cbn [sanitize mbind res_bind].
    unfold Etree.Element.
    destruct (Etree.valid_tag (Text.sub_nonword s)) eqn:Htag; [|done].
    cbn [mbind res_bind].
    destruct (fill _ v) as [el|e] eqn:Hfill; [|done]. cbn [mbind res_bind].
    intros H%Hrest. constructor; [|done].
    split; [done|]. split; [unfold name_of; cbn [fst snd text_of]; by rewrite Htag|].
    by eapply fill_returns.
Qed.

(** When the builder returns (lines 281 to 309): on a Normalized Record
    only if every present field can be built, that is, its element name is
    a text that is still a valid name once its non-word characters are
    gone, and its value is a date or a text whose lines the document can
    hold.  A present value that is a number, or a name that is absent,
    makes the builder raise. *)
Theorem collection_to_xml_returns (r : DataFrame) (names values : list cell)
    (xml : element) :
  normalized r names values ->
  collection_to_xml r = Ok xml ->
  Forall buildable (present (columns r) names values).
Proof.
  intros [idx labels names' values' rest Hstr Hnd Hn Hv]. unfold collection_to_xml.
  change (Etree.Element "collection") with (Ok (Node "collection" NoText [])).
  cbn [mbind res_bind columns].
  by apply (collection_to_xml_loop_returns idx labels names' values' rest Hnd
              labels names' values' [] [] []).
Qed.

Lemma collection_to_xml_returns_witness :
  Forall buildable
    (present (columns Ex.title_record) [Str "title"] [Str "Kano chronicle"]).
Proof.
  eapply (collection_to_xml_returns Ex.title_record).
  - constructor; [by repeat constructor | | done | done].
    apply NoDup_singleton.
  - vm_compute. reflexivity.
Defined.

Lemma terms_row_loop_returns terms labels :
  Pandas.iloc0 terms = Ok labels ->
  forall row pos p p',
    terms_row_loop terms row pos p = Ok p' -> row_ok labels pos row.
Proof.
  intros Hlabels. induction row as [|term row IH]; intros pos p p'.
  - intros _ i t Hi. by rewrite lookup_nil in Hi.
  - cbn [terms_row_loop].
    assert (Hcons : term_ok labels pos term -> row_ok labels (S pos) row ->
                    row_ok labels pos (term :: row)).
    { intros Ht Hrow [|i] t Hi.
      - injection Hi as <-. by rewrite Nat.add_0_r.
      - replace (pos + S i)%nat with (S pos + i)%nat by lia. by apply Hrow. }
    destruct (Pandas.isna term) eqn:Hna; cbn [negb].
    + intros H%IH. apply Hcons; [by left | done].
    + unfold label_at. rewrite Hlabels. cbn [mbind res_bind].
      destruct (nth_error labels pos) as [l|] eqn:Hnth; [|done].
      cbn [mbind res_bind]. destruct l as [|l| | |]; try done.
      cbn [term_name mbind res_bind]. unfold Etree.Element.
      destruct (Etree.valid_tag (normalize_label l)) eqn:Htag; [|done].
      cbn [mbind res_bind]. destruct term as [|t| | |]; try done.
      cbn [Etree.set_text]. unfold Etree.plain.
      destruct (Etree.xml_compatible t) eqn:Hc; [|done]. cbn [mbind res_bind].
      intros H%IH. apply Hcons; [|done]. right. exists t, l.
      rewrite nth_error_lookup in Hnth. by rewrite Hc, Htag.
Qed.

Lemma terms_loop_returns terms labels :
  Pandas.iloc0 terms = Ok labels ->
  forall rows k xml xml',
    (1 <= k)%nat ->
    terms_loop terms (zip (map (fun i => Int (Z.of_nat i)) (seq k (length rows))) rows) xml
      = Ok xml' ->
    Forall (row_ok labels 0) rows.
Proof.
  intros Hlabels rows. induction rows as [|row rows IH]; intros k xml xml' Hk;
    [constructor|].
  cbn [length seq map zip zip_with terms_loop positive_label].
  assert (Hpos : (0 <? Z.of_nat k) = true) by (apply Z.ltb_lt; lia).
  rewrite Hpos. cbn [mbind res_bind].
  change (Etree.Element "p") with (Ok (Node "p" NoText [])).
  cbn [mbind res_bind].
  destruct (terms_row_loop terms row 0 _) as [p|e] eqn:Hrow; [|done].
  cbn [mbind res_bind]. intros H. constructor.
  - by eapply terms_row_loop_returns.
  - eapply (IH (S k)); [lia | exact H].
Qed.

(** When the builder of the documents of terms returns (lines 333 to
    350): only if the root name is a valid name and every cell below the
    row of labels is absent or is a text the document can hold, under a
    label that is a text and gives a valid name.  One number among the
    terms makes it raise. *)
Theorem terms_to_xml_returns (h : string) (hs : list string)
    (labels : list cell) (rows : list (list cell)) (root : string) (xml : element) :
  terms_to_xml (Pandas.of_sheet (Sheet (h :: hs) (labels :: rows))) root = Ok xml ->
  is_true (Etree.valid_tag root) /\ Forall (row_ok labels 0) rows.
Proof.
  unfold terms_to_xml, Etree.Element.
  destruct (Etree.valid_tag root) eqn:Htag; [|done]. cbn [mbind res_bind].
  unfold iterrows, Pandas.of_sheet, Pandas.range.
  cbn [index data body header length seq map zip zip_with terms_loop
       positive_label Z.of_nat Z.ltb Z.compare mbind res_bind].
  intros H. split; [done|].
  by eapply (terms_loop_returns _ labels), H.
Qed.

Lemma terms_to_xml_returns_witness :
  Forall (row_ok (hd [] (body Ex.terms_sheet)) 0) (tail (body Ex.terms_sheet)).
Proof.
  refine (proj2 (terms_to_xml_returns "Subject Terms : list" ["Unnamed: 1"%string]
                   _ _ "subject_terms" _ _)).
  vm_compute. reflexivity.
Defined.

End Returns.

(** * What a pass does with the files *)

Section Conservation.

Context (P : string -> Prop).

Lemma same_at_refl n w : same_at n w w.
Proof. done. Qed.







End Conservation.

Section ConservationPass.

Context (attachments : gmap string string) (d : paths).



End ConservationPass.


(** * The reports *)

Section Reports.

Lemma send_email_run w to subject message address username password :
  Config.get (config w) "mailbox" "address" = Ok address ->
  Config.get (config w) "mailbox" "username" = Ok username ->
  Config.get (config w) "mailbox" "password" = Ok password ->
  send_email to subject message w =
  (Return tt,
   if blank address || blank username || blank password
   then set_log (log w ++ [(ERROR, InvalidMailbox)]) w
   else set_outbox (outbox w ++ [Mail to subject message]) w).
Proof.
  intros Ha Hu Hp. unfold send_email.
  unfold bind at 1. rewrite config_get_run, Ha. cbv beta iota.
  unfold bind at 1. rewrite config_get_run, Hu. cbv beta iota.
  unfold bind at 1. rewrite config_get_run, Hp. cbv beta iota.
  by destruct (blank _ || blank _ || blank _).
Qed.

Lemma send_success_report_run (w : world) (email filepath lang path message
    address username password to : string) :
  Config.get (config w) email "language" = Ok lang ->
  Config.get (config w) "reports" ("success_" ++ report_language lang) = Ok path ->
  templates w !! path = Some message ->
  Config.get (config w) "mailbox" "address" = Ok address ->
  Config.get (config w) "mailbox" "username" = Ok username ->
  Config.get (config w) "mailbox" "password" = Ok password ->
  blank address || blank username || blank password = false ->
  Config.get (config w) "reports" "email" = Ok to ->
  exists w',
    send_success_report email filepath w = (Return tt, w') /\
    outbox w' = outbox w ++ [Mail email "Thank you for your email" (Template message);
                             Mail to "New files added" (NewFile email filepath)] /\
    log w' = log w ++ (if blank to then [(ERROR, MissingReportAddress)] else []) /\
    sandbox_dir w' = sandbox_dir w /\ success_dir w' = success_dir w /\
    error_dir w' = error_dir w /\ output_dir w' = output_dir w.
Proof.
  intros Hl Hpath Hm Ha Hu Hp Hok Hto. unfold send_success_report.
  rewrite (run_bind _ _ _ _ _ (language_of_run _ _ _ Hl)).
  unfold bind at 1. rewrite config_get_run, Hpath. cbv beta iota.
  unfold bind at 1. unfold read_template at 1, bind at 1, gets at 1. rewrite Hm.
  cbn [ret].
  rewrite (run_bind _ _ _ _ _
             (send_email_run w email _ _ address username password Ha Hu Hp)).
  rewrite Hok.
  set (w1 := set_outbox _ w).
  unfold bind at 1. rewrite config_get_run. cbn [w1 config set_outbox].
  rewrite Hto. cbv beta iota.
  destruct (blank to) eqn:Hb.
  - rewrite run_logger. set (w2 := set_log _ w1).
    rewrite (send_email_run w2 to _ _ address username password Ha Hu Hp), Hok.
    eexists. split; [reflexivity|].
    cbn [outbox log set_outbox set_log w1 w2]. by rewrite <- app_assoc.
  - unfold bind at 1. cbn [ret].
    rewrite (send_email_run w1 to _ _ address username password Ha Hu Hp), Hok.
    eexists. split; [reflexivity|].
    cbn [outbox log set_outbox set_log w1]. by rewrite <- app_assoc, app_nil_r.
Qed.

(** The report of a success (lines 353 to 369, 254 to 273): with the
    mailbox configured, the sender is sent the template of their language,
    the English one when the language option is empty, and then the
    address of the [reports] section is sent the notice of the new file, in
    this order.  When that address is empty the error is logged and the
    notice is sent all the same, to the empty address. *)
Theorem send_success_report_mails (w : world) (email filepath lang path message
    address username password to : string) :
  Config.get (config w) email "language" = Ok lang ->
  Config.get (config w) "reports" ("success_" ++ report_language lang) = Ok path ->
  templates w !! path = Some message ->
  Config.get (config w) "mailbox" "address" = Ok address ->
  Config.get (config w) "mailbox" "username" = Ok username ->
  Config.get (config w) "mailbox" "password" = Ok password ->
  blank address || blank username || blank password = false ->
  Config.get (config w) "reports" "email" = Ok to ->
  exists w',
    send_success_report email filepath w = (Return tt, w') /\
    outbox w' = outbox w ++ [Mail email "Thank you for your email" (Template message);
                             Mail to "New files added" (NewFile email filepath)] /\
    log w' = log w ++ (if blank to then [(ERROR, MissingReportAddress)] else []).
Proof.
  intros Hl Hpath Hm Ha Hu Hp Hok Hto.
  destruct (send_success_report_run w email filepath lang path message address
              username password to Hl Hpath Hm Ha Hu Hp Hok Hto)
    as (w' & Hrun & Hout & Hlog & _).
  by exists w'.
Qed.

Lemma send_success_report_mails_witness :
  exists w',
    send_success_report "a@x.org" "out/AX_6.xml" Ex.office = (Return tt, w') /\
    outbox w' = [Mail "a@x.org" "Thank you for your email" (Template "Thanks");
                 Mail "admin@x.org" "New files added" (NewFile "a@x.org" "out/AX_6.xml")].
Proof.
  destruct (send_success_report_mails Ex.office "a@x.org" "out/AX_6.xml" "en"
              "success.txt" "Thanks" "imap.x.org" "u" "p" "admin@x.org")
    as (w' & Hrun & Hout & _); try (vm_compute; reflexivity).
  exists w'. split; [exact Hrun|]. exact Hout.
Defined.

Lemma send_failure_report_run (w : world) (email lang path message
    address username password : string) (missing_fields : list cell) :
  Config.get (config w) email "language" = Ok lang ->
  Config.get (config w) "reports" ("failure_" ++ report_language lang) = Ok path ->
  templates w !! path = Some message ->
  Config.get (config w) "mailbox" "address" = Ok address ->
  Config.get (config w) "mailbox" "username" = Ok username ->
  Config.get (config w) "mailbox" "password" = Ok password ->
  blank address || blank username || blank password = false ->
  send_failure_report email missing_fields w =
  (Return tt,
   set_outbox (outbox w ++ [Mail email "Missing fields"
                              (TemplateAnd message missing_fields)]) w).
Proof.
  intros Hl Hpath Hm Ha Hu Hp Hok. unfold send_failure_report.
  rewrite (run_bind _ _ _ _ _ (language_of_run _ _ _ Hl)).
  unfold bind at 1. rewrite config_get_run, Hpath. cbv beta iota.
  unfold bind at 1. unfold read_template at 1, bind at 1, gets at 1. rewrite Hm.
  cbn [ret].
  by rewrite (send_email_run w email _ _ address username password Ha Hu Hp), Hok.
Qed.

(** The report of a failure (lines 240 to 251, 254 to 273): with the
    mailbox configured, the sender is sent one mail, the template of their
    language followed by the list of the missing fields; nothing is
    logged. *)
Theorem send_failure_report_mail (w : world) (email lang path message
    address username password : string) (missing_fields : list cell) :
  Config.get (config w) email "language" = Ok lang ->
  Config.get (config w) "reports" ("failure_" ++ report_language lang) = Ok path ->
  templates w !! path = Some message ->
  Config.get (config w) "mailbox" "address" = Ok address ->
  Config.get (config w) "mailbox" "username" = Ok username ->
  Config.get (config w) "mailbox" "password" = Ok password ->
  blank address || blank username || blank password = false ->
  send_failure_report email missing_fields w =
  (Return tt,
   set_outbox (outbox w ++ [Mail email "Missing fields"
                              (TemplateAnd message missing_fields)]) w).
Proof. apply send_failure_report_run. Qed.

Lemma send_failure_report_mail_witness :
  outbox (send_failure_report "a@x.org" [Str "Title *"] Ex.office).2 =
  [Mail "a@x.org" "Missing fields" (TemplateAnd "Missing" [Str "Title *"])].
Proof.
  by rewrite (send_failure_report_mail Ex.office "a@x.org" "en" "failure.txt" "Missing"
                "imap.x.org" "u" "p" [Str "Title *"]) by (vm_compute; reflexivity).
Defined.

(** A report that cannot be sent (lines 240 to 246, 353 to 359): when the
    sender has no language option, or there is no template for their
    language, either report raises before any mail is sent, and the
    world is as it was. *)
Theorem report_raises_unchanged (w : world) (email filepath : string)
    (missing_fields : list cell) :
  (forall lang path,
     Config.get (config w) email "language" = Ok lang ->
     Config.get (config w) "reports" ("success_" ++ report_language lang) = Ok path ->
     templates w !! path = None) ->
  (forall lang path,
     Config.get (config w) email "language" = Ok lang ->
     Config.get (config w) "reports" ("failure_" ++ report_language lang) = Ok path ->
     templates w !! path = None) ->
  (exists e, send_success_report email filepath w = (Throw e, w)) /\
  (exists e, send_failure_report email missing_fields w = (Throw e, w)).
Proof.
  intros Hs Hf. unfold send_success_report, send_failure_report, language_of.
  split.
  - unfold bind at 1. unfold bind at 1. rewrite config_get_run.
    destruct (Config.get (config w) email "language") as [lang|e] eqn:Hl; [|by eexists].
    cbn [ret]. unfold bind at 1. rewrite config_get_run.
    fold (report_language lang).
    destruct (Config.get (config w) "reports" _) as [path|e] eqn:Hp; [|by eexists].
    unfold bind at 1. unfold read_template at 1, bind at 1, gets at 1.
    rewrite (Hs lang path eq_refl Hp). by eexists.
  - unfold bind at 1. unfold bind at 1. rewrite config_get_run.
    destruct (Config.get (config w) email "language") as [lang|e] eqn:Hl; [|by eexists].
    cbn [ret]. unfold bind at 1. rewrite config_get_run.
    fold (report_language lang).
    destruct (Config.get (config w) "reports" _) as [path|e] eqn:Hp; [|by eexists].
    unfold bind at 1. unfold read_template at 1, bind at 1, gets at 1.
    rewrite (Hf lang path eq_refl Hp). by eexists.
Qed.

Lemma report_raises_unchanged_witness :
  let w := World ∅ ∅ ∅ ∅ (templates Ex.office) [] [] Ex.registry_without_language
                 (Config.write Ex.registry_without_language) in
  exists e, send_success_report "a@x.org" "out/AX_6.xml" w = (Throw e, w).
Proof.
  intros w.
  refine (proj1 (report_raises_unchanged w "a@x.org" "out/AX_6.xml" [] _ _));
    intros lang path H; vm_compute in H; discriminate H.
Defined.

End Reports.

(** * The second move of the handler *)

Section Handler.

(** The [except] clause moves the file whatever was raised (lines 205 to
    208).  When the exception comes after the file has left the staging
    area, as from a report that cannot be sent, that move raises in turn:
    the exception leaves the loop, the files that follow in the listing are
    not visited, and the world is the one the [try] body left, with the
    two lines of the handler in the log. *)
Theorem handler_move_raises (attachments : gmap string string) (d : paths)
    (name : string) (rest : list string) (w w1 : world) (e : exn) :
  is_xlsx name = true ->
  attempt attachments d name w = (Throw e, w1) ->
  sandbox_dir w1 !! name = None ->
  process_files attachments d (name :: rest) w =
  (Throw FileNotFoundError,
   set_log (log w1 ++ [(ERROR, FailedToProcess (Text.join (in_path d) name));
                       (ERROR, ErrorArgs e)]) w1).
Proof.
  unfold is_xlsx. intros Hx Hatt Hnone.
  cbn [process_files]. unfold bind at 1. unfold process_file. rewrite Hx.
  unfold bind at 1. unfold try_except. rewrite Hatt.
  rewrite !run_logger. unfold bind at 1. unfold move, bind, gets.
  cbn [sandbox_dir set_log]. rewrite Hnone.
  unfold throw. cbn [log set_log]. by rewrite <- app_assoc.
Qed.

Lemma handler_move_raises_witness :
  let w := World (list_to_map [("AX_6.xlsx"%string, Excel Ex.good_book);
                               ("AX_7.xlsx"%string, Excel Ex.good_book)])
                 ∅ ∅ ∅ (templates Ex.office) [] [] Ex.registry_without_language
                 (Config.write Ex.registry_without_language) in
  (process_files Ex.two_owners Ex.dirs ["AX_6.xlsx"; "AX_7.xlsx"]%string w).1
    = Throw FileNotFoundError.
Proof.
  intros w.
  by rewrite (handler_move_raises Ex.two_owners Ex.dirs "AX_6.xlsx" ["AX_7.xlsx"%string] w
                (attempt Ex.two_owners Ex.dirs "AX_6.xlsx" w).2 NoOptionError)
    by (vm_compute; reflexivity).
Defined.

End Handler.

(** * Element names *)

Section ElementNames.

Lemma word_name_char c : Text.is_word c = true -> Etree.name_char c = true.
Proof. unfold Etree.name_char. by intros ->. Qed.

Lemma word_name_start c :
  Text.is_word c = true -> Etree.name_start c = negb (Text.is_digit c).
Proof. destruct c as [[] [] [] [] [] [] [] []]; vm_compute; congruence. Qed.

Lemma filter_chars_all p s : Text.forallb_chars p (Text.filter_chars p s) = true.
Proof.
  induction s as [|c s IH]; [done|]. cbn [Text.filter_chars].
  destruct (p c) eqn:Hp; [|done]. cbn [Text.forallb_chars]. by rewrite Hp, IH.
Qed.

Lemma valid_tag_word s :
  Text.forallb_chars Text.is_word s = true ->
  Etree.valid_tag s =
  match s with
  | EmptyString => false
  | String c _ => negb (Text.is_digit c)
  end.
Proof.
  destruct s as [|c s]; [done|]. cbn [Text.forallb_chars Etree.valid_tag].
  intros [Hc Hs]%andb_prop.
  rewrite (word_name_start c Hc), (forallb_chars_impl _ _ s word_name_char Hs).
  by rewrite andb_true_r.
Qed.

(** The names the builder makes (lines 289 and 290, 345 to 347): once the
    non-word characters are gone, the element is made unless nothing is
    left of the name or what is left starts with a digit; in these two
    cases, and in no other, the library refuses the name.  This holds for
    the element name of a field and for the name of a term. *)
Theorem sanitized_name_element (s : string) :
  (name ← sanitize (Str s); Etree.Element name) =
    match Text.sub_nonword s with
    | EmptyString => Raise ValueError
    | String c rest =>
        if Text.is_digit c then Raise ValueError
        else Ok (Node (String c rest) NoText [])
    end /\
  (name ← term_name (Str s); Etree.Element name) =
    match normalize_label s with
    | EmptyString => Raise ValueError
    | String c rest =>
        if Text.is_digit c then Raise ValueError
        else Ok (Node (String c rest) NoText [])
    end.
Proof.
  assert (H : forall t,
            Etree.Element (Text.sub_nonword t) =
            match Text.sub_nonword t with
            | EmptyString => Raise ValueError
            | String c rest =>
                if Text.is_digit c then Raise ValueError
                else Ok (Node (String c rest) NoText [])
            end).
  { intros t. unfold Etree.Element.
    rewrite (valid_tag_word (Text.sub_nonword t)) by apply filter_chars_all.
    destruct (Text.sub_nonword t) as [|c rest]; [done|].
    by destruct (Text.is_digit c). }
  split; [apply H|].
  cbn [term_name mbind res_bind]. unfold normalize_label. apply H.
Qed.

End ElementNames.

(** * What the program never takes away *)

Section FramePrinciple.

Context (R : world -> world -> Prop).
Hypothesis R_refl : forall w, R w w.
Hypothesis R_trans : forall w1 w2 w3, R w1 w2 -> R w2 w3 -> R w1 w3.
Hypothesis R_log : forall w l, R w (set_log (log w ++ l) w).
Hypothesis R_output : forall w k v, R w (set_output (<[k := v]> (output_dir w)) w).
Hypothesis R_outbox : forall w m, R w (set_outbox (outbox w ++ [m]) w).
Hypothesis R_move : forall w name f dst,
  sandbox_dir w !! name = Some f -> R w (moved name f dst w).
Hypothesis R_save : forall w name f, R w (set_sandbox (<[name := f]> (sandbox_dir w)) w).
Hypothesis R_config : forall w cfg, R w (set_config cfg w).
Hypothesis R_ini : forall w ini, R w (set_config_ini ini w).



















End FramePrinciple.




(** * The count of attachments *)

Section Counting.

Lemma downloads_app l1 l2 : downloads (l1 ++ l2) = downloads l1 + downloads l2.
Proof. unfold downloads. rewrite issued_of_app, length_app. lia. Qed.

Lemma downloads_download lv s q f l :
  downloads ((lv, Downloaded s q f) :: l) = 1 + downloads l.
Proof.
  unfold downloads, issued_of. cbn [omap list_omap snd]. cbn [length]. lia.
Qed.

Lemma running_total_app l1 : forall c l2,
  running_total c l1 -> running_total (c + downloads l1) l2 ->
  running_total c (l1 ++ l2).
Proof.
  induction l1 as [|[lv e] l1 IH]; intros c l2 H1 H2.
  - by rewrite Z.add_0_r in H2.
  - destruct e; cbn [app running_total] in *;
      try (apply IH; [done|exact H2]).
    + apply IH; [done|].
      rewrite downloads_download in H2. by rewrite <- Z.add_assoc.
    + destruct H1 as [-> H1]. split; [done|]. apply IH; [done|exact H2].
Qed.

Lemma log_update_sequence address seq w :
  log (update_sequence address seq w).2 = log w.
Proof.
  unfold update_sequence, bind, gets, lift, modify.
  by destruct (Config.set (config w) address "sequence" (Text.str_of_int seq)).
Qed.

Lemma walk_parts_count s ps : forall a c w r,
  r = walk_parts s ps a c w ->
  exists new, log r.2 = log w ++ new /\
    (forall c0, running_total c0 new) /\
    (forall a' c', r.1 = Return (a', c') -> c' = c + downloads new).
Proof.
  induction ps as [|part ps IH]; intros a c w r Hr.
  - subst r. exists []. rewrite app_nil_r. split; [done|]. split; [done|].
    cbn [walk_parts ret fst]. intros a' c' [= _ <-]. unfold downloads. simpl. lia.
  - cbn [walk_parts] in Hr.
    destruct (multipart part); [by eapply IH|].
    destruct (content_disposition part); [|by eapply IH].
    assert (Hskip :
      r = (logger DEBUG (NoPayload s) ;; walk_parts s ps a c) w ->
      exists new, log r.2 = log w ++ new /\
        (forall c0, running_total c0 new) /\
        (forall a' c', r.1 = Return (a', c') -> c' = c + downloads new)).
    { clear Hr. intros Hr. rewrite run_logger in Hr.
      destruct (IH _ _ _ _ Hr) as (new & Hlog & Hrun & Hc).
      exists ((DEBUG, NoPayload s) :: new). split.
      { rewrite Hlog. cbn [log set_log]. by rewrite <- app_assoc. }
      split; [intros c0; apply Hrun|]. exact Hc. }
    assert (Hdown : forall data,
      r = (sf <- save_attachment s data ;;
           let '(seq, filename) := sf in
           logger INFO (Downloaded s seq filename) ;;
           update_sequence s seq ;;
           walk_parts s ps (<[filename := s]> a) (c + 1)) w ->
      exists new, log r.2 = log w ++ new /\
        (forall c0, running_total c0 new) /\
        (forall a' c', r.1 = Return (a', c') -> c' = c + downloads new)).
    { clear Hr Hskip. intros data Hr.
      assert (Hnone : forall e, r = (Throw e, w) ->
        exists new, log r.2 = log w ++ new /\
          (forall c0, running_total c0 new) /\
          (forall a' c', r.1 = Return (a', c') -> c' = c + downloads new)).
      { intros e ->. exists []. by rewrite app_nil_r. }
      unfold bind at 1 in Hr. rewrite save_attachment_run in Hr.
      destruct (Config.get (config w) "DEFAULT" "sandbox") as [sandbox|e];
        [|by eapply Hnone].
      destruct (Config.get (config w) s "code") as [code|e]; [|by eapply Hnone].
      destruct (next_of (config w) s) as [seq|e]; [|by eapply Hnone].
      cbv beta iota in Hr. rewrite run_logger in Hr.
      set (w2 := set_log _ _) in Hr. unfold bind at 1 in Hr.
      pose proof (log_update_sequence s seq w2) as Hlog3.
      destruct (update_sequence s seq w2) as [[[]|e] w3]; cbn [snd] in Hlog3.
      - destruct (IH _ _ _ _ Hr) as (new & Hlog & Hrun & Hc).
        exists ((INFO, Downloaded s seq (Text.join sandbox (attachment_name code seq)))
                  :: new).
        split.
        { rewrite Hlog, Hlog3. cbn [w2 log set_log set_sandbox]. by rewrite <- app_assoc. }
        split; [intros c0; apply Hrun|].
        intros a' c' Hret. rewrite (Hc a' c' Hret), downloads_download. lia.
      - subst r. cbn [fst snd]. rewrite Hlog3.
        exists [(INFO, Downloaded s seq (Text.join sandbox (attachment_name code seq)))].
        split; [done|]. split; done. }
    destruct (payload part) as [[[|ch raw]|wb]|];
      first [ by apply Hskip | by eapply Hdown ].
Qed.

Lemma fetch_loop_count msgs : forall a c w,
  exists new, log (fetch_loop msgs a c w).2 = log w ++ new /\ running_total c new.
Proof.
  induction msgs as [|msg msgs IH]; intros a c w.
  - exists []. by rewrite app_nil_r.
  - cbn [fetch_loop]. rewrite run_logger. unfold bind at 1, gets at 1.
    set (w1 := set_log _ w). set (s := Text.sub_angle (return_path msg)).
    destruct (negb _).
    + rewrite run_logger. destruct (IH a c (set_log (log w1 ++ [(INFO, UnknownSender s)]) w1))
        as (new & -> & Hrun).
      exists ((DEBUG, MessageFrom s) :: (INFO, UnknownSender s) :: new).
      split; [cbn [w1 log set_log]; by rewrite <- !app_assoc | done].
    + unfold bind at 1.
      destruct (walk_parts_count s (parts msg) a c w1 _ eq_refl) as (new1 & Hlog1 & Hrun1 & Hc1).
      destruct (walk_parts s (parts msg) a c w1) as [[[a1 c1]|e] w2];
        cbn [fst snd] in Hlog1, Hc1.
      * rewrite run_logger. rewrite (Hc1 a1 c1 eq_refl).
        destruct (IH a1 (c + downloads new1)
                    (set_log (log w2 ++ [(INFO, DownloadedCount (c + downloads new1))]) w2))
          as (new & -> & Hrun).
        exists (((DEBUG, MessageFrom s) :: new1)
                  ++ (INFO, DownloadedCount (c + downloads new1)) :: new).
        split.
        { cbn [log set_log]. rewrite Hlog1. cbn [w1 log set_log].
          rewrite <- !app_assoc. done. }
        apply running_total_app; [apply Hrun1|].
        replace (downloads ((DEBUG, MessageFrom s) :: new1)) with (downloads new1)
          by done.
        split; [done | exact Hrun].
      * exists ((DEBUG, MessageFrom s) :: new1). split.
        { cbn [snd]. rewrite Hlog1. cbn [w1 log set_log]. by rewrite <- app_assoc. }
        apply Hrun1.
Qed.

(** The count that is logged (lines 72, 108 and 110): the counter is set
    once, before the loop over the messages, so the number logged after
    each message is the number of the attachments downloaded since the run
    began, over all the messages so far, not that of the message.  This
    holds for every line the intake adds to the log, however it ends. *)
Theorem intake_counts_running_total (unseen : list message) (w : world) :
  exists new, log (intake unseen w).2 = log w ++ new /\ running_total 0 new.
Proof.
  remember (intake unseen w) as r eqn:Hr.
  assert (Hnone : forall e w1, log w1 = log w -> r = (Throw e, w1) ->
            exists new, log r.2 = log w ++ new /\ running_total 0 new).
  { intros e w1 Hlog ->. exists []. by rewrite app_nil_r. }
  unfold intake in Hr. unfold bind at 1, gets at 1 in Hr. unfold bind at 1 in Hr.
  destruct (Config.read (config_ini w)) as [cfg|e];
    [|unfold lift, throw in Hr; eapply Hnone; [|exact Hr]; reflexivity].
  cbn [lift ret] in Hr. unfold bind at 1 in Hr. cbn [modify] in Hr.
  set (w1 := set_config cfg w) in Hr. unfold get_data_from_mailbox in Hr.
  unfold bind at 1 in Hr. rewrite config_get_run in Hr.
  destruct (Config.get (config w1) "mailbox" "address"); [|eapply Hnone; [|exact Hr]; reflexivity].
  unfold bind at 1 in Hr. rewrite config_get_run in Hr.
  destruct (Config.get (config w1) "mailbox" "username"); [|eapply Hnone; [|exact Hr]; reflexivity].
  unfold bind at 1 in Hr. rewrite config_get_run in Hr.
  destruct (Config.get (config w1) "mailbox" "password"); [|eapply Hnone; [|exact Hr]; reflexivity].
  destruct (blank _ || blank _ || blank _).
  - rewrite run_logger in Hr. subst r. by exists [(ERROR, InvalidMailbox)].
  - unfold bind at 1 in Hr.
    destruct (fetch_loop_count unseen ∅ 0 w1) as (new & Hlog & Hrun).
    destruct (fetch_loop unseen ∅ 0 w1) as [[att|e] w2]; subst r; by exists new.
Qed.

End Counting.

(** * The documents of terms of a file *)

Section TermsDocuments.

Context (name path : string).

Lemma written_cons d docs w :
  written (d :: docs) w =
  written docs (set_output (<[d.1 := d.2]> (output_dir w))
                  (set_log (log w ++ [(DEBUG, SaveXml d.1)]) w)).
Proof. reflexivity. Qed.

Lemma process_terms_loop_written sheets : forall docs rest w,
  Forall2 (fun sh d => terms_document name path sh.2 = Ok d) sheets docs ->
  process_terms_loop (sheets ++ rest) name path w =
  process_terms_loop rest name path (written docs w).
Proof.
  induction sheets as [|[sn sh] sheets IH]; intros docs rest w Hdocs.
  - by apply Forall2_nil_inv_l in Hdocs as ->.
  - apply Forall2_cons_inv_l in Hdocs as (d & docs' & Hd & Hdocs & ->).
    cbn [app process_terms_loop]. unfold terms_document in Hd. cbn [snd] in Hd.
    destruct (el_name_of (Pandas.of_sheet sh)) as [el_name|e]; [|done].
    cbn [mbind res_bind] in Hd. cbn [lift]. unfold bind at 1. cbn [ret].
    destruct (terms_to_xml (Pandas.of_sheet sh) el_name) as [xml|e]; [|done].
    cbn [mbind res_bind] in Hd. injection Hd as <-.
    cbn [lift]. unfold bind at 1. cbn [ret].
    unfold bind at 1. unfold save_xml at 1. rewrite run_logger.
    cbn [modify]. by rewrite (IH docs' rest), written_cons.
Qed.

Lemma last_at_cons p d docs :
  last_at p (d :: docs) =
  match last_at p docs with
  | Some x => Some x
  | None => if decide (d.1 = p) then Some d.2 else None
  end.
Proof.
  unfold last_at. rewrite filter_cons.
  destruct (decide (d.1 = p)); [|by destruct (last _)].
  destruct (filter _ docs) as [|d' l] eqn:Hf; [done|].
  rewrite last_cons. by destruct (last (d' :: l)) eqn:Hl.
Qed.

Lemma written_lookup p docs : forall w,
  output_dir (written docs w) !! p =
  match last_at p docs with
  | Some xml => Some xml
  | None => output_dir w !! p
  end.
Proof.
  induction docs as [|d docs IH]; intros w; [done|].
  rewrite written_cons, IH, last_at_cons.
  destruct (last_at p docs); [done|]. cbn [output_dir set_output].
  destruct (decide (d.1 = p)) as [<-|Hne];
    [by rewrite lookup_insert_eq | by rewrite lookup_insert_ne].
Qed.

Lemma written_passive docs : forall w, passive w (written docs w).
Proof.
  induction docs as [|d docs IH]; intros w; [apply passive_refl|].
  rewrite written_cons.
  eapply passive_trans; [|apply IH].
  repeat split. exists [(DEBUG, SaveXml d.1)]. split; [done|]. by repeat constructor.
Qed.

Lemma process_terms_run (wb : workbook) (docs : list (string * element)) (w : world) :
  sandbox_dir w !! name = Some (Excel wb) ->
  Forall2 (fun sh d => terms_document name path sh.2 = Ok d) (tail wb) docs ->
  process_terms name path w = (Return tt, written docs w).
Proof.
  intros Hf Hdocs.
  unfold process_terms. unfold bind at 1. unfold open_excel, bind at 1, gets at 1.
  rewrite Hf. cbn [ret].
  rewrite <- (app_nil_r (tail wb)).
  by rewrite (process_terms_loop_written (tail wb) docs [] w Hdocs).
Qed.

Lemma written_outbox docs : forall w, outbox (written docs w) = outbox w.
Proof.
  induction docs as [|d docs IH]; intros w; [done|]. by rewrite written_cons, IH.
Qed.

(** The documents of terms of one file (lines 317 to 330): the first
    sheet, whatever it is, gives none; every sheet after it gives one, in
    the order of the workbook, under the path made of the base of the file
    name and the element name of the sheet.  Two sheets with the same
    element name share the path, and the document of the later one is the
    one that is left.  No file moves and no mail is sent. *)
Theorem process_terms_documents (wb : workbook) (docs : list (string * element))
    (w : world) :
  sandbox_dir w !! name = Some (Excel wb) ->
  Forall2 (fun sh d => terms_document name path sh.2 = Ok d) (tail wb) docs ->
  exists w',
    process_terms name path w = (Return tt, w') /\
    passive w w' /\ outbox w' = outbox w /\
    forall p, output_dir w' !! p =
              match last_at p docs with
              | Some xml => Some xml
              | None => output_dir w !! p
              end.
Proof.
  intros Hf Hdocs. exists (written docs w).
  split; [by apply (process_terms_run wb)|].
  split; [apply written_passive|].
  split; [apply written_outbox | intros p; apply written_lookup].
Qed.

(** A sheet of terms that cannot be built (lines 317 to 330): the
    exception leaves [process_terms] at that sheet; the documents of the
    sheets before it have been written and stay, those of the sheets after
    it are not made. *)
Theorem process_terms_stops (wb : workbook) (before_ : list (string * sheet))
    (sn : string) (sh : sheet) (after_ : list (string * sheet))
    (docs : list (string * element)) (e : exn) (w : world) :
  sandbox_dir w !! name = Some (Excel wb) ->
  tail wb = before_ ++ (sn, sh) :: after_ ->
  Forall2 (fun sh d => terms_document name path sh.2 = Ok d) before_ docs ->
  terms_document name path sh = Raise e ->
  process_terms name path w = (Throw e, written docs w).
Proof.
  intros Hf Htail Hdocs Hsh.
  unfold process_terms. unfold bind at 1. unfold open_excel, bind at 1, gets at 1.
  rewrite Hf. cbn [ret]. rewrite Htail.
  rewrite (process_terms_loop_written before_ docs _ w Hdocs).
  cbn [process_terms_loop]. unfold terms_document in Hsh.
  destruct (el_name_of (Pandas.of_sheet sh)) as [el_name|e1].
  - cbn [mbind res_bind] in Hsh. cbn [lift]. unfold bind at 1. cbn [ret].
    destruct (terms_to_xml (Pandas.of_sheet sh) el_name) as [xml|e2]; [done|].
    cbn [mbind res_bind] in Hsh. injection Hsh as ->. done.
  - cbn [mbind res_bind] in Hsh. injection Hsh as ->. done.
Qed.

End TermsDocuments.

Lemma process_terms_documents_witness :
  exists w',
    process_terms "AX_6.xlsx" "out"
      (Ex.staged [("AX_6.xlsx"%string, Excel Ex.good_book)]) = (Return tt, w') /\
    is_Some (output_dir w' !! "out/AX_6_subject_terms.xml"%string).
Proof.
  destruct (process_terms_documents "AX_6.xlsx" "out" Ex.good_book
              [("out/AX_6_subject_terms.xml"%string,
                match terms_to_xml (Pandas.of_sheet Ex.terms_sheet) "subject_terms" with
                | Ok xml => xml
                | Raise _ => Node "" NoText []
                end)]
              (Ex.staged [("AX_6.xlsx"%string, Excel Ex.good_book)]))
    as (w' & Hrun & _ & _ & Hout).
  - vm_compute. reflexivity.
  - repeat constructor.
  - exists w'. split; [exact Hrun|].
    rewrite Hout. vm_compute. eexists. reflexivity.
Defined.

Lemma process_terms_stops_witness :
  (process_terms "AX_6.xlsx" "out"
     (Ex.staged [("AX_6.xlsx"%string, Excel Ex.broken_terms_book)])).1
  = Throw TypeError.
Proof.
  erewrite (process_terms_stops "AX_6.xlsx" "out" Ex.broken_terms_book
              [("subjects"%string, Ex.terms_sheet)] "places"
              (Sheet ["Places: list"%string] [ [Str "Place"]; [Int 12] ]) []
              [("out/AX_6_subject_terms.xml"%string,
                match terms_to_xml (Pandas.of_sheet Ex.terms_sheet) "subject_terms" with
                | Ok xml => xml
                | Raise _ => Node "" NoText []
                end)] TypeError).
  - reflexivity.
  - vm_compute. reflexivity.
  - reflexivity.
  - repeat constructor.
  - vm_compute. reflexivity.
Defined.

(** * The directories *)

Section Directories.

Context (above : string -> gset string) (cfg : Config.t).

Lemma path_exists_spec fs p :
  path_exists fs p = true <-> p <> ""%string /\ p ∈ fs.
Proof.
  unfold path_exists. rewrite andb_true_iff, negb_true_iff, String.eqb_neq.
  by rewrite bool_decide_eq_true.
Qed.

Lemma prepare_dir_cases k fs :
  (exists e, (forall p, ~ names_directory cfg k p) /\
             prepare_dir above cfg k fs = (Throw e, fs)) \/
  (exists p fs', names_directory cfg k p /\
                 prepare_dir above cfg k fs = (Return tt, fs') /\
                 fs ⊆ fs' /\ p ∈ fs' /\ (p ∈ fs -> fs' = fs)).
Proof.
  unfold prepare_dir, names_directory.
  destruct (Config.get cfg "DEFAULT" k) as [p|e].
  2:{ left. exists e. split; [by intros p [? _]|done]. }
  destruct (path_exists fs p) eqn:Hex; cbn [negb].
  - apply path_exists_spec in Hex as [Hne Hin]. right. by exists p, fs.
  - unfold makedirs. destruct (String.eqb p "") eqn:Hp.
    + apply String.eqb_eq in Hp as ->. left. exists FileNotFoundError.
      split; [|done]. by intros p [[= <-] Hne].
    + apply String.eqb_neq in Hp. right. exists p, ({[p]} ∪ above p ∪ fs).
      split; [done|]. split; [done|]. split; [apply union_subseteq_r|].
      split; [by apply elem_of_union_l, elem_of_union_l, elem_of_singleton|].
      intros Hin. assert (path_exists fs p = true) by (by apply path_exists_spec).
      congruence.
Qed.

Lemma prepare_dir_there k p fs :
  names_directory cfg k p -> p ∈ fs ->
  prepare_dir above cfg k fs = (Return tt, fs).
Proof.
  intros [Hget Hne] Hin. unfold prepare_dir. rewrite Hget.
  assert (H : path_exists fs p = true) by (by apply path_exists_spec).
  by rewrite H.
Qed.

Lemma prepare_facts (fs : gset string) :
  fs ⊆ (prepare above cfg fs).2 /\
  ((prepare above cfg fs).1 = Return tt <->
   forall k, k ∈ directory_options -> exists p, names_directory cfg k p) /\
  ((prepare above cfg fs).1 = Return tt ->
   (forall k p, k ∈ directory_options -> names_directory cfg k p ->
                p ∈ (prepare above cfg fs).2) /\
   prepare above cfg (prepare above cfg fs).2 = (Return tt, (prepare above cfg fs).2)).
Proof.
  remember (prepare above cfg fs) as r eqn:Hr. unfold prepare in Hr.
  assert (Hbad : forall k, k ∈ directory_options ->
            (forall p, ~ names_directory cfg k p) ->
            ~ (forall k, k ∈ directory_options -> exists p, names_directory cfg k p)).
  { intros k Hk Hno Hall. destruct (Hall k Hk) as [p Hp]. by apply (Hno p). }
  assert (Hin : forall k, k ∈ directory_options <->
            k = "error"%string \/ k = "output"%string \/ k = "sandbox"%string
            \/ k = "success"%string).
  { intros k. unfold directory_options.
    rewrite !elem_of_cons, elem_of_nil. tauto. }
  destruct (prepare_dir_cases "error" fs)
    as [(e & Hno & H1)|(p1 & fs1 & Hn1 & H1 & Hs1 & Hp1 & Hi1)];
    rewrite H1 in Hr; cbn [and_then] in Hr.
  { subst r. split; [done|]. split; [|done].
    split; [done|]. intros Hall. exfalso. eapply (Hbad "error"); [apply Hin|..]; eauto. }
  destruct (prepare_dir_cases "output" fs1)
    as [(e & Hno & H2)|(p2 & fs2 & Hn2 & H2 & Hs2 & Hp2 & Hi2)];
    rewrite H2 in Hr; cbn [and_then] in Hr.
  { subst r. split; [done|]. split; [|done].
    split; [done|]. intros Hall. exfalso. eapply (Hbad "output"); [apply Hin|..]; eauto. }
  destruct (prepare_dir_cases "sandbox" fs2)
    as [(e & Hno & H3)|(p3 & fs3 & Hn3 & H3 & Hs3 & Hp3 & Hi3)];
    rewrite H3 in Hr; cbn [and_then] in Hr.
  { subst r. split; [cbn [snd]; by etrans|]. split; [|done].
    split; [done|]. intros Hall. exfalso. eapply (Hbad "sandbox"); [apply Hin|..]; eauto. }
  destruct (prepare_dir_cases "success" fs3)
    as [(e & Hno & H4)|(p4 & fs4 & Hn4 & H4 & Hs4 & Hp4 & Hi4)];
    rewrite H4 in Hr.
  { subst r. split; [cbn [snd]; etrans; [exact Hs1|by etrans]|]. split; [|done].
    split; [done|]. intros Hall. exfalso. eapply (Hbad "success"); [apply Hin|..]; eauto. }
  subst r. cbn [fst snd].
  split; [etrans; [exact Hs1|]; etrans; [exact Hs2|]; by etrans|]. split.
  { split; [|done]. intros _ k [->|[->|[->| ->]]]%Hin; eauto. }
  intros _.
  assert (Hthere : forall k p, k ∈ directory_options -> names_directory cfg k p -> p ∈ fs4).
  { intros k p Hk [Hget Hne]. apply Hin in Hk as [->|[->|[->| ->]]].
    - destruct Hn1 as [Hg _]. rewrite Hg in Hget. injection Hget as <-.
      by apply Hs4, Hs3, Hs2.
    - destruct Hn2 as [Hg _]. rewrite Hg in Hget. injection Hget as <-.
      by apply Hs4, Hs3.
    - destruct Hn3 as [Hg _]. rewrite Hg in Hget. injection Hget as <-.
      by apply Hs4.
    - destruct Hn4 as [Hg _]. rewrite Hg in Hget. by injection Hget as <-. }
  split; [exact Hthere|].
  unfold prepare.
  rewrite (prepare_dir_there "error" p1 fs4 Hn1)
    by (apply (Hthere "error"%string); [apply Hin; auto | done]).
  cbn [and_then].
  rewrite (prepare_dir_there "output" p2 fs4 Hn2)
    by (apply (Hthere "output"%string); [apply Hin; auto | done]).
  cbn [and_then].
  rewrite (prepare_dir_there "sandbox" p3 fs4 Hn3)
    by (apply (Hthere "sandbox"%string); [apply Hin; auto | done]).
  cbn [and_then].
  by rewrite (prepare_dir_there "success" p4 fs4 Hn4)
    by (apply (Hthere "success"%string); [apply Hin; auto | done]).
Qed.

(** [prepare] (lines 34 to 45), on the set of the paths that exist: it
    returns exactly when each of the four options [error], [output],
    [sandbox] and [success] exists and is not empty; however it ends no
    path that existed is lost; and when it returns the four directories
    exist, and a second [prepare] changes nothing. *)
Theorem prepare_directories (fs : gset string) :
  fs ⊆ (prepare above cfg fs).2 /\
  ((prepare above cfg fs).1 = Return tt <->
   forall k, k ∈ directory_options -> exists p, names_directory cfg k p) /\
  ((prepare above cfg fs).1 = Return tt ->
   (forall k p, k ∈ directory_options -> names_directory cfg k p ->
                p ∈ (prepare above cfg fs).2) /\
   prepare above cfg (prepare above cfg fs).2 = (Return tt, (prepare above cfg fs).2)).
Proof. apply prepare_facts. Qed.

End Directories.

(** * The program *)

Section Program.

Context (above : string -> gset string).

Lemma main_after_read unseen w cfg :
  Config.read (config_ini w) = Ok cfg ->
  main unseen w =
  (attachments <- get_data_from_mailbox unseen ;; process_attachments attachments)
    (set_config cfg w).
Proof.
  intros Hread. unfold main, intake.
  unfold bind at 1. unfold bind at 1, gets at 1. unfold bind at 1.
  rewrite Hread. cbn [lift ret]. unfold bind at 1. cbn [modify].
  reflexivity.
Qed.

(** A run with nothing downloaded (lines 372 to 391, with 55 to 57, 85 to
    87 and 153 to 155): when every unread message comes from a sender
    outside the registry, among them when there is none, the program
    moves no file, writes no document, sends no mail and stores no number,
    whatever lies in the staging area, and no path that existed is lost,
    however the run ends.  When the options of the four directories and of
    the mailbox exist, the directories not empty, the run returns, with
    the log saying that no attachments were found. *)
Theorem processor_nothing_downloaded (unseen : list message) (fs : gset string)
    (w : world) (cfg : Config.t) :
  Config.read (config_ini w) = Ok cfg ->
  Forall (unknown cfg) unseen ->
  untouched w (processor above unseen fs w).2.2 /\
  fs ⊆ (processor above unseen fs w).2.1 /\
  (forall address username password,
     (forall k, k ∈ directory_options -> exists p, names_directory cfg k p) ->
     Config.get cfg "mailbox" "address" = Ok address ->
     Config.get cfg "mailbox" "username" = Ok username ->
     Config.get cfg "mailbox" "password" = Ok password ->
     (processor above unseen fs w).1 = Return tt /\
     (INFO, NoAttachments) ∈ log (processor above unseen fs w).2.2).
Proof.
  intros Hread Hall.
  destruct (main_unknown_senders unseen w cfg Hread Hall) as [Hun Hret].
  destruct (prepare_facts above cfg fs) as (Hsub & Hiff & _).
  remember (processor above unseen fs w) as r eqn:Hr.
  unfold processor in Hr. rewrite Hread in Hr. cbv zeta in Hr.
  rewrite <- (main_after_read unseen w cfg Hread) in Hr.
  destruct (prepare above cfg fs) as [[[]|e] fs'] eqn:Hprep; cbn [fst snd] in *.
  - destruct (main unseen w) as [o w'] eqn:Hmain. subst r. cbn [fst snd] in *.
    split; [exact Hun|]. split; [exact Hsub|].
    intros address username password _. apply Hret.
  - subst r. cbn [fst snd]. split; [done|]. split; [exact Hsub|].
    intros address username password Hdirs _ _ _.
    apply Hiff in Hdirs. discriminate Hdirs.
Qed.

End Program.

Lemma processor_nothing_downloaded_witness :
  let w := Ex.staged [("AX_6.xlsx"%string, Excel Ex.good_book)] in
  let r := processor (fun _ => ∅) [Ex.unknown_message] ∅ w in
  untouched w r.2.2 /\ r.1 = Return tt.
Proof.
  intros w r.
  destruct (processor_nothing_downloaded (fun _ => ∅) [Ex.unknown_message] ∅ w
              Ex.registry) as (H1 & _ & H2).
  - vm_compute. reflexivity.
  - constructor; [vm_compute; reflexivity | constructor].
  - split; [exact H1|].
    destruct (H2 "imap.x.org" "u" "p")%string as [H _];
      [|vm_compute; reflexivity ..|exact H].
    intros k Hk. unfold directory_options in Hk.
    repeat (apply elem_of_cons in Hk as [->|Hk]);
      [eexists; split; [vm_compute; reflexivity | discriminate] ..|].
    by apply elem_of_nil in Hk.
Defined.

(** * One file, from the staging area to its documents *)

Section WholeFile.

Context (attachments : gmap string string) (d : paths) (name email : string)
        (wb : workbook) (r : DataFrame) (w : world).

Hypothesis Hxlsx : is_xlsx name = true.
Hypothesis Hown : attachments !! Text.join (in_path d) name = Some email.
Hypothesis Hstaged : sandbox_dir w !! name = Some (Excel wb).
Hypothesis Hclean : clean_collection wb = Ok r.

Lemma attempt_extracted :
  attempt attachments d name w =
  (let w0 := set_log (log w ++ [(INFO, Processing (Text.join (in_path d) name))]) w in
   (missing_fields <- lift (get_missing_fields r) ;;
    match missing_fields with
    | _ :: _ =>
        logger WARNING (MissingFields (Text.join (in_path d) name) missing_fields) ;;
        move name Error ;;
        logger INFO (SendingFailureReport email) ;;
        send_failure_report email missing_fields ;;
        ret false
    | [] =>
        let collection_filename :=
          Text.join (out_path d) ((Text.splitext name).1 ++ ".xml") in
        process_collection r collection_filename ;;
        process_terms name (out_path d) ;;
        move name Success ;;
        send_success_report email collection_filename ;;
        ret true
    end) w0).
Proof.
  unfold attempt. rewrite run_logger, Hown.
  unfold bind at 1. unfold bind at 1. unfold open_excel at 1.
  unfold bind at 1, gets at 1. cbn [sandbox_dir set_log]. rewrite Hstaged.
  cbn [ret]. by rewrite Hclean.
Qed.

Lemma process_file_attempt b w1 :
  attempt attachments d name w = (Return b, w1) ->
  process_file attachments d name w =
  (Return tt,
   if b then set_log (log w1 ++ [(INFO, Processed (Text.join (in_path d) name))]) w1
   else w1).
Proof.
  intros Hatt. unfold process_file. unfold is_xlsx in Hxlsx. rewrite Hxlsx.
  unfold bind at 1. unfold try_except. rewrite Hatt. by destruct b.
Qed.

(** A file that passes (lines 164 to 204, 210): a staged spreadsheet with
    a known sender whose record has no missing field and whose documents
    can all be built ends in the success area; the output area gains the
    primary document, under the base name of the file, and the documents
    of terms; the sender is thanked and the address of the [reports]
    section is told of the new file; and the log says the file was
    processed. *)
Theorem process_file_success (xml : element) (docs : list (string * element))
    (lang path message address username password to : string) :
  get_missing_fields r = Ok [] ->
  collection_to_xml r = Ok xml ->
  Forall2 (fun sh doc => terms_document name (out_path d) sh.2 = Ok doc) (tail wb) docs ->
  Config.get (config w) email "language" = Ok lang ->
  Config.get (config w) "reports" ("success_" ++ report_language lang) = Ok path ->
  templates w !! path = Some message ->
  Config.get (config w) "mailbox" "address" = Ok address ->
  Config.get (config w) "mailbox" "username" = Ok username ->
  Config.get (config w) "mailbox" "password" = Ok password ->
  blank address || blank username || blank password = false ->
  Config.get (config w) "reports" "email" = Ok to ->
  let primary := Text.join (out_path d) ((Text.splitext name).1 ++ ".xml") in
  exists w',
    process_file attachments d name w = (Return tt, w') /\
    sandbox_dir w' = delete name (sandbox_dir w) /\
    success_dir w' = <[name := Excel wb]> (success_dir w) /\
    error_dir w' = error_dir w /\
    (forall p, output_dir w' !! p =
               match last_at p docs with
               | Some doc => Some doc
               | None => <[primary := xml]> (output_dir w) !! p
               end) /\
    outbox w' = outbox w ++ [Mail email "Thank you for your email" (Template message);
                             Mail to "New files added" (NewFile email primary)] /\
    (INFO, Processed (Text.join (in_path d) name)) ∈ log w'.
Proof.
  intros Hmissing Hxml Hdocs Hl Hpath Hm Ha Hu Hp Hok Hto primary.
  pose proof attempt_extracted as Hatt. cbv zeta in Hatt. fold primary in Hatt.
  rewrite Hmissing in Hatt. cbn [lift] in Hatt. unfold bind at 1 in Hatt.
  cbn [ret] in Hatt.
  set (w0 := set_log _ w) in Hatt.
  (* the primary document *)
  unfold bind at 1 in Hatt. unfold process_collection at 1 in Hatt.
  rewrite Hxml in Hatt. cbn [lift] in Hatt. unfold bind at 1 in Hatt. cbn [ret] in Hatt.
  unfold save_xml at 1 in Hatt. rewrite run_logger in Hatt. cbn [modify] in Hatt.
  set (w1 := set_output _ _) in Hatt.
  (* the documents of terms *)
  unfold bind at 1 in Hatt.
  rewrite (process_terms_run name (out_path d) wb docs w1 Hstaged Hdocs) in Hatt.
  set (w2 := written docs w1) in Hatt.
  assert (Hp2 : passive w1 w2) by apply written_passive.
  destruct Hp2 as ((Hc2 & _ & Ht2 & _) & Hs2 & Hsu2 & He2).
  (* routing *)
  assert (Hf2 : sandbox_dir w2 !! name = Some (Excel wb)) by (by rewrite Hs2).
  rewrite (run_bind _ _ _ _ _ (move_eq w2 name _ Success Hf2)) in Hatt.
  set (w3 := moved name (Excel wb) Success w2) in Hatt.
  (* the reports *)
  destruct (send_success_report_run w3 email primary lang path message address
              username password to) as (w4 & Hrun & Hout & Hlog & Hs4 & Hsu4 & He4 & Ho4);
    try (cbn [w3 moved config templates set_sandbox set_success]; rewrite ?Hc2, ?Ht2; done).
  rewrite (run_bind _ _ _ _ _ Hrun) in Hatt. cbn [ret] in Hatt.
  eexists. split; [exact (process_file_attempt true w4 Hatt)|].
  cbn [sandbox_dir success_dir error_dir output_dir outbox log set_log].
  rewrite Hs4, Hsu4, He4, Ho4, Hout.
  cbn [w3 moved sandbox_dir success_dir error_dir output_dir outbox
       set_sandbox set_success].
  rewrite Hs2, Hsu2, He2. unfold w2. rewrite written_outbox.
  split; [done|]. split; [done|]. split; [done|]. split.
  { intros p. by rewrite written_lookup. }
  split; [done|]. apply elem_of_app. right. by apply list_elem_of_singleton.
Qed.

(** A file with missing fields (lines 183 to 192): a staged spreadsheet
    with a known sender whose record lacks a required value ends in the
    error area; no document is written for it; the sender is sent the one
    mail that lists the missing fields; and, the loop going on at once to
    the next file, the log does not say that the file was processed. *)
Theorem process_file_missing_fields (c : cell) (missing : list cell)
    (lang path message address username password : string) :
  get_missing_fields r = Ok (c :: missing) ->
  Config.get (config w) email "language" = Ok lang ->
  Config.get (config w) "reports" ("failure_" ++ report_language lang) = Ok path ->
  templates w !! path = Some message ->
  Config.get (config w) "mailbox" "address" = Ok address ->
  Config.get (config w) "mailbox" "username" = Ok username ->
  Config.get (config w) "mailbox" "password" = Ok password ->
  blank address || blank username || blank password = false ->
  exists w',
    process_file attachments d name w = (Return tt, w') /\
    sandbox_dir w' = delete name (sandbox_dir w) /\
    error_dir w' = <[name := Excel wb]> (error_dir w) /\
    success_dir w' = success_dir w /\
    output_dir w' = output_dir w /\
    outbox w' = outbox w ++ [Mail email "Missing fields"
                               (TemplateAnd message (c :: missing))] /\
    log w' = log w ++ [(INFO, Processing (Text.join (in_path d) name));
                       (WARNING, MissingFields (Text.join (in_path d) name) (c :: missing));
                       (INFO, SendingFailureReport email)].
Proof.
  intros Hmissing Hl Hpath Hm Ha Hu Hp Hok.
  pose proof attempt_extracted as Hatt. cbv zeta in Hatt.
  rewrite Hmissing in Hatt. cbn [lift] in Hatt. unfold bind at 1 in Hatt.
  cbn [ret] in Hatt.
  set (w0 := set_log _ w) in Hatt.
  rewrite run_logger in Hatt. set (w1 := set_log _ w0) in Hatt.
  assert (Hf1 : sandbox_dir w1 !! name = Some (Excel wb)) by exact Hstaged.
  rewrite (run_bind _ _ _ _ _ (move_eq w1 name _ Error Hf1)) in Hatt.
  rewrite run_logger in Hatt. set (w3 := set_log _ (moved _ _ _ _)) in Hatt.
  rewrite (run_bind _ _ _ _ _
             (send_failure_report_run w3 email lang path message address username
                password (c :: missing) Hl Hpath Hm Ha Hu Hp Hok)) in Hatt.
  cbn [ret] in Hatt.
  eexists. split; [exact (process_file_attempt false _ Hatt)|].
  cbn [w3 w1 w0 moved sandbox_dir success_dir error_dir output_dir outbox log
       set_sandbox set_error set_log set_outbox].
  repeat split. by rewrite <- !app_assoc.
Qed.

End WholeFile.

Lemma process_file_success_witness :
  exists w',
    process_file Ex.owners Ex.dirs "AX_6.xlsx"
      (Ex.staged [("AX_6.xlsx"%string, Excel Ex.good_book)]) = (Return tt, w') /\
    success_dir w' = {[ "AX_6.xlsx"%string := Excel Ex.good_book ]} /\
    length (outbox w') = 2%nat.
Proof.
  destruct (process_file_success Ex.owners Ex.dirs "AX_6.xlsx" "a@x.org" Ex.good_book
              Ex.title_record (Ex.staged [("AX_6.xlsx"%string, Excel Ex.good_book)])
              eq_refl eq_refl eq_refl eq_refl
              (Node "collection" NoText
                 [Node "title" NoText [Node "p" (Plain "Kano chronicle") []]])
              [("out/AX_6_subject_terms.xml"%string,
                match terms_to_xml (Pandas.of_sheet Ex.terms_sheet) "subject_terms" with
                | Ok xml => xml
                | Raise _ => Node "" NoText []
                end)]
              "en" "success.txt" "Thanks" "imap.x.org" "u" "p" "admin@x.org")
    as (w' & Hrun & _ & Hsucc & _ & _ & Hout & _);
    try (vm_compute; reflexivity).
  - repeat constructor.
  - exists w'. split; [exact Hrun|]. split; [by rewrite Hsucc|]. by rewrite Hout.
Defined.

Lemma process_file_missing_fields_witness :
  exists w',
    process_file Ex.owners Ex.dirs "AX_6.xlsx"
      (Ex.staged [("AX_6.xlsx"%string, Excel Ex.untitled_book)]) = (Return tt, w') /\
    error_dir w' = {[ "AX_6.xlsx"%string := Excel Ex.untitled_book ]} /\
    output_dir w' = ∅.
Proof.
  destruct (process_file_missing_fields Ex.owners Ex.dirs "AX_6.xlsx" "a@x.org"
              Ex.untitled_book
              (Frame [Str "Unnamed: 1"; Str "Unnamed: 2"] [Str "Title *"]
                     [[Str "title"]; [NaN]])
              (Ex.staged [("AX_6.xlsx"%string, Excel Ex.untitled_book)])
              eq_refl eq_refl eq_refl eq_refl
              (Str "Title *") []
              "en" "failure.txt" "Missing" "imap.x.org" "u" "p")
    as (w' & Hrun & _ & Herr & _ & Hout & _);
    try (vm_compute; reflexivity).
  exists w'. split; [exact Hrun|]. split; [by rewrite Herr | by rewrite Hout].
Defined.
